(** * EROFS mount-time metadata resolution (fs/erofs/super.c)

    A shallow embedding of the superblock decoder, the device-table
    resolver, the mount-option parser, the remount path and the managed
    cache invalidation loop of [fs/erofs/super.c], together with the
    properties of those functions.

    Conventions.
    - C integers are [Z]; where the C type is narrower than the values an
      expression can take, the wrap-around is written out ([wrap32],
      [wrap64]).
    - A function returning [int] returns a [Z]: [0] for success and a
      negative errno otherwise.
    - Kernel services the file calls out to (memory allocation, the
      metadata block reader, opening block devices and files) are answered
      by an [environment]; every call is recorded in a trace of [event]s,
      and the environment's answer may depend on the whole history.
    - Constants and structure layouts of the headers are parameters
      ([erofs_abi]), the configuration switches too ([kconfig]);
      [linux_abi] holds the values of the Linux headers and serves to run
      the definitions on concrete images. *)

From Stdlib Require Import ZArith List String Ascii Bool Lia Permutation.
From Stdlib Require Import Strings.Byte.
Import ListNotations.
Local Open Scope Z_scope.

(* ------------------------------------------------------------------ *)
(** ** Machine integers and error numbers *)

Definition wrap32 (x : Z) : Z := x mod 2 ^ 32.
Definition wrap64 (x : Z) : Z := x mod 2 ^ 64.

(** [~x] on a 32-bit unsigned operand. *)
Definition not32 (x : Z) : Z := Z.lxor x 0xFFFFFFFF.

Module Errno.
Definition EIO : positive := 5.
Definition ENOMEM : positive := 12.
Definition EINVAL : positive := 22.
Definition EBADMSG : positive := 74.
Definition EUCLEAN : positive := 117.
Definition EFSCORRUPTED : positive := EUCLEAN.
Definition E2BIG : positive := 7.
End Errno.
Import Errno.

(** The outcome of a kernel call that returns a pointer or an [ERR_PTR]. *)
Inductive result (A : Type) : Type :=
| Ok (a : A)
| Err (errno : positive).
Arguments Ok {A} a.
Arguments Err {A} errno.

(** [PTR_ERR]: the (negative) integer carried by an error pointer. *)
Definition PTR_ERR (e : positive) : Z := Z.neg e.

(* ------------------------------------------------------------------ *)
(** ** Raw buffers *)

Definition byte_to_Z (b : byte) : Z := Z.of_N (Byte.to_N b).

Definition get_u8 (buf : list byte) (off : nat) : Z :=
  byte_to_Z (nth off buf x00).

(** [leN_to_cpu] of the field found [off] bytes into [buf]. *)
Definition get_le16 (buf : list byte) (off : nat) : Z :=
  Z.lor (get_u8 buf off) (Z.shiftl (get_u8 buf (off + 1)) 8).

Definition get_le32 (buf : list byte) (off : nat) : Z :=
  Z.lor (get_le16 buf off) (Z.shiftl (get_le16 buf (off + 2)) 16).

Definition get_le64 (buf : list byte) (off : nat) : Z :=
  Z.lor (get_le32 buf off) (Z.shiftl (get_le32 buf (off + 4)) 32).

(** The [len] bytes of [buf] starting at [off]. *)
Definition sub_bytes (buf : list byte) (off len : nat) : list byte :=
  firstn len (skipn off buf).

(** Store the bytes [v] at offset [off] of [buf] (a [memcpy] or a field
    assignment inside the buffer; the buffer keeps its length). *)
Fixpoint put_bytes (buf : list byte) (off : nat) (v : list byte)
    {struct buf} : list byte :=
  match off, buf with
  | O, _ =>
      match v, buf with
      | [], _ => buf
      | _, [] => []
      | x :: v', _ :: buf' => x :: put_bytes buf' O v'
      end
  | S off', [] => []
  | S off', b :: buf' => b :: put_bytes buf' off' v
  end.

(** The C string stored in a buffer: the bytes before the first NUL. *)
Fixpoint cstring (buf : list byte) : list byte :=
  match buf with
  | [] => []
  | c :: rest => if Byte.eqb c x00 then [] else c :: cstring rest
  end.

Definition has_nul (buf : list byte) : bool :=
  existsb (fun c => Byte.eqb c x00) buf.

(** [strncpy(dst, src, n)] of [lib/string.c]: the [n] bytes written to
    [dst].  [src] is the memory starting at the source pointer, the bytes
    behind the source field included; copying stops at the first NUL,
    after which [dst] is padded with NULs. *)
Fixpoint strncpy (src : list byte) (n : nat) {struct n} : list byte :=
  match n with
  | O => []
  | S n' =>
      match src with
      | [] => repeat x00 n
      | c :: src' =>
          if Byte.eqb c x00 then repeat x00 n else c :: strncpy src' n'
      end
  end.

(** [buf[i] = '\0'] *)
Definition set_nul (buf : list byte) (i : nat) : list byte :=
  put_bytes buf i [x00].

(** [strscpy(dst, src, count)] of [lib/string.c]: the return value and
    the string left in [dst].  Without a NUL among the first [count] bytes of [src] the copy
    is cut after [count - 1] bytes and [-E2BIG] is returned. *)
Definition strscpy (src : list byte) (count : nat) : Z * list byte :=
  let s := firstn count src in
  if has_nul s then (Z.of_nat (List.length (cstring s)), cstring s)
  else (Z.neg E2BIG, firstn (count - 1) s).

(* ------------------------------------------------------------------ *)
(** ** Constants of the headers

    [erofs_fs.h], [internal.h], [linux/fs.h] and [asm/page.h] lie
    outside the verified file.  The constants and structure offsets
    that [super.c] takes from them are the fields of [erofs_abi]; every
    definition and theorem below is parametric in them. *)

Class erofs_abi : Type := {
  (* block geometry: internal.h *)
  LOG_BLOCK_SIZE : Z;
  EROFS_SUPER_OFFSET : nat;
  (* struct erofs_super_block: erofs_fs.h *)
  off_magic : nat;
  off_checksum : nat;
  off_feature_compat : nat;
  off_blkszbits : nat;
  off_root_nid : nat;
  off_inos : nat;
  off_build_time : nat;
  off_build_time_nsec : nat;
  off_blocks : nat;
  off_meta_blkaddr : nat;
  off_xattr_blkaddr : nat;
  off_uuid : nat;
  sizeof_uuid : nat;
  off_volume_name : nat;
  sizeof_volume_name : nat;
  off_feature_incompat : nat;
  off_extra_devices : nat;
  off_devt_slotoff : nat;
  EROFS_FEATURE_COMPAT_SB_CHKSUM : Z;
  EROFS_FEATURE_INCOMPAT_DEVICE_TABLE : Z;
  EROFS_ALL_FEATURE_INCOMPAT : Z;
  (* struct erofs_deviceslot: erofs_fs.h *)
  off_userdata : nat;
  sizeof_userdata : nat;
  off_dis_blocks : nat;
  off_dis_mapped_blkaddr : nat;
  sizeof_deviceslot : Z;
  (* struct erofs_inode_compact: erofs_fs.h *)
  sizeof_inode_compact : Z;
  (* mount option bits: internal.h *)
  EROFS_MOUNT_XATTR_USER : Z;
  EROFS_MOUNT_POSIX_ACL : Z;
  (* superblock flags: linux/fs.h *)
  SB_RDONLY : Z;
  SB_NOATIME : Z;
  SB_POSIXACL : Z;
  (* page size: asm/page.h *)
  PAGE_SIZE : Z
}.

(** The values of the Linux headers on a machine with 4 KiB pages, used
    to run the definitions on concrete inputs. *)
Definition linux_abi : erofs_abi := {|
  LOG_BLOCK_SIZE := 12;
  EROFS_SUPER_OFFSET := 1024;
  off_magic := 0;
  off_checksum := 4;
  off_feature_compat := 8;
  off_blkszbits := 12;
  off_root_nid := 14;
  off_inos := 16;
  off_build_time := 24;
  off_build_time_nsec := 32;
  off_blocks := 36;
  off_meta_blkaddr := 40;
  off_xattr_blkaddr := 44;
  off_uuid := 48;
  sizeof_uuid := 16;
  off_volume_name := 64;
  sizeof_volume_name := 16;
  off_feature_incompat := 80;
  off_extra_devices := 86;
  off_devt_slotoff := 88;
  EROFS_FEATURE_COMPAT_SB_CHKSUM := 0x00000001;
  EROFS_FEATURE_INCOMPAT_DEVICE_TABLE := 0x00000008;
  EROFS_ALL_FEATURE_INCOMPAT := 0x0000000F;
  off_userdata := 0;
  sizeof_userdata := 64;
  off_dis_blocks := 64;
  off_dis_mapped_blkaddr := 68;
  sizeof_deviceslot := 128;
  sizeof_inode_compact := 32;
  EROFS_MOUNT_XATTR_USER := 0x00000010;
  EROFS_MOUNT_POSIX_ACL := 0x00000020;
  SB_RDONLY := 1;
  SB_NOATIME := 1024;
  SB_POSIXACL := 65536;
  PAGE_SIZE := 4096
|}.

(** Modelled from the spec: the magic number [EROFS_SUPER_MAGIC_V1] of
    [erofs_fs.h], which the specification gives as [0xE0F5E1E2]. *)
Definition EROFS_SUPER_MAGIC_V1 : Z := 0xE0F5E1E2.

(** The kernel configuration switches [super.c] is compiled under. *)
Class kconfig : Type := {
  CONFIG_EROFS_FS_ZIP : bool;
  CONFIG_EROFS_FS_XATTR : bool;
  CONFIG_EROFS_FS_POSIX_ACL : bool
}.

Definition kconfig_all : kconfig := {|
  CONFIG_EROFS_FS_ZIP := true;
  CONFIG_EROFS_FS_XATTR := true;
  CONFIG_EROFS_FS_POSIX_ACL := true
|}.

Definition kconfig_nozip : kconfig := {|
  CONFIG_EROFS_FS_ZIP := false;
  CONFIG_EROFS_FS_XATTR := true;
  CONFIG_EROFS_FS_POSIX_ACL := true
|}.

(** [struct erofs_super_block] as seen through the pointer [dsb]: every
    multi-byte field already passed through [leN_to_cpu]. *)
Record erofs_super_block : Type := {
  dsb_magic : Z;
  dsb_checksum : Z;
  dsb_feature_compat : Z;
  dsb_blkszbits : Z;
  dsb_root_nid : Z;
  dsb_inos : Z;
  dsb_build_time : Z;
  dsb_build_time_nsec : Z;
  dsb_blocks : Z;
  dsb_meta_blkaddr : Z;
  dsb_xattr_blkaddr : Z;
  dsb_uuid : list byte;
  dsb_volume_name : list byte;
  dsb_feature_incompat : Z;
  dsb_extra_devices : Z;
  dsb_devt_slotoff : Z
}.

(* ------------------------------------------------------------------ *)
(** ** In-memory structures (internal.h, linux/fs.h) *)

Inductive cache_strategy_t : Type :=
| EROFS_ZIP_CACHE_DISABLED
| EROFS_ZIP_CACHE_READAHEAD
| EROFS_ZIP_CACHE_READAROUND.

(** An open [struct block_device *], [struct file *] or [struct path]. *)
Definition handle : Type := nat.

(** [struct erofs_device_info].  [kzalloc] leaves every field zero:
    [dev_zero]. *)
Record erofs_device_info : Type := {
  dif_path : option string;
  dif_bdev : option handle;
  dif_blobfile : option handle;
  dif_blocks : Z;
  dif_mapped_blkaddr : Z
}.

Definition dev_zero : erofs_device_info := {|
  dif_path := None; dif_bdev := None; dif_blobfile := None;
  dif_blocks := 0; dif_mapped_blkaddr := 0
|}.

(** [struct erofs_dev_context].  The IDR [tree] only ever grows, through
    [idr_alloc(&tree, dif, 0, 0, GFP_KERNEL)], which hands out the lowest
    free id: the entries are the list elements and an entry's id is its
    position. *)
Record erofs_dev_context : Type := {
  tree : list erofs_device_info;
  extra_devices : Z
}.

(** [struct erofs_sb_info], the fields [super.c] touches. *)
Record erofs_sb_info : Type := {
  mount_opt : Z;
  cache_strategy : cache_strategy_t;
  max_sync_decompress_pages : Z;
  devs : erofs_dev_context;
  bootstrap_path : option string;
  blob_dir_path : option string;
  bootstrap : option handle;
  blob_dir : option handle;
  total_blocks : Z;
  primarydevice_blocks : Z;
  device_id_mask : Z;
  feature_compat : Z;
  feature_incompat : Z;
  meta_blkaddr : Z;
  xattr_blkaddr : Z;
  islotbits : Z;
  root_nid : Z;
  inos : Z;
  build_time : Z;
  build_time_nsec : Z;
  volume_name : list byte;
  managed_cache : bool
}.

(** [struct super_block], the fields [super.c] reads or decides on;
    [s_fs_info] is the [erofs_sb_info] that [EROFS_SB(sb)] returns and
    [s_root], once made, the number of the root inode. *)
Record super_block : Type := {
  s_magic : Z;
  s_bdev : option handle;
  s_blocksize : Z;
  s_blocksize_bits : Z;
  s_flags : Z;
  s_uuid : list byte;
  s_root : option Z;
  s_fs_info : erofs_sb_info
}.

(** Field assignments. *)
Definition set_mount_opt (v : Z) (i : erofs_sb_info) : erofs_sb_info :=
  {| mount_opt := v; cache_strategy := cache_strategy i;
     max_sync_decompress_pages := max_sync_decompress_pages i;
     devs := devs i; bootstrap_path := bootstrap_path i;
     blob_dir_path := blob_dir_path i; bootstrap := bootstrap i;
     blob_dir := blob_dir i; total_blocks := total_blocks i;
     primarydevice_blocks := primarydevice_blocks i;
     device_id_mask := device_id_mask i;
     feature_compat := feature_compat i;
     feature_incompat := feature_incompat i;
     meta_blkaddr := meta_blkaddr i; xattr_blkaddr := xattr_blkaddr i;
     islotbits := islotbits i; root_nid := root_nid i; inos := inos i;
     build_time := build_time i; build_time_nsec := build_time_nsec i;
     volume_name := volume_name i; managed_cache := managed_cache i |}.

Definition set_cache_strategy (v : cache_strategy_t) (i : erofs_sb_info)
  : erofs_sb_info :=
  {| mount_opt := mount_opt i; cache_strategy := v;
     max_sync_decompress_pages := max_sync_decompress_pages i;
     devs := devs i; bootstrap_path := bootstrap_path i;
     blob_dir_path := blob_dir_path i; bootstrap := bootstrap i;
     blob_dir := blob_dir i; total_blocks := total_blocks i;
     primarydevice_blocks := primarydevice_blocks i;
     device_id_mask := device_id_mask i;
     feature_compat := feature_compat i;
     feature_incompat := feature_incompat i;
     meta_blkaddr := meta_blkaddr i; xattr_blkaddr := xattr_blkaddr i;
     islotbits := islotbits i; root_nid := root_nid i; inos := inos i;
     build_time := build_time i; build_time_nsec := build_time_nsec i;
     volume_name := volume_name i; managed_cache := managed_cache i |}.

Definition set_max_sync_decompress_pages (v : Z) (i : erofs_sb_info)
  : erofs_sb_info :=
  {| mount_opt := mount_opt i; cache_strategy := cache_strategy i;
     max_sync_decompress_pages := v;
     devs := devs i; bootstrap_path := bootstrap_path i;
     blob_dir_path := blob_dir_path i; bootstrap := bootstrap i;
     blob_dir := blob_dir i; total_blocks := total_blocks i;
     primarydevice_blocks := primarydevice_blocks i;
     device_id_mask := device_id_mask i;
     feature_compat := feature_compat i;
     feature_incompat := feature_incompat i;
     meta_blkaddr := meta_blkaddr i; xattr_blkaddr := xattr_blkaddr i;
     islotbits := islotbits i; root_nid := root_nid i; inos := inos i;
     build_time := build_time i; build_time_nsec := build_time_nsec i;
     volume_name := volume_name i; managed_cache := managed_cache i |}.

Definition set_devs (v : erofs_dev_context) (i : erofs_sb_info)
  : erofs_sb_info :=
  {| mount_opt := mount_opt i; cache_strategy := cache_strategy i;
     max_sync_decompress_pages := max_sync_decompress_pages i;
     devs := v; bootstrap_path := bootstrap_path i;
     blob_dir_path := blob_dir_path i; bootstrap := bootstrap i;
     blob_dir := blob_dir i; total_blocks := total_blocks i;
     primarydevice_blocks := primarydevice_blocks i;
     device_id_mask := device_id_mask i;
     feature_compat := feature_compat i;
     feature_incompat := feature_incompat i;
     meta_blkaddr := meta_blkaddr i; xattr_blkaddr := xattr_blkaddr i;
     islotbits := islotbits i; root_nid := root_nid i; inos := inos i;
     build_time := build_time i; build_time_nsec := build_time_nsec i;
     volume_name := volume_name i; managed_cache := managed_cache i |}.

Definition set_bootstrap_path (v : option string) (i : erofs_sb_info)
  : erofs_sb_info :=
  {| mount_opt := mount_opt i; cache_strategy := cache_strategy i;
     max_sync_decompress_pages := max_sync_decompress_pages i;
     devs := devs i; bootstrap_path := v;
     blob_dir_path := blob_dir_path i; bootstrap := bootstrap i;
     blob_dir := blob_dir i; total_blocks := total_blocks i;
     primarydevice_blocks := primarydevice_blocks i;
     device_id_mask := device_id_mask i;
     feature_compat := feature_compat i;
     feature_incompat := feature_incompat i;
     meta_blkaddr := meta_blkaddr i; xattr_blkaddr := xattr_blkaddr i;
     islotbits := islotbits i; root_nid := root_nid i; inos := inos i;
     build_time := build_time i; build_time_nsec := build_time_nsec i;
     volume_name := volume_name i; managed_cache := managed_cache i |}.

Definition set_blob_dir_path (v : option string) (i : erofs_sb_info)
  : erofs_sb_info :=
  {| mount_opt := mount_opt i; cache_strategy := cache_strategy i;
     max_sync_decompress_pages := max_sync_decompress_pages i;
     devs := devs i; bootstrap_path := bootstrap_path i;
     blob_dir_path := v; bootstrap := bootstrap i;
     blob_dir := blob_dir i; total_blocks := total_blocks i;
     primarydevice_blocks := primarydevice_blocks i;
     device_id_mask := device_id_mask i;
     feature_compat := feature_compat i;
     feature_incompat := feature_incompat i;
     meta_blkaddr := meta_blkaddr i; xattr_blkaddr := xattr_blkaddr i;
     islotbits := islotbits i; root_nid := root_nid i; inos := inos i;
     build_time := build_time i; build_time_nsec := build_time_nsec i;
     volume_name := volume_name i; managed_cache := managed_cache i |}.

Definition set_total_blocks (v : Z) (i : erofs_sb_info) : erofs_sb_info :=
  {| mount_opt := mount_opt i; cache_strategy := cache_strategy i;
     max_sync_decompress_pages := max_sync_decompress_pages i;
     devs := devs i; bootstrap_path := bootstrap_path i;
     blob_dir_path := blob_dir_path i; bootstrap := bootstrap i;
     blob_dir := blob_dir i; total_blocks := v;
     primarydevice_blocks := primarydevice_blocks i;
     device_id_mask := device_id_mask i;
     feature_compat := feature_compat i;
     feature_incompat := feature_incompat i;
     meta_blkaddr := meta_blkaddr i; xattr_blkaddr := xattr_blkaddr i;
     islotbits := islotbits i; root_nid := root_nid i; inos := inos i;
     build_time := build_time i; build_time_nsec := build_time_nsec i;
     volume_name := volume_name i; managed_cache := managed_cache i |}.

Definition set_device_id_mask (v : Z) (i : erofs_sb_info) : erofs_sb_info :=
  {| mount_opt := mount_opt i; cache_strategy := cache_strategy i;
     max_sync_decompress_pages := max_sync_decompress_pages i;
     devs := devs i; bootstrap_path := bootstrap_path i;
     blob_dir_path := blob_dir_path i; bootstrap := bootstrap i;
     blob_dir := blob_dir i; total_blocks := total_blocks i;
     primarydevice_blocks := primarydevice_blocks i;
     device_id_mask := v;
     feature_compat := feature_compat i;
     feature_incompat := feature_incompat i;
     meta_blkaddr := meta_blkaddr i; xattr_blkaddr := xattr_blkaddr i;
     islotbits := islotbits i; root_nid := root_nid i; inos := inos i;
     build_time := build_time i; build_time_nsec := build_time_nsec i;
     volume_name := volume_name i; managed_cache := managed_cache i |}.

Definition set_feature_compat (v : Z) (i : erofs_sb_info) : erofs_sb_info :=
  {| mount_opt := mount_opt i; cache_strategy := cache_strategy i;
     max_sync_decompress_pages := max_sync_decompress_pages i;
     devs := devs i; bootstrap_path := bootstrap_path i;
     blob_dir_path := blob_dir_path i; bootstrap := bootstrap i;
     blob_dir := blob_dir i; total_blocks := total_blocks i;
     primarydevice_blocks := primarydevice_blocks i;
     device_id_mask := device_id_mask i;
     feature_compat := v;
     feature_incompat := feature_incompat i;
     meta_blkaddr := meta_blkaddr i; xattr_blkaddr := xattr_blkaddr i;
     islotbits := islotbits i; root_nid := root_nid i; inos := inos i;
     build_time := build_time i; build_time_nsec := build_time_nsec i;
     volume_name := volume_name i; managed_cache := managed_cache i |}.

Definition set_feature_incompat (v : Z) (i : erofs_sb_info) : erofs_sb_info :=
  {| mount_opt := mount_opt i; cache_strategy := cache_strategy i;
     max_sync_decompress_pages := max_sync_decompress_pages i;
     devs := devs i; bootstrap_path := bootstrap_path i;
     blob_dir_path := blob_dir_path i; bootstrap := bootstrap i;
     blob_dir := blob_dir i; total_blocks := total_blocks i;
     primarydevice_blocks := primarydevice_blocks i;
     device_id_mask := device_id_mask i;
     feature_compat := feature_compat i;
     feature_incompat := v;
     meta_blkaddr := meta_blkaddr i; xattr_blkaddr := xattr_blkaddr i;
     islotbits := islotbits i; root_nid := root_nid i; inos := inos i;
     build_time := build_time i; build_time_nsec := build_time_nsec i;
     volume_name := volume_name i; managed_cache := managed_cache i |}.

Definition set_volume_name (v : list byte) (i : erofs_sb_info)
  : erofs_sb_info :=
  {| mount_opt := mount_opt i; cache_strategy := cache_strategy i;
     max_sync_decompress_pages := max_sync_decompress_pages i;
     devs := devs i; bootstrap_path := bootstrap_path i;
     blob_dir_path := blob_dir_path i; bootstrap := bootstrap i;
     blob_dir := blob_dir i; total_blocks := total_blocks i;
     primarydevice_blocks := primarydevice_blocks i;
     device_id_mask := device_id_mask i;
     feature_compat := feature_compat i;
     feature_incompat := feature_incompat i;
     meta_blkaddr := meta_blkaddr i; xattr_blkaddr := xattr_blkaddr i;
     islotbits := islotbits i; root_nid := root_nid i; inos := inos i;
     build_time := build_time i; build_time_nsec := build_time_nsec i;
     volume_name := v; managed_cache := managed_cache i |}.

Definition set_managed_cache (v : bool) (i : erofs_sb_info)
  : erofs_sb_info :=
  {| mount_opt := mount_opt i; cache_strategy := cache_strategy i;
     max_sync_decompress_pages := max_sync_decompress_pages i;
     devs := devs i; bootstrap_path := bootstrap_path i;
     blob_dir_path := blob_dir_path i; bootstrap := bootstrap i;
     blob_dir := blob_dir i; total_blocks := total_blocks i;
     primarydevice_blocks := primarydevice_blocks i;
     device_id_mask := device_id_mask i;
     feature_compat := feature_compat i;
     feature_incompat := feature_incompat i;
     meta_blkaddr := meta_blkaddr i; xattr_blkaddr := xattr_blkaddr i;
     islotbits := islotbits i; root_nid := root_nid i; inos := inos i;
     build_time := build_time i; build_time_nsec := build_time_nsec i;
     volume_name := volume_name i; managed_cache := v |}.

Definition set_bootstrap (v : option handle) (i : erofs_sb_info)
  : erofs_sb_info :=
  {| mount_opt := mount_opt i; cache_strategy := cache_strategy i;
     max_sync_decompress_pages := max_sync_decompress_pages i;
     devs := devs i; bootstrap_path := bootstrap_path i;
     blob_dir_path := blob_dir_path i; bootstrap := v;
     blob_dir := blob_dir i; total_blocks := total_blocks i;
     primarydevice_blocks := primarydevice_blocks i;
     device_id_mask := device_id_mask i;
     feature_compat := feature_compat i;
     feature_incompat := feature_incompat i;
     meta_blkaddr := meta_blkaddr i; xattr_blkaddr := xattr_blkaddr i;
     islotbits := islotbits i; root_nid := root_nid i; inos := inos i;
     build_time := build_time i; build_time_nsec := build_time_nsec i;
     volume_name := volume_name i; managed_cache := managed_cache i |}.

Definition set_blob_dir (v : option handle) (i : erofs_sb_info)
  : erofs_sb_info :=
  {| mount_opt := mount_opt i; cache_strategy := cache_strategy i;
     max_sync_decompress_pages := max_sync_decompress_pages i;
     devs := devs i; bootstrap_path := bootstrap_path i;
     blob_dir_path := blob_dir_path i; bootstrap := bootstrap i;
     blob_dir := v; total_blocks := total_blocks i;
     primarydevice_blocks := primarydevice_blocks i;
     device_id_mask := device_id_mask i;
     feature_compat := feature_compat i;
     feature_incompat := feature_incompat i;
     meta_blkaddr := meta_blkaddr i; xattr_blkaddr := xattr_blkaddr i;
     islotbits := islotbits i; root_nid := root_nid i; inos := inos i;
     build_time := build_time i; build_time_nsec := build_time_nsec i;
     volume_name := volume_name i; managed_cache := managed_cache i |}.

Definition set_s_magic (v : Z) (s : super_block) : super_block :=
  {| s_magic := v; s_bdev := s_bdev s; s_blocksize := s_blocksize s;
     s_blocksize_bits := s_blocksize_bits s; s_flags := s_flags s;
     s_uuid := s_uuid s; s_root := s_root s; s_fs_info := s_fs_info s |}.

Definition set_s_blocksize (v bits : Z) (s : super_block) : super_block :=
  {| s_magic := s_magic s; s_bdev := s_bdev s; s_blocksize := v;
     s_blocksize_bits := bits; s_flags := s_flags s;
     s_uuid := s_uuid s; s_root := s_root s; s_fs_info := s_fs_info s |}.

Definition set_s_flags (v : Z) (s : super_block) : super_block :=
  {| s_magic := s_magic s; s_bdev := s_bdev s; s_blocksize := s_blocksize s;
     s_blocksize_bits := s_blocksize_bits s; s_flags := v;
     s_uuid := s_uuid s; s_root := s_root s; s_fs_info := s_fs_info s |}.

Definition set_s_uuid (v : list byte) (s : super_block) : super_block :=
  {| s_magic := s_magic s; s_bdev := s_bdev s; s_blocksize := s_blocksize s;
     s_blocksize_bits := s_blocksize_bits s; s_flags := s_flags s;
     s_uuid := v; s_root := s_root s; s_fs_info := s_fs_info s |}.

Definition set_s_root (v : option Z) (s : super_block) : super_block :=
  {| s_magic := s_magic s; s_bdev := s_bdev s; s_blocksize := s_blocksize s;
     s_blocksize_bits := s_blocksize_bits s; s_flags := s_flags s;
     s_uuid := s_uuid s; s_root := v; s_fs_info := s_fs_info s |}.

Definition set_s_fs_info (v : erofs_sb_info) (s : super_block) : super_block :=
  {| s_magic := s_magic s; s_bdev := s_bdev s; s_blocksize := s_blocksize s;
     s_blocksize_bits := s_blocksize_bits s; s_flags := s_flags s;
     s_uuid := s_uuid s; s_root := s_root s; s_fs_info := v |}.

(* ------------------------------------------------------------------ *)
(** ** The kernel around [super.c] *)

(** One call out of [super.c]. *)
Inductive event : Type :=
| EvAlloc
    (* kmemdup, kzalloc, match_strdup, kstrdup, idr_alloc *)
| EvReadMeta (blkaddr : Z)
    (* erofs_read_metabuf(&buf, sb, blkaddr, EROFS_KMAP) *)
| EvBdevOpen (path : option string)
    (* blkdev_get_by_path(path, FMODE_READ | FMODE_EXCL, sb->s_type) *)
| EvFileOpen (path : option string)
    (* filp_open(path, O_RDONLY | O_LARGEFILE, 0) *)
| EvBlobOpen (dir : option handle) (name : list byte)
    (* file_open_root(dir.dentry, dir.mnt, name, O_RDONLY | O_LARGEFILE, 0) *)
| EvKernPath (path : option string)
    (* kern_path(path, LOOKUP_FOLLOW | LOOKUP_DIRECTORY, &sbi->blob_dir) *)
| EvSetBlocksize (size : Z)
    (* sb_set_blocksize(sb, size) *)
| EvIget (nid : Z)
    (* erofs_iget(sb, nid, true) *).

(** How the kernel answers.  Each answer may depend on the calls made so
    far, so that transient failures and exclusive opens are covered.  A
    path argument is [None] when the C pointer is [NULL]. *)
Record environment : Type := {
  alloc_ok : list event -> bool;
  erofs_read_metabuf : list event -> Z -> result (list byte);
  blkdev_get_by_path : list event -> option string -> result handle;
  filp_open : list event -> option string -> result handle;
  file_open_root :
    list event -> option handle -> list byte -> result handle;
  kern_path : list event -> option string -> result handle;
  sb_set_blocksize : list event -> Z -> bool;
  (* the [i_mode] of the inode read *)
  erofs_iget : list event -> Z -> result Z
}.

(** The superblock being mounted and the calls made so far. *)
Record state : Type := mkState {
  trace : list event;
  sb : super_block
}.

Definition log (e : event) (st : state) : state :=
  mkState (trace st ++ [e]) (sb st).

(** [EROFS_SB(sb)] *)
Definition EROFS_SB (st : state) : erofs_sb_info := s_fs_info (sb st).

(** An assignment through [sbi->...]. *)
Definition upd_sbi (f : erofs_sb_info -> erofs_sb_info) (st : state) : state :=
  mkState (trace st) (set_s_fs_info (f (EROFS_SB st)) (sb st)).

(** An assignment through [sb->...]. *)
Definition upd_sb (f : super_block -> super_block) (st : state) : state :=
  mkState (trace st) (f (sb st)).

(** A [kzalloc]ed [struct erofs_sb_info] with its [kzalloc]ed
    [struct erofs_dev_context]. *)
Definition sbi_zero : erofs_sb_info := {|
  mount_opt := 0;
  cache_strategy := EROFS_ZIP_CACHE_DISABLED;
  max_sync_decompress_pages := 0;
  devs := {| tree := []; extra_devices := 0 |};
  bootstrap_path := None;
  blob_dir_path := None;
  bootstrap := None;
  blob_dir := None;
  total_blocks := 0;
  primarydevice_blocks := 0;
  device_id_mask := 0;
  feature_compat := 0;
  feature_incompat := 0;
  meta_blkaddr := 0;
  xattr_blkaddr := 0;
  islotbits := 0;
  root_nid := 0;
  inos := 0;
  build_time := 0;
  build_time_nsec := 0;
  volume_name := [];
  managed_cache := false
|}.

(** [l[i] = x], for [i] inside the list. *)
Fixpoint list_set {X : Type} (i : nat) (x : X) (l : list X) : list X :=
  match l, i with
  | [], _ => []
  | _ :: t, O => x :: t
  | h :: t, S i' => h :: list_set i' x t
  end.

(** Modelled from the spec: [roundup_pow_of_two(n)] of [linux/log2.h],
    the next power of two, for [n >= 1]. *)
Definition roundup_pow_of_two (n : Z) : Z := 2 ^ Z.log2_up n.

(** [ilog2(n)] of [linux/log2.h], the base-two logarithm, for
    [n >= 1]. *)
Definition ilog2 (n : Z) : Z := Z.log2 n.

(** Where a loop of [erofs_init_devices] leaves to. *)
Inductive loop_exit : Type :=
| LoopEnd                 (* the loop condition became false *)
| LoopBreak (err : Z)     (* [break] with [err] set *)
| LoopReturn (err : Z)    (* [return err] or [goto err_out] *).

(** The mount option tokens. *)
Inductive token : Type :=
| Opt_user_xattr
| Opt_nouser_xattr
| Opt_acl
| Opt_noacl
| Opt_cache_strategy
| Opt_device
| Opt_bootstrap_path
| Opt_blob_dir_path
| Opt_err.

Definition erofs_tokens : list (token * string) := [
  (Opt_user_xattr, "user_xattr");
  (Opt_nouser_xattr, "nouser_xattr");
  (Opt_acl, "acl");
  (Opt_noacl, "noacl");
  (Opt_cache_strategy, "cache_strategy=%s");
  (Opt_device, "device=%s");
  (Opt_bootstrap_path, "bootstrap_path=%s");
  (Opt_blob_dir_path, "blob_dir_path=%s")
]%string.

(** Modelled from the spec: [match_one] of [lib/parser.c], which lies
    outside the verified file.  A key without [=] has to be the whole
    token; for [key=%s] the token has to start with [key=] and the value,
    the rest of the token, must not be missing.  The result is [None]
    when the pattern does not match and otherwise the value, if the
    pattern has one.  ([erofs_tokens] uses no other conversion than a
    final [%s].) *)
Fixpoint match_one (s p : string) : option (option string) :=
  match p with
  | EmptyString =>
      match s with EmptyString => Some None | _ => None end
  | String "%" (String "s" EmptyString) =>
      match s with EmptyString => None | _ => Some (Some s) end
  | String c p' =>
      match s with
      | EmptyString => None
      | String c' s' => if Ascii.eqb c c' then match_one s' p' else None
      end
  end.

(** Modelled from the spec: [match_token] of [lib/parser.c]: the token of
    the first pattern of the table that matches, with its value, and the
    token of the terminating entry ([Opt_err]) when none does. *)
Fixpoint match_token (s : string) (table : list (token * string))
  : token * option string :=
  match table with
  | [] => (Opt_err, None)
  | (t, p) :: table' =>
      match match_one s p with
      | Some arg => (t, arg)
      | None => match_token s table'
      end
  end.

(** Modelled from the spec: the successive results of
    [strsep(&options, ",")] of [lib/string.c]: the option string split at
    every comma, empty pieces included. *)
Fixpoint strsep_commas (options : string) : list string :=
  match options with
  | EmptyString => [EmptyString]
  | String c rest =>
      if Ascii.eqb c ","%char then EmptyString :: strsep_commas rest
      else
        match strsep_commas rest with
        | p :: ps => String c p :: ps
        | [] => [String c EmptyString]
        end
  end.

(** [!strcmp(a, b)] *)
Definition streq (a b : string) : bool := String.eqb a b.

(* ------------------------------------------------------------------ *)
(** ** The functions of [super.c] *)

Section Super.

Context {A : erofs_abi} {K : kconfig}.
Variable env : environment.
(** [crc32c(seed, buf, len)] of [lib/libcrc32c.c], over the whole of
    [buf]. *)
Variable crc32c : Z -> list byte -> Z.

(** Modelled from the spec: [EROFS_BLKSIZ] of [internal.h], the block
    size whose base-two logarithm is the supported [blkszbits]. *)
Definition EROFS_BLKSIZ : Z := Z.shiftl 1 LOG_BLOCK_SIZE.

(** Modelled from the spec: [erofs_blknr] and [erofs_blkoff] of
    [internal.h]: a byte position is [index * block_size +
    intra_block_offset]. *)
Definition erofs_blknr (addr : Z) : Z := addr / EROFS_BLKSIZ.
Definition erofs_blkoff (addr : Z) : Z := addr mod EROFS_BLKSIZ.

(** The cast [(struct erofs_super_block * )ptr], [rec] being the memory
    at [ptr]. *)
Definition dsb_at (rec : list byte) : erofs_super_block := {|
  dsb_magic := get_le32 rec off_magic;
  dsb_checksum := get_le32 rec off_checksum;
  dsb_feature_compat := get_le32 rec off_feature_compat;
  dsb_blkszbits := get_u8 rec off_blkszbits;
  dsb_root_nid := get_le16 rec off_root_nid;
  dsb_inos := get_le64 rec off_inos;
  dsb_build_time := get_le64 rec off_build_time;
  dsb_build_time_nsec := get_le32 rec off_build_time_nsec;
  dsb_blocks := get_le32 rec off_blocks;
  dsb_meta_blkaddr := get_le32 rec off_meta_blkaddr;
  dsb_xattr_blkaddr := get_le32 rec off_xattr_blkaddr;
  dsb_uuid := sub_bytes rec off_uuid sizeof_uuid;
  dsb_volume_name := sub_bytes rec off_volume_name sizeof_volume_name;
  dsb_feature_incompat := get_le32 rec off_feature_incompat;
  dsb_extra_devices := get_le16 rec off_extra_devices;
  dsb_devt_slotoff := get_le16 rec off_devt_slotoff
|}.

(** Modelled from the spec: the feature tests [erofs_sb_has_sb_chksum]
    and [erofs_sb_has_device_table] of [internal.h]: the feature's bit is
    set in the mount instance's compatible, respectively incompatible,
    feature mask. *)
Definition erofs_sb_has_sb_chksum (sbi : erofs_sb_info) : bool :=
  negb (Z.land (feature_compat sbi) EROFS_FEATURE_COMPAT_SB_CHKSUM =? 0).

Definition erofs_sb_has_device_table (sbi : erofs_sb_info) : bool :=
  negb (Z.land (feature_incompat sbi)
          EROFS_FEATURE_INCOMPAT_DEVICE_TABLE =? 0).

(** Modelled from the spec: [set_opt], [clear_opt] and [test_opt] of
    [internal.h], the toggle flags kept as bits of [mount_opt]. *)
Definition set_opt (bit : Z) (st : state) : state :=
  upd_sbi (fun i => set_mount_opt (Z.lor (mount_opt i) bit) i) st.

Definition clear_opt (bit : Z) (st : state) : state :=
  upd_sbi (fun i => set_mount_opt (Z.ldiff (mount_opt i) bit) i) st.

Definition test_opt (sbi : erofs_sb_info) (bit : Z) : bool :=
  negb (Z.land (mount_opt sbi) bit =? 0).

(** A memory allocation ([kmemdup], [kzalloc], [match_strdup],
    [kstrdup]): whether it succeeded. *)
Definition kmalloc (st : state) : bool * state :=
  (alloc_ok env (trace st), log EvAlloc st).

Definition read_metabuf (st : state) (blkaddr : Z)
  : result (list byte) * state :=
  (erofs_read_metabuf env (trace st) blkaddr, log (EvReadMeta blkaddr) st).

Definition erofs_superblock_csum_verify (st : state) (sbdata : list byte)
  : Z * state :=
  let '(ok, st) := kmalloc st in
  if negb ok then (Z.neg ENOMEM, st)
  else
    let dsb := sub_bytes sbdata EROFS_SUPER_OFFSET
                 (Z.to_nat EROFS_BLKSIZ - EROFS_SUPER_OFFSET) in
    let expected_crc := get_le32 dsb off_checksum in
    let dsb := put_bytes dsb off_checksum [x00; x00; x00; x00] in
    let crc := crc32c 0xFFFFFFFF dsb in
    if negb (crc =? expected_crc) then (Z.neg EBADMSG, st)
    else (0, st).

Definition check_layout_compatibility (st : state) (dsb : erofs_super_block)
  : bool * state :=
  let feature := dsb_feature_incompat dsb in
  let st := upd_sbi (set_feature_incompat feature) st in
  if negb (Z.land feature (not32 EROFS_ALL_FEATURE_INCOMPAT) =? 0)
  then (false, st)
  else (true, st).

(** The memory behind [dis = ptr + erofs_blkoff(pos)]. *)
Definition slot_at (ptr : list byte) (pos : Z) : list byte :=
  skipn (Z.to_nat (erofs_blkoff pos)) ptr.

(** [strncpy(blob_id, dis->u.userdata, sizeof(blob_id));
    blob_id[sizeof(blob_id) - 1] = '\0';] with
    [char blob_id[sizeof(dis->u.userdata) + 1]], and the string that
    [blob_id] then holds. *)
Definition blob_id_of (dis : list byte) : list byte :=
  let blob_id := strncpy (skipn off_userdata dis) (sizeof_userdata + 1) in
  let blob_id := set_nul blob_id (sizeof_userdata + 1 - 1) in
  cstring blob_id.

Definition set_tree (t : list erofs_device_info) (st : state) : state :=
  upd_sbi (fun i => set_devs {| tree := t;
                                extra_devices := extra_devices (devs i) |} i)
          st.

Definition set_extra_devices (n : Z) (st : state) : state :=
  upd_sbi (fun i => set_devs {| tree := tree (devs i);
                                extra_devices := n |} i)
          st.

Definition add_total_blocks (n : Z) (st : state) : state :=
  upd_sbi (fun i => set_total_blocks (wrap64 (total_blocks i + n)) i) st.

(** [idr_alloc(&sbi->devs->tree, dif, 0, 0, GFP_KERNEL)]: the new id, or
    [-ENOMEM]. *)
Definition idr_alloc (dif : erofs_device_info) (st : state) : Z * state :=
  let '(ok, st) := kmalloc st in
  if negb ok then (Z.neg ENOMEM, st)
  else
    let t := tree (devs (EROFS_SB st)) in
    (Z.of_nat (List.length t), set_tree (t ++ [dif]) st).

(** The [idr_for_each_entry] loop of [erofs_init_devices]: [todo] are
    the entries not yet visited, the first of them having id [id]. *)
Fixpoint init_devices_each (todo : list erofs_device_info) (id : nat)
    (st : state) (pos : Z) : loop_exit * state * Z :=
  match todo with
  | [] => (LoopEnd, st, pos)
  | dif :: todo' =>
      let '(ptr, st) := read_metabuf st (erofs_blknr pos) in
      match ptr with
      | Err e => (LoopBreak (PTR_ERR e), st, pos)
      | Ok ptr =>
          let dis := slot_at ptr pos in
          let opened :=
            match bootstrap (EROFS_SB st) with
            | None =>
                match blkdev_get_by_path env (trace st) (dif_path dif) with
                | Err e => Err e
                | Ok bdev =>
                    Ok {| dif_path := dif_path dif;
                          dif_bdev := Some bdev;
                          dif_blobfile := dif_blobfile dif;
                          dif_blocks := dif_blocks dif;
                          dif_mapped_blkaddr := dif_mapped_blkaddr dif |}
                end
            | Some _ =>
                match filp_open env (trace st) (dif_path dif) with
                | Err e => Err e
                | Ok f =>
                    Ok {| dif_path := dif_path dif;
                          dif_bdev := dif_bdev dif;
                          dif_blobfile := Some f;
                          dif_blocks := dif_blocks dif;
                          dif_mapped_blkaddr := dif_mapped_blkaddr dif |}
                end
            end in
          let st :=
            match bootstrap (EROFS_SB st) with
            | None => log (EvBdevOpen (dif_path dif)) st
            | Some _ => log (EvFileOpen (dif_path dif)) st
            end in
          match opened with
          | Err e => (LoopReturn (PTR_ERR e), st, pos)
          | Ok dif =>
              let dif :=
                {| dif_path := dif_path dif;
                   dif_bdev := dif_bdev dif;
                   dif_blobfile := dif_blobfile dif;
                   dif_blocks := get_le32 dis off_dis_blocks;
                   dif_mapped_blkaddr :=
                     get_le32 dis off_dis_mapped_blkaddr |} in
              let st :=
                set_tree (list_set id dif (tree (devs (EROFS_SB st)))) st in
              let st := add_total_blocks (dif_blocks dif) st in
              let pos := wrap64 (pos + sizeof_deviceslot) in
              init_devices_each todo' (S id) st pos
          end
      end
  end.

(** One turn of the loop that adds the blob files of the blob
    directory: [inl] with the value returned if the function is left,
    and otherwise [inr] with the position the next turn starts from. *)
Definition init_devices_blob (st : state) (pos : Z)
  : (Z + Z) * state :=
  let '(ptr, st) := read_metabuf st (erofs_blknr pos) in
  match ptr with
  | Err e => (inl (PTR_ERR e), st)
  | Ok ptr =>
      let dis := slot_at ptr pos in
      let '(ok, st) := kmalloc st in
      if negb ok then (inl (Z.neg ENOMEM), st)
      else
        let '(err, st) := idr_alloc dev_zero st in
        if err <? 0 then (inl err, st)
        else
          let id := Z.to_nat err in
          let blob_id := blob_id_of dis in
          let f := file_open_root env (trace st)
                     (blob_dir (EROFS_SB st)) blob_id in
          let st := log (EvBlobOpen (blob_dir (EROFS_SB st)) blob_id) st in
          match f with
          | Err e => (inl (PTR_ERR e), st)
          | Ok f =>
              let dif :=
                {| dif_path := None;
                   dif_bdev := None;
                   dif_blobfile := Some f;
                   dif_blocks := get_le32 dis off_dis_blocks;
                   dif_mapped_blkaddr :=
                     get_le32 dis off_dis_mapped_blkaddr |} in
              let st :=
                set_tree (list_set id dif (tree (devs (EROFS_SB st)))) st in
              let st := add_total_blocks (dif_blocks dif) st in
              let pos := wrap64 (pos + sizeof_deviceslot) in
              (* ++sbi->devs->extra_devices; below ondisk_extradevs, a
                 16-bit value, nothing wraps *)
              let st :=
                set_extra_devices
                  (extra_devices (devs (EROFS_SB st)) + 1) st in
              (inr pos, st)
          end
  end.

(** [while (sbi->devs->extra_devices < ondisk_extradevs) { ... }]; every
    turn adds one to [extra_devices], so [n] turns are enough as soon as
    [ondisk_extradevs - extra_devices <= n] (see [init_devices_blobs_turns]). *)
Fixpoint init_devices_blobs (n : nat) (ondisk_extradevs : Z)
    (st : state) (pos : Z) : Z * state :=
  if extra_devices (devs (EROFS_SB st)) <? ondisk_extradevs then
    match n with
    | O => (0, st)
    | S n' =>
        match init_devices_blob st pos with
        | (inl err, st) => (err, st)
        | (inr pos, st) => init_devices_blobs n' ondisk_extradevs st pos
        end
    end
  else (0, st).

Definition erofs_init_devices (st : state) (dsb : erofs_super_block)
  : Z * state :=
  let st :=
    upd_sbi (fun i => set_total_blocks (primarydevice_blocks i) i) st in
  let ondisk_extradevs :=
    if negb (erofs_sb_has_device_table (EROFS_SB st)) then 0
    else dsb_extra_devices dsb in
  if negb (ondisk_extradevs =? extra_devices (devs (EROFS_SB st))) &&
     match blob_dir_path (EROFS_SB st) with None => true | Some _ => false end
  then (Z.neg EINVAL, st)
  else if ondisk_extradevs =? 0 then (0, st)
  else
    (* at most 0xFFFF, [ondisk_extradevs] being a 16-bit value *)
    let st :=
      upd_sbi
        (set_device_id_mask
           (roundup_pow_of_two (ondisk_extradevs + 1) - 1)) st in
    let pos := dsb_devt_slotoff dsb * sizeof_deviceslot in
    match init_devices_each (tree (devs (EROFS_SB st))) 0 st pos with
    | (LoopReturn err, st, _) => (err, st)
    | (_, st, pos) =>
        init_devices_blobs
          (Z.to_nat (ondisk_extradevs - extra_devices (devs (EROFS_SB st))))
          ondisk_extradevs st pos
    end.

Definition erofs_read_superblock (st : state) : Z * state :=
  let '(data, st) := read_metabuf st 0 in
  match data with
  | Err e => (PTR_ERR e, st)
  | Ok data =>
      let dsb := dsb_at (skipn EROFS_SUPER_OFFSET data) in
      if negb (dsb_magic dsb =? EROFS_SUPER_MAGIC_V1) then (Z.neg EINVAL, st)
      else
        let st := upd_sbi (set_feature_compat (dsb_feature_compat dsb)) st in
        let '(ret, st) :=
          if erofs_sb_has_sb_chksum (EROFS_SB st)
          then erofs_superblock_csum_verify st data
          else (0, st) in
        if negb (ret =? 0) then (ret, st)
        else
          let blkszbits := dsb_blkszbits dsb in
          if negb (blkszbits =? LOG_BLOCK_SIZE) then (Z.neg EINVAL, st)
          else
            let '(compatible, st) := check_layout_compatibility st dsb in
            if negb compatible then (Z.neg EINVAL, st)
            else
              let st :=
                upd_sbi
                  (fun i =>
                     {| mount_opt := mount_opt i;
                        cache_strategy := cache_strategy i;
                        max_sync_decompress_pages :=
                          max_sync_decompress_pages i;
                        devs := devs i;
                        bootstrap_path := bootstrap_path i;
                        blob_dir_path := blob_dir_path i;
                        bootstrap := bootstrap i;
                        blob_dir := blob_dir i;
                        total_blocks := total_blocks i;
                        primarydevice_blocks := dsb_blocks dsb;
                        device_id_mask := device_id_mask i;
                        feature_compat := feature_compat i;
                        feature_incompat := feature_incompat i;
                        meta_blkaddr := dsb_meta_blkaddr dsb;
                        xattr_blkaddr :=
                          if CONFIG_EROFS_FS_XATTR
                          then dsb_xattr_blkaddr dsb
                          else xattr_blkaddr i;
                        islotbits := ilog2 sizeof_inode_compact;
                        root_nid := dsb_root_nid dsb;
                        inos := dsb_inos dsb;
                        build_time := dsb_build_time dsb;
                        build_time_nsec := dsb_build_time_nsec dsb;
                        volume_name := volume_name i;
                        managed_cache := managed_cache i |}) st in
              let st := upd_sb (set_s_uuid (dsb_uuid dsb)) st in
              let '(ret, name) :=
                strscpy (dsb_volume_name dsb) sizeof_volume_name in
              let st := upd_sbi (set_volume_name name) st in
              if ret <? 0 then (Z.neg EFSCORRUPTED, st)
              else erofs_init_devices st dsb
  end.

Definition erofs_build_cache_strategy (st : state) (args : option string)
  : Z * state :=
  if CONFIG_EROFS_FS_ZIP then
    let '(ok, st) := kmalloc st in          (* cs = match_strdup(args) *)
    if negb ok then (Z.neg ENOMEM, st)
    else
      let cs := match args with Some v => v | None => EmptyString end in
      if streq cs "disabled" then
        (0, upd_sbi (set_cache_strategy EROFS_ZIP_CACHE_DISABLED) st)
      else if streq cs "readahead" then
        (0, upd_sbi (set_cache_strategy EROFS_ZIP_CACHE_READAHEAD) st)
      else if streq cs "readaround" then
        (0, upd_sbi (set_cache_strategy EROFS_ZIP_CACHE_READAROUND) st)
      else (Z.neg EINVAL, st)
  else (0, st).

Definition erofs_default_options (st : state) : state :=
  let st :=
    if CONFIG_EROFS_FS_ZIP then
      upd_sbi (set_max_sync_decompress_pages 3)
        (upd_sbi (set_cache_strategy EROFS_ZIP_CACHE_READAROUND) st)
    else st in
  let st :=
    if CONFIG_EROFS_FS_XATTR then set_opt EROFS_MOUNT_XATTR_USER st
    else st in
  if CONFIG_EROFS_FS_POSIX_ACL then set_opt EROFS_MOUNT_POSIX_ACL st
  else st.

(** The body of the [while ((p = strsep(&options, ",")))] loop of
    [erofs_parse_options] for one piece [p]: [inl] with the value
    returned if the function is left, [inr] to go on with the next
    piece. *)
Definition parse_option (st : state) (p : string) : (Z + unit) * state :=
  if streq p EmptyString then (inr tt, st)
  else
    let '(token, arg) := match_token p erofs_tokens in
    match token with
    | Opt_user_xattr =>
        if CONFIG_EROFS_FS_XATTR
        then (inr tt, set_opt EROFS_MOUNT_XATTR_USER st)
        else (inr tt, st)
    | Opt_nouser_xattr =>
        if CONFIG_EROFS_FS_XATTR
        then (inr tt, clear_opt EROFS_MOUNT_XATTR_USER st)
        else (inr tt, st)
    | Opt_acl =>
        if CONFIG_EROFS_FS_POSIX_ACL
        then (inr tt, set_opt EROFS_MOUNT_POSIX_ACL st)
        else (inr tt, st)
    | Opt_noacl =>
        if CONFIG_EROFS_FS_POSIX_ACL
        then (inr tt, clear_opt EROFS_MOUNT_POSIX_ACL st)
        else (inr tt, st)
    | Opt_cache_strategy =>
        let '(err, st) := erofs_build_cache_strategy st arg in
        if negb (err =? 0) then (inl err, st) else (inr tt, st)
    | Opt_device =>
        let '(ok, st) := kmalloc st in        (* dif = kzalloc(...) *)
        if negb ok then (inl (Z.neg ENOMEM), st)
        else
          let '(ok, st) := kmalloc st in      (* match_strdup(&args[0]) *)
          if negb ok then (inl (Z.neg ENOMEM), st)
          else
            let dif :=
              {| dif_path := arg;
                 dif_bdev := None;
                 dif_blobfile := None;
                 dif_blocks := 0;
                 dif_mapped_blkaddr := 0 |} in
            let '(err, st) := idr_alloc dif st in
            if err <? 0 then (inl err, st)
            else
              (inr tt,
               set_extra_devices
                 (wrap32 (extra_devices (devs (EROFS_SB st)) + 1)) st)
    | Opt_blob_dir_path =>
        let '(ok, st) := kmalloc st in        (* match_strdup(&args[0]) *)
        if negb ok then (inl (Z.neg ENOMEM), upd_sbi (set_blob_dir_path None) st)
        else (inr tt, upd_sbi (set_blob_dir_path arg) st)
    | Opt_bootstrap_path =>
        let '(ok, st) := kmalloc st in        (* match_strdup(&args[0]) *)
        if negb ok
        then (inl (Z.neg ENOMEM), upd_sbi (set_bootstrap_path None) st)
        else (inr tt, upd_sbi (set_bootstrap_path arg) st)
    | Opt_err => (inl (Z.neg EINVAL), st)
    end.

Fixpoint parse_options_loop (st : state) (ps : list string) : Z * state :=
  match ps with
  | [] => (0, st)
  | p :: ps' =>
      match parse_option st p with
      | (inl err, st) => (err, st)
      | (inr _, st) => parse_options_loop st ps'
      end
  end.

(** [options] is [None] for a [NULL] pointer. *)
Definition erofs_parse_options (st : state) (options : option string)
  : Z * state :=
  match options with
  | None => (0, st)
  | Some options => parse_options_loop st (strsep_commas options)
  end.

(** The loop of [erofs_mount_is_rafs_v6] over the pieces of the copied
    option string. *)
Fixpoint mount_is_rafs_v6_loop (ps : list string) : bool :=
  match ps with
  | [] => false
  | p :: ps' =>
      if streq p EmptyString then mount_is_rafs_v6_loop ps'
      else
        match fst (match_token p erofs_tokens) with
        | Opt_bootstrap_path | Opt_blob_dir_path => true
        | _ => mount_is_rafs_v6_loop ps'
        end
  end.

Definition erofs_mount_is_rafs_v6 (st : state) (options : option string)
  : bool * state :=
  match options with
  | None => (false, st)
  | Some options =>
      let '(ok, st) := kmalloc st in          (* tmpstr = kstrdup(options) *)
      if negb ok then (false, st)
      else (mount_is_rafs_v6_loop (strsep_commas options), st)
  end.

(** [erofs_remount(sb, flags, data)]: the value returned, the state and
    the value left in [*flags].  ([DBG_BUGON(!sb_rdonly(sb))] compiles to
    nothing outside debug builds.) *)
Definition erofs_remount (st : state) (flags : Z) (data : option string)
  : Z * state * Z :=
  let sbi := EROFS_SB st in
  let org_mnt_opt := mount_opt sbi in
  let '(err, st) := erofs_parse_options st data in
  if negb (err =? 0) then
    (err, upd_sbi (set_mount_opt org_mnt_opt) st, flags)
  else
    let st :=
      if test_opt (EROFS_SB st) EROFS_MOUNT_POSIX_ACL
      then upd_sb (fun s => set_s_flags (Z.lor (s_flags s) SB_POSIXACL) s) st
      else upd_sb (fun s => set_s_flags (Z.ldiff (s_flags s) SB_POSIXACL) s)
             st in
    (0, st, Z.lor flags SB_RDONLY).

(** [sb_rdonly(sb)] of [linux/fs.h] *)
Definition sb_rdonly (s : super_block) : bool :=
  negb (Z.land (s_flags s) SB_RDONLY =? 0).

(** [erofs_init_managed_cache]: [new_inode(sb)] and the set-up of the
    inode's mapping. *)
Definition erofs_init_managed_cache (st : state) : Z * state :=
  if CONFIG_EROFS_FS_ZIP then
    let '(ok, st) := kmalloc st in
    if negb ok then (Z.neg ENOMEM, st)
    else (0, upd_sbi (set_managed_cache true) st)
  else (0, st).

Definition rafs_v6_fill_super (st : state) : Z * state :=
  let '(err, st) :=
    match bootstrap_path (EROFS_SB st) with
    | Some p =>
        let f := filp_open env (trace st) (Some p) in
        let st := log (EvFileOpen (Some p)) st in
        match f with
        | Err e => (PTR_ERR e, st)
        | Ok f => (0, upd_sbi (set_bootstrap (Some f)) st)
        end
    | None => (0, st)
    end in
  if negb (err =? 0) then (err, st)
  else
    match blob_dir_path (EROFS_SB st) with
    | Some p =>
        let ret := kern_path env (trace st) (Some p) in
        let st := log (EvKernPath (Some p)) st in
        match ret with
        | Err e => (PTR_ERR e, upd_sbi (set_blob_dir_path None) st)
        | Ok d => (0, upd_sbi (set_blob_dir (Some d)) st)
        end
    | None => (0, st)
    end.

(** [S_ISDIR(mode)] *)
Definition S_ISDIR (mode : Z) : bool := Z.land mode 0xF000 =? 0x4000.

(** [erofs_fill_super(sb, data, silent)].  Left out are the fields that
    are only stored ([s_maxbytes], [s_time_gran], [s_op], [s_xattr], the
    radix tree) and the registration of the shrinker. *)
Definition erofs_fill_super (st : state) (data : option string)
  : Z * state :=
  let st := upd_sb (set_s_magic EROFS_SUPER_MAGIC_V1) st in
  let '(ok, st) :=
    match s_bdev (sb st) with
    | Some _ =>
        (sb_set_blocksize env (trace st) EROFS_BLKSIZ,
         log (EvSetBlocksize EROFS_BLKSIZ) st)
    | None => (false, st)
    end in
  match s_bdev (sb st), ok with
  | Some _, false => (Z.neg EINVAL, st)
  | _, _ =>
      let st := upd_sb (set_s_blocksize EROFS_BLKSIZ LOG_BLOCK_SIZE) st in
      let '(ok, st) := kmalloc st in          (* sbi = kzalloc(...) *)
      if negb ok then (Z.neg ENOMEM, st)
      else
        let st := upd_sb (set_s_fs_info sbi_zero) st in
        let '(ok, st) := kmalloc st in        (* sbi->devs = kzalloc(...) *)
        if negb ok then (Z.neg ENOMEM, st)
        else
          let st :=
            upd_sb (fun s =>
                      set_s_flags
                        (Z.lor (s_flags s) (Z.lor SB_RDONLY SB_NOATIME)) s)
                   st in
          let st := erofs_default_options st in
          let '(err, st) := erofs_parse_options st data in
          if negb (err =? 0) then (err, st)
          else
            let '(err, st) := rafs_v6_fill_super st in
            if negb (err =? 0) then (err, st)
            else
              let '(err, st) := erofs_read_superblock st in
              if negb (err =? 0) then (err, st)
              else
                let st :=
                  if test_opt (EROFS_SB st) EROFS_MOUNT_POSIX_ACL
                  then upd_sb (fun s =>
                                 set_s_flags
                                   (Z.lor (s_flags s) SB_POSIXACL) s) st
                  else upd_sb (fun s =>
                                 set_s_flags
                                   (Z.ldiff (s_flags s) SB_POSIXACL) s) st in
                let nid := root_nid (EROFS_SB st) in
                let inode := erofs_iget env (trace st) nid in
                let st := log (EvIget nid) st in
                match inode with
                | Err e => (PTR_ERR e, st)
                | Ok i_mode =>
                    if negb (S_ISDIR i_mode) then (Z.neg EINVAL, st)
                    else
                      let '(ok, st) := kmalloc st in   (* d_make_root *)
                      if negb ok then (Z.neg ENOMEM, st)
                      else
                        let st := upd_sb (set_s_root (Some nid)) st in
                        erofs_init_managed_cache st
                end
  end.

End Super.

(* ------------------------------------------------------------------ *)
(** ** The managed cache ([CONFIG_EROFS_FS_ZIP]) *)

(** The page flags [super.c] looks at. *)
Record page : Type := {
  PageLocked : bool;
  PagePrivate : bool
}.

Inductive cache_event : Type :=
| EvTryFree        (* erofs_try_to_free_cached_page(mapping, page) *)
| EvResched        (* cond_resched() *).

(** A managed cache page and what has been done to it so far. *)
Record cache_state : Type := mkCache {
  cpage : page;
  ctrace : list cache_event
}.

Section ManagedCache.

Context {A : erofs_abi}.

(** Whether the compressed cluster behind the page is held by somebody
    else at this point of the history. *)
Variable busy : list cache_event -> bool.

(** Modelled from the spec: [erofs_try_to_free_cached_page] of
    [zdata.c], which lies outside the verified file.  The backing
    state is dropped, and 1 returned, if that loses nothing, that is, if
    no reader still holds the cluster; otherwise the page is busy and 0
    is returned. *)
Definition erofs_try_to_free_cached_page (c : cache_state)
  : Z * cache_state :=
  if busy (ctrace c) then (0, mkCache (cpage c) (ctrace c ++ [EvTryFree]))
  else
    (1, mkCache {| PageLocked := PageLocked (cpage c);
                   PagePrivate := false |}
          (ctrace c ++ [EvTryFree])).

Definition erofs_managed_cache_releasepage (c : cache_state)
  : Z * cache_state :=
  let ret := 1 in
  if PagePrivate (cpage c) then erofs_try_to_free_cached_page c
  else (ret, c).

Definition cond_resched (c : cache_state) : cache_state :=
  mkCache (cpage c) (ctrace c ++ [EvResched]).

(** [while (!erofs_managed_cache_releasepage(page, GFP_NOFS))
    cond_resched();] run for at most [fuel] turns; [None] when the loop
    is still running after them. *)
Fixpoint invalidatepage_loop (fuel : nat) (c : cache_state)
  : option cache_state :=
  match fuel with
  | O => None
  | S fuel' =>
      let '(ret, c) := erofs_managed_cache_releasepage c in
      if ret =? 0 then invalidatepage_loop fuel' (cond_resched c)
      else Some c
  end.

Definition erofs_managed_cache_invalidatepage (fuel : nat)
    (c : cache_state) (offset length : Z) : option cache_state :=
  let stop := wrap32 (length + offset) in
  if (offset =? 0) && (stop =? PAGE_SIZE)
  then invalidatepage_loop fuel c
  else Some c.

(** The history after [k] failed attempts, each followed by a yield. *)
Fixpoint spins (k : nat) : list cache_event :=
  match k with
  | O => []
  | S k' => EvTryFree :: EvResched :: spins k'
  end.

End ManagedCache.

(* ------------------------------------------------------------------ *)
(** ** CRC-32C and fixtures for running the definitions *)

(** CRC-32C as [lib/crc32.c] computes it bit by bit (Castagnoli
    polynomial, reflected): the running remainder is folded over the
    buffer and returned as it is, the caller supplying the seed. *)
Definition CRC32C_POLY_LE : Z := 0x82F63B78.

Definition crc32c_shift (crc : Z) : Z :=
  Z.lxor (Z.shiftr crc 1) (if Z.testbit crc 0 then CRC32C_POLY_LE else 0).

Definition crc32c_byte (crc : Z) (b : byte) : Z :=
  Nat.iter 8 crc32c_shift (Z.lxor crc (byte_to_Z b)).

Definition crc32c_le (crc : Z) (buf : list byte) : Z :=
  fold_left crc32c_byte buf crc.

(** The little-endian bytes of a value. *)
Definition byte_of_Z (z : Z) : byte :=
  match Byte.of_N (Z.to_N (z mod 256)) with
  | Some b => b
  | None => x00
  end.

Fixpoint le_bytes (n : nat) (z : Z) : list byte :=
  match n with
  | O => []
  | S n' => byte_of_Z z :: le_bytes n' (Z.shiftr z 8)
  end.

Definition bytes_of_string (s : string) : list byte :=
  List.map byte_of_ascii (list_ascii_of_string s).

(** A kernel in which every allocation and every open succeeds and
    block [b] of the metadata reads as [disk b]. *)
Definition env_ok (disk : Z -> result (list byte)) : environment := {|
  alloc_ok := fun _ => true;
  erofs_read_metabuf := fun _ b => disk b;
  blkdev_get_by_path := fun h _ => Ok (List.length h);
  filp_open := fun h _ => Ok (List.length h);
  file_open_root := fun h _ _ => Ok (List.length h);
  kern_path := fun h _ => Ok (List.length h);
  sb_set_blocksize := fun _ _ => true;
  erofs_iget := fun _ _ => Ok 0x41ED
|}.

(** The same kernel, out of memory. *)
Definition env_oom (disk : Z -> result (list byte)) : environment := {|
  alloc_ok := fun _ => false;
  erofs_read_metabuf := fun _ b => disk b;
  blkdev_get_by_path := fun h _ => Ok (List.length h);
  filp_open := fun h _ => Ok (List.length h);
  file_open_root := fun h _ _ => Ok (List.length h);
  kern_path := fun h _ => Ok (List.length h);
  sb_set_blocksize := fun _ _ => true;
  erofs_iget := fun _ _ => Ok 0x41ED
|}.

Definition no_disk : Z -> result (list byte) := fun _ => Err EIO.

Definition sb_zero : super_block := {|
  s_magic := 0; s_bdev := None; s_blocksize := 0; s_blocksize_bits := 0;
  s_flags := 0; s_uuid := []; s_root := None; s_fs_info := sbi_zero
|}.

Definition st_zero : state := mkState [] sb_zero.

(** An image block: [len] zero bytes with the given fields stored. *)
Fixpoint image (buf : list byte) (fields : list (nat * list byte))
  : list byte :=
  match fields with
  | [] => buf
  | (off, v) :: fields' => image (put_bytes buf off v) fields'
  end.

(* ------------------------------------------------------------------ *)
(** ** Notions used to state the properties *)

Section Notions.

Context {A : erofs_abi}.

(** Some bit of [feature] lies outside [EROFS_ALL_FEATURE_INCOMPAT]. *)
Definition unknown_incompat_bit (feature : Z) : Prop :=
  exists i, 0 <= i /\ Z.testbit feature i = true /\
            Z.testbit EROFS_ALL_FEATURE_INCOMPAT i = false.

(** The checksummed region as the specification words it: the bytes
    from the record's fixed offset through the end of block zero, with
    the checksum field zeroed. *)
Definition csum_region (block0 : list byte) : list byte :=
  let rec := skipn EROFS_SUPER_OFFSET block0 in
  firstn off_checksum rec ++ [x00; x00; x00; x00] ++
  skipn (off_checksum + 4) rec.

(** The number of extra devices the superblock declares, as
    [erofs_init_devices] takes it: none without the device-table
    feature. *)
Definition ondisk_extradevs (sbi : erofs_sb_info) (dsb : erofs_super_block)
  : Z :=
  if Z.land (feature_incompat sbi) EROFS_FEATURE_INCOMPAT_DEVICE_TABLE =? 0
  then 0 else dsb_extra_devices dsb.

(** The position of the slot after the one at [pos], and of the [i]-th
    slot of the device table. *)
Definition next_slot (pos : Z) : Z := wrap64 (pos + sizeof_deviceslot).

Definition slot_pos (dsb : erofs_super_block) (i : nat) : Z :=
  Nat.iter i next_slot (dsb_devt_slotoff dsb * sizeof_deviceslot).

(** The memory of the slot at [pos] on a disk whose blocks are [disk],
    and its fields. *)
Definition slot_on (disk : Z -> list byte) (pos : Z) : list byte :=
  slot_at (disk (erofs_blknr pos)) pos.

Definition slot_blocks (disk : Z -> list byte) (pos : Z) : Z :=
  get_le32 (slot_on disk pos) off_dis_blocks.

Definition slot_mapped_blkaddr (disk : Z -> list byte) (pos : Z) : Z :=
  get_le32 (slot_on disk pos) off_dis_mapped_blkaddr.

(** The identifier field of a slot. *)
Definition slot_userdata (dis : list byte) : list byte :=
  sub_bytes dis off_userdata sizeof_userdata.

End Notions.

(** No comma occurs in the string. *)
Fixpoint no_comma (s : string) : bool :=
  match s with
  | EmptyString => true
  | String c rest => negb (Ascii.eqb c ","%char) && no_comma rest
  end.

(** The cache strategy a value of the [cache_strategy] option names. *)
Definition cache_strategy_of (v : string) : option cache_strategy_t :=
  if String.eqb v "disabled" then Some EROFS_ZIP_CACHE_DISABLED
  else if String.eqb v "readahead" then Some EROFS_ZIP_CACHE_READAHEAD
  else if String.eqb v "readaround" then Some EROFS_ZIP_CACHE_READAROUND
  else None.

(** The blob files opened in a trace: directory and name, in order. *)
Definition blob_opens (tr : list event)
  : list (option handle * list byte) :=
  flat_map (fun e => match e with
                     | EvBlobOpen d n => [(d, n)]
                     | _ => []
                     end) tr.

Definition sum_blocks (l : list erofs_device_info) : Z :=
  fold_right (fun d acc => dif_blocks d + acc) 0 l.

(** The state reached from [st] by the device-table loops: they only
    extend the trace and change the device registry and the block
    total. *)
Definition with_devices (st : state) (tr : list event)
    (t : list erofs_device_info) (n : Z) (total : Z) : state :=
  mkState tr
    (set_s_fs_info
       (set_total_blocks total
          (set_devs {| tree := t; extra_devices := n |} (EROFS_SB st)))
       (sb st)).

(** [total_blocks += dif->blocks] over the descriptors of [l]. *)
Definition accum_blocks (total : Z) (l : list erofs_device_info) : Z :=
  fold_left (fun t d => wrap64 (t + dif_blocks d)) l total.

(** A descriptor as [erofs_parse_options] registers it: not yet opened
    and without block range. *)
Definition dif_fresh (d : erofs_device_info) : Prop :=
  dif_bdev d = None /\ dif_blobfile d = None /\
  dif_blocks d = 0 /\ dif_mapped_blkaddr d = 0.

(** A descriptor with an open handle. *)
Definition dif_opened (d : erofs_device_info) : Prop :=
  dif_bdev d <> None \/ dif_blobfile d <> None.

(** A kernel that serves every request: memory is available, the
    metadata blocks read as [disk] and every open succeeds. *)
Record kernel_serves (env : environment) (disk : Z -> list byte) : Prop := {
  serves_alloc : forall h, alloc_ok env h = true;
  serves_read : forall h b, erofs_read_metabuf env h b = Ok (disk b);
  serves_bdev : forall h p, exists f, blkdev_get_by_path env h p = Ok f;
  serves_file : forall h p, exists f, filp_open env h p = Ok f;
  serves_blob : forall h d n, exists f, file_open_root env h d n = Ok f
}.

(** A 4 KiB block of zeros with the given superblock fields stored at
    the offsets of [linux_abi]. *)
Definition sb_image (feature_compat feature_incompat blocks : Z)
    (extra_devices devt_slotoff : Z) (checksum : Z) : list byte :=
  image (repeat x00 4096)
    [ (1024 + 0, le_bytes 4 EROFS_SUPER_MAGIC_V1);
      (1024 + 4, le_bytes 4 checksum);
      (1024 + 8, le_bytes 4 feature_compat);
      (1024 + 12, le_bytes 1 12);
      (1024 + 36, le_bytes 4 blocks);
      (1024 + 80, le_bytes 4 feature_incompat);
      (1024 + 86, le_bytes 2 extra_devices);
      (1024 + 88, le_bytes 2 devt_slotoff) ]%nat.

(** A disk whose only block is [blk]. *)
Definition one_block_disk (blk : list byte) : Z -> result (list byte) :=
  fun b => if b =? 0 then Ok blk else Err EIO.

(** A device-table slot stored at byte [off] of a block (offsets of
    [linux_abi]). *)
Definition devt_image (blk : list byte) (off : nat) (id : list byte)
    (blocks mapped : Z) : list byte :=
  image blk [ (off, id);
              ((off + 64)%nat, le_bytes 4 blocks);
              ((off + 68)%nat, le_bytes 4 mapped) ].

(** A disk all of whose blocks can be read. *)
Definition whole_disk (blocks : list (list byte)) : Z -> list byte :=
  fun b => nth (Z.to_nat b) blocks [].

Definition serving (disk : Z -> list byte) : environment :=
  env_ok (fun b => Ok (disk b)).

(** The state in which [erofs_read_superblock] is entered by
    [erofs_fill_super] mounting with the options [opts], and the one in
    which it enters [erofs_init_devices] once the incompatible features
    [dsb] declares are recorded. *)
Definition configured (env : environment) (opts : string) : state :=
  snd (@rafs_v6_fill_super env
         (snd (@erofs_parse_options linux_abi kconfig_all env
                 (@erofs_default_options linux_abi kconfig_all st_zero)
                 (Some opts)))).

Definition resolving (env : environment) (opts : string)
    (dsb : erofs_super_block) : state :=
  snd (@check_layout_compatibility linux_abi (configured env opts) dsb).

(** The superblock record of an image block (offsets of [linux_abi]). *)
Definition dsb_of (block0 : list byte) : erofs_super_block :=
  @dsb_at linux_abi (skipn 1024 block0).



(** An image that announces one extra device and places the device
    table in block 1, on a disk that ends after block 0. *)
Definition img_far : list byte := sb_image 0 8 100 1 32 0.

(** An image with two slots in block 0. *)
Definition img_two : list byte :=
  devt_image
    (devt_image (sb_image 0 8 100 2 16 0) 2048
       (bytes_of_string "blob-a") 50 100)
    2176 (bytes_of_string "blob-b") 70 150.

(** The [super_block] that [mount_bdev] hands to [erofs_fill_super]. *)
Definition st_bdev : state :=
  mkState [] {| s_magic := 0; s_bdev := Some O; s_blocksize := 0;
                s_blocksize_bits := 0; s_flags := 0; s_uuid := [];
                s_root := None; s_fs_info := sbi_zero |}.

(** A volume mounted from a block device without options: the state
    [erofs_fill_super] leaves behind. *)
Definition mounted : state :=
  snd (@erofs_fill_super linux_abi kconfig_all
         (env_ok (one_block_disk (sb_image 0 0 100 0 0 0))) crc32c_le
         st_bdev (Some EmptyString)).

Section Remounts.

Context {A : erofs_abi} {K : kconfig}.
Variable env : environment.

(** The state after a series of remount requests, each with its flags
    and option string. *)
Fixpoint remount_all (st : state) (reqs : list (Z * option string))
  : state :=
  match reqs with
  | [] => st
  | (flags, data) :: reqs' =>
      remount_all (snd (fst (erofs_remount env st flags data))) reqs'
  end.

End Remounts.

(** The page of [c] with its backing state dropped, after the calls
    [tr]. *)
Definition released (c : cache_state) (tr : list cache_event) : cache_state :=
  mkCache {| PageLocked := PageLocked (cpage c); PagePrivate := false |} tr.

(** A cluster held by a reader during the first two attempts, and a
    locked page of the managed cache with backing state. *)
Definition busy_twice : list cache_event -> bool :=
  fun h => (List.length h <? 4)%nat.

Definition page_cached : cache_state :=
  mkCache {| PageLocked := true; PagePrivate := true |} [].
(* ------------------------------------------------------------------ *)
(** ** Statistics, option listing, mount dispatch, teardown and module
    set-up *)

(** [struct kstatfs], the fields [erofs_statfs] fills in. *)
Record kstatfs : Type := {
  f_type : Z;
  f_bsize : Z;
  f_blocks : Z;
  f_bfree : Z;
  f_bavail : Z;
  f_files : Z;
  f_ffree : Z;
  f_namelen : Z;
  f_fsid : Z * Z          (* f_fsid.val[0], f_fsid.val[1] *)
}.

Definition ULLONG_MAX : Z := 2 ^ 64 - 1.

(** The conversion to [int], the type of [f_fsid.val[i]]. *)
Definition to_int (x : Z) : Z := (x + 2 ^ 31) mod 2 ^ 32 - 2 ^ 31.

Section Statfs.

Context {A : erofs_abi}.

(** [EROFS_NAME_LEN] of [erofs_fs.h], the device number [bdev->bd_dev]
    of an open block device and [huge_encode_dev] of [linux/kdev_t.h],
    which returns a [u64]. *)
Variable EROFS_NAME_LEN : Z.
Variable bd_dev : handle -> Z.
Variable huge_encode_dev : Z -> Z.

(** [erofs_statfs(dentry, buf)] with [sb = dentry->d_sb]: the value
    returned and what is stored in [buf]. *)
Definition erofs_statfs (s : super_block) : Z * kstatfs :=
  let sbi := s_fs_info s in
  let id :=
    match s_bdev s with
    | Some bdev => huge_encode_dev (bd_dev bdev)
    | None => 0
    end in
  (0,
   {| f_type := s_magic s;
      f_bsize := EROFS_BLKSIZ;
      f_blocks := total_blocks sbi;
      f_bfree := 0;
      f_bavail := 0;
      f_files := ULLONG_MAX;
      f_ffree := wrap64 (ULLONG_MAX - inos sbi);
      f_namelen := EROFS_NAME_LEN;
      f_fsid := (to_int (wrap32 id), to_int (wrap32 (Z.shiftr id 32))) |}).

End Statfs.

Section ShowOptions.

Context {A : erofs_abi} {K : kconfig}.

(** [seq_puts(seq, s)]: [s] is appended to what [seq] holds. *)
Definition seq_puts (seq s : string) : string := (seq ++ s)%string.

(** [erofs_show_options(seq, root)] with [sbi = EROFS_SB(root->d_sb)]:
    the value returned and what [seq] holds afterwards. *)
Definition erofs_show_options (seq : string) (st : state) : Z * string :=
  let sbi := EROFS_SB st in
  let seq :=
    if CONFIG_EROFS_FS_XATTR then
      if test_opt sbi EROFS_MOUNT_XATTR_USER
      then seq_puts seq ",user_xattr"
      else seq_puts seq ",nouser_xattr"
    else seq in
  let seq :=
    if CONFIG_EROFS_FS_POSIX_ACL then
      if test_opt sbi EROFS_MOUNT_POSIX_ACL
      then seq_puts seq ",acl"
      else seq_puts seq ",noacl"
    else seq in
  let seq :=
    if CONFIG_EROFS_FS_ZIP then
      match cache_strategy sbi with
      | EROFS_ZIP_CACHE_DISABLED => seq_puts seq ",cache_strategy=disabled"
      | EROFS_ZIP_CACHE_READAHEAD => seq_puts seq ",cache_strategy=readahead"
      | EROFS_ZIP_CACHE_READAROUND =>
          seq_puts seq ",cache_strategy=readaround"
      end
    else seq in
  (0, seq).

End ShowOptions.

(** The helper of [fs/super.c] that [erofs_mount] hands the mount to. *)
Inductive mount_helper : Type :=
| mount_nodev       (* mount_nodev(fs_type, flags, data, erofs_fill_super) *)
| mount_bdev        (* mount_bdev(fs_type, flags, dev_name, data,
                       erofs_fill_super) *).

Section Mount.

Context {A : erofs_abi} {K : kconfig}.
Variable env : environment.

Definition erofs_mount (st : state) (data : option string)
  : mount_helper * state :=
  let '(rafs, st) := erofs_mount_is_rafs_v6 env st data in
  if rafs then (mount_nodev, st) else (mount_bdev, st).

(** The mount instance as [erofs_fill_super] hands it to the option
    parser, for a superblock whose block size could be set and whose
    [kzalloc]s succeeded: magic and block size stored, [s_fs_info] a
    zeroed [erofs_sb_info] with a zeroed device context, the volume
    flagged read-only and the default options set. *)
Definition fill_super_ready (st : state) : state :=
  let st := upd_sb (set_s_magic EROFS_SUPER_MAGIC_V1) st in
  let st :=
    match s_bdev (sb st) with
    | Some _ => log (EvSetBlocksize EROFS_BLKSIZ) st
    | None => st
    end in
  let st := upd_sb (set_s_blocksize EROFS_BLKSIZ LOG_BLOCK_SIZE) st in
  let st := upd_sb (set_s_fs_info sbi_zero) (log EvAlloc st) in
  let st :=
    upd_sb (fun s =>
              set_s_flags (Z.lor (s_flags s) (Z.lor SB_RDONLY SB_NOATIME)) s)
           (log EvAlloc st) in
  erofs_default_options st.

(** The mount instance and its device context can be set up: the block
    size of a block device can be set and the two [kzalloc]s succeed. *)
Definition fill_super_can_start (st : state) : Prop :=
  let tr0 :=
    trace st ++
    match s_bdev (sb st) with
    | Some _ => [EvSetBlocksize EROFS_BLKSIZ]
    | None => []
    end in
  (s_bdev (sb st) <> None ->
   sb_set_blocksize env (trace st) EROFS_BLKSIZ = true) /\
  alloc_ok env tr0 = true /\
  alloc_ok env (tr0 ++ [EvAlloc]) = true.

(** What [erofs_fill_super] does once the superblock [s3] is read
    without error: the ACL flag, the root inode, the root dentry and
    the managed cache. *)
Definition fill_super_finished (s3 : state) (r : Z * state) : Prop :=
  let nid := root_nid (EROFS_SB s3) in
  (exists evs, trace (snd r) = trace s3 ++ EvIget nid :: evs /\
               Forall (fun ev => ev = EvAlloc) evs) /\
  (forall c, set_managed_cache c (EROFS_SB (snd r)) =
             set_managed_cache c (EROFS_SB s3)) /\
  s_magic (sb (snd r)) = s_magic (sb s3) /\
  s_bdev (sb (snd r)) = s_bdev (sb s3) /\
  s_blocksize (sb (snd r)) = s_blocksize (sb s3) /\
  s_blocksize_bits (sb (snd r)) = s_blocksize_bits (sb s3) /\
  s_uuid (sb (snd r)) = s_uuid (sb s3) /\
  s_flags (sb (snd r)) =
    (if test_opt (EROFS_SB s3) EROFS_MOUNT_POSIX_ACL
     then Z.lor (s_flags (sb s3)) SB_POSIXACL
     else Z.ldiff (s_flags (sb s3)) SB_POSIXACL) /\
  (fst r = 0 \/ fst r < 0) /\
  (fst r = 0 ->
   s_root (sb (snd r)) = Some nid /\
   (exists i_mode, erofs_iget env (trace s3) nid = Ok i_mode /\
                   S_ISDIR i_mode = true) /\
   (CONFIG_EROFS_FS_ZIP = true -> managed_cache (EROFS_SB (snd r)) = true)) /\
  (managed_cache (EROFS_SB s3) = false ->
   managed_cache (EROFS_SB (snd r)) = true ->
   s_root (sb (snd r)) <> None).

End Mount.

(** A bootstrap or a blob directory is configured. *)
Definition rafs_mode (st : state) : Prop :=
  bootstrap_path (EROFS_SB st) <> None \/ blob_dir_path (EROFS_SB st) <> None.

(** What [erofs_kill_sb] gives back: a block device reference, an open
    file, a path reference. *)
Inductive release : Type :=
| blkdev_put (bdev : handle)     (* blkdev_put(bdev, FMODE_READ | FMODE_EXCL) *)
| filp_close (f : handle)        (* filp_close(f, NULL) *)
| path_put (dir : handle)        (* path_put(&path) *).

(** The shutdown function of [fs/super.c] that [erofs_kill_sb] calls. *)
Inductive shutdown : Type :=
| kill_block_super
| generic_shutdown_super.

(** [erofs_release_device_info(id, ptr, data)]: the value returned and
    the references dropped. *)
Definition erofs_release_device_info (id : nat) (dif : erofs_device_info)
  : Z * list release :=
  let r1 :=
    match dif_bdev dif with Some bdev => [blkdev_put bdev] | None => [] end in
  let r2 :=
    match dif_blobfile dif with Some f => [filp_close f] | None => [] end in
  (0, r1 ++ r2).

(** [idr_for_each(&tree, fn, NULL)] of [lib/idr.c]: [fn] is called on
    the entries in the order of their ids, until it returns non-zero;
    [id] is the id of the first entry of [l]. *)
Fixpoint idr_for_each {X : Type} (fn : nat -> X -> Z * list release)
    (id : nat) (l : list X) : Z * list release :=
  match l with
  | [] => (0, [])
  | x :: l' =>
      let '(ret, r) := fn id x in
      if negb (ret =? 0) then (ret, r)
      else
        let '(ret, r') := idr_for_each fn (S id) l' in
        (ret, r ++ r')
  end.

(** [erofs_free_dev_context(devs)]; [devs] is [None] for [NULL]. *)
Definition erofs_free_dev_context (devs : option erofs_dev_context)
  : list release :=
  match devs with
  | None => []
  | Some devs => snd (idr_for_each erofs_release_device_info 0 (tree devs))
  end.

(** [erofs_kill_sb(sb)].  [fs_info] is what [sb->s_fs_info] points to:
    [None] for [NULL], and otherwise the mount instance together with
    what its [devs] points to.  ([path_put] of a [struct path] that is
    still zero drops nothing.) *)
Definition erofs_kill_sb (s : super_block)
    (fs_info : option (erofs_sb_info * option erofs_dev_context))
  : shutdown * list release :=
  let how :=
    match s_bdev s with
    | Some _ => kill_block_super
    | None => generic_shutdown_super
    end in
  match fs_info with
  | None => (how, [])
  | Some (sbi, devs) =>
      let r := erofs_free_dev_context devs in
      let r :=
        match bootstrap sbi with
        | Some f => r ++ [filp_close f]
        | None => r
        end in
      let r :=
        match blob_dir_path sbi with
        | Some _ =>
            match blob_dir sbi with
            | Some d => r ++ [path_put d]
            | None => r
            end
        | None => r
        end in
      (how, r)
  end.

(** [s_fs_info] of a superblock whose mount instance and device context
    were allocated. *)
Definition fs_info_of (st : state)
  : option (erofs_sb_info * option erofs_dev_context) :=
  Some (EROFS_SB st, Some (devs (EROFS_SB st))).

(** The reference a call hands out, given the calls [tr] made before
    it, as the release that gives it back; and the references handed
    out over the calls [evs] made after [tr]. *)
Definition owed_for (env : environment) (tr : list event) (ev : event)
  : list release :=
  match ev with
  | EvBdevOpen p =>
      match blkdev_get_by_path env tr p with
      | Ok bdev => [blkdev_put bdev]
      | Err _ => []
      end
  | EvFileOpen p =>
      match filp_open env tr p with
      | Ok f => [filp_close f]
      | Err _ => []
      end
  | EvBlobOpen d n =>
      match file_open_root env tr d n with
      | Ok f => [filp_close f]
      | Err _ => []
      end
  | EvKernPath p =>
      match kern_path env tr p with
      | Ok d => [path_put d]
      | Err _ => []
      end
  | _ => []
  end.

Fixpoint owed (env : environment) (tr evs : list event) : list release :=
  match evs with
  | [] => []
  | ev :: evs' => owed_for env tr ev ++ owed env (tr ++ [ev]) evs'
  end.

(** The references a mount instance holds. *)
Definition held_devices (t : list erofs_device_info) : list release :=
  flat_map (fun dif => snd (erofs_release_device_info 0 dif)) t.

(** The fields of [struct super_block] that only [erofs_fill_super]
    and [erofs_remount] themselves assign. *)
Definition sb_vfs (s : super_block) : Z * option handle * Z * Z * Z * option Z :=
  (s_magic s, s_bdev s, s_blocksize s, s_blocksize_bits s, s_flags s,
   s_root s).

(** Calls that read the disk or open a file, a block device or a
    directory. *)
Definition is_io (ev : event) : bool :=
  match ev with
  | EvAlloc | EvSetBlocksize _ => false
  | _ => true
  end.

(* ------------------------------------------------------------------ *)
(** ** Module set-up *)

(** What [erofs_module_init] sets up. *)
Inductive subsystem : Type :=
| InodeCache      (* erofs_inode_cachep *)
| Shrinker        (* erofs_init_shrinker / erofs_exit_shrinker *)
| ZipSubsystem    (* z_erofs_init_zip_subsystem / z_erofs_exit_zip_subsystem *)
| Filesystem      (* register_filesystem / unregister_filesystem *).

Definition subsystem_eqb (a b : subsystem) : bool :=
  match a, b with
  | InodeCache, InodeCache | Shrinker, Shrinker
  | ZipSubsystem, ZipSubsystem | Filesystem, Filesystem => true
  | _, _ => false
  end.

Inductive module_event : Type :=
| EvSetUp (s : subsystem) (ok : bool)   (* a set-up call and whether it
                                           succeeded *)
| EvTearDown (s : subsystem)
| EvRcuBarrier.

(** How the set-up calls answer: whether [kmem_cache_create] returned a
    cache, and the values returned by the three [int] functions. *)
Record module_environment : Type := {
  kmem_cache_create : list module_event -> bool;
  erofs_init_shrinker : list module_event -> Z;
  z_erofs_init_zip_subsystem : list module_event -> Z;
  register_filesystem : list module_event -> Z
}.

Section Module.

Variable menv : module_environment.

(** [erofs_module_init()]; [erofs_check_ondisk_layout_definitions] only
    holds compile-time assertions. *)
Definition erofs_module_init (tr : list module_event)
  : Z * list module_event :=
  let cachep := kmem_cache_create menv tr in
  let tr := tr ++ [EvSetUp InodeCache cachep] in
  if negb cachep then (Z.neg ENOMEM, tr)
  else
    let err := erofs_init_shrinker menv tr in
    let tr := tr ++ [EvSetUp Shrinker (err =? 0)] in
    if negb (err =? 0) then (err, tr ++ [EvTearDown InodeCache])
    else
      let err := z_erofs_init_zip_subsystem menv tr in
      let tr := tr ++ [EvSetUp ZipSubsystem (err =? 0)] in
      if negb (err =? 0)
      then (err, tr ++ [EvTearDown Shrinker; EvTearDown InodeCache])
      else
        let err := register_filesystem menv tr in
        let tr := tr ++ [EvSetUp Filesystem (err =? 0)] in
        if negb (err =? 0)
        then (err, tr ++ [EvTearDown ZipSubsystem; EvTearDown Shrinker;
                          EvTearDown InodeCache])
        else (0, tr).

Definition erofs_module_exit (tr : list module_event) : list module_event :=
  tr ++ [EvTearDown Filesystem; EvTearDown ZipSubsystem;
         EvTearDown Shrinker; EvRcuBarrier; EvTearDown InodeCache].

End Module.

(** The subsystems that are set up after the calls [tr], the one set up
    last first, starting from [up]; [None] if [tr] tears down anything
    but the subsystem set up last. *)
Fixpoint set_up_after (tr : list module_event) (up : list subsystem)
  : option (list subsystem) :=
  match tr with
  | [] => Some up
  | EvSetUp s true :: tr' => set_up_after tr' (s :: up)
  | EvSetUp s false :: tr' => set_up_after tr' up
  | EvRcuBarrier :: tr' => set_up_after tr' up
  | EvTearDown s :: tr' =>
      match up with
      | top :: rest =>
          if subsystem_eqb s top then set_up_after tr' rest else None
      | [] => None
      end
  end.

(** A kernel whose block [b] reads as [disk b] and which refuses the
    [n]-th and every later open of a file or block device. *)
Definition env_opens (n : nat) (disk : Z -> result (list byte))
  : environment := {|
  alloc_ok := fun _ => true;
  erofs_read_metabuf := fun _ b => disk b;
  blkdev_get_by_path :=
    fun h _ => if (List.length (filter is_io h) <? n)%nat
               then Ok (List.length h) else Err EIO;
  filp_open :=
    fun h _ => if (List.length (filter is_io h) <? n)%nat
               then Ok (List.length h) else Err EIO;
  file_open_root :=
    fun h _ _ => if (List.length (filter is_io h) <? n)%nat
                 then Ok (List.length h) else Err EIO;
  kern_path := fun h _ => Ok (List.length h);
  sb_set_blocksize := fun _ _ => true;
  erofs_iget := fun _ _ => Ok 0x41ED
|}.

(* ------------------------------------------------------------------ *)
(** ** Remounting through the VFS *)

Section Reconfigure.

Context {A : erofs_abi} {K : kconfig}.
Variable env : environment.

(** [MS_RMT_MASK] of [fs/super.c]: the bits of [s_flags] that a remount
    may change. *)
Variable MS_RMT_MASK : Z.

(** The caller of [erofs_remount], [do_remount_sb(sb, sb_flags, data,
    force)] of [fs/super.c], lies outside the verified file.  What it
    does with the outcome of [sb->s_op->remount_fs(sb, &sb_flags,
    data)]: an error is handed on and [s_flags] left as they are,
    unless the remount is forced; otherwise
    [sb->s_flags = (sb->s_flags & ~MS_RMT_MASK) | (sb_flags & MS_RMT_MASK)]
    with the flags the call handed back, and 0 is returned. *)
Definition do_remount_sb (st : state) (sb_flags : Z) (data : option string)
    (force : bool) : Z * state :=
  let '(retval, st, sb_flags) := erofs_remount env st sb_flags data in
  if negb (retval =? 0) && negb force then (retval, st)
  else
    (0, upd_sb (fun s =>
                  set_s_flags
                    (Z.lor (Z.ldiff (s_flags s) MS_RMT_MASK)
                       (Z.land sb_flags MS_RMT_MASK)) s) st).

(** The state after a series of remount requests, each with its flags,
    its option string and whether it is forced. *)
Fixpoint do_remounts (st : state) (reqs : list (Z * option string * bool))
  : state :=
  match reqs with
  | [] => st
  | (sb_flags, data, force) :: reqs' =>
      do_remounts (snd (do_remount_sb st sb_flags data force)) reqs'
  end.

End Reconfigure.

(** The identifier a device-table slot embeds, as the specification has
    it: [nm] is the bytes of the identifier field in front of its first
    NUL byte, or the whole field if no byte of it is NUL. *)
Definition embedded_identifier (field nm : list byte) : Prop :=
  ~ In x00 nm /\ (field = nm \/ exists rest, field = nm ++ x00 :: rest).

(* ------------------------------------------------------------------ *)
(** * Properties *)

(** ** Ranges of the decoded integers *)

Lemma byte_to_Z_range (b : byte) : 0 <= byte_to_Z b < 2 ^ 8.
Proof.
  unfold byte_to_Z. pose proof (Byte.to_N_bounded b) as H.
  change (2 ^ 8) with 256. lia.
Qed.

Lemma log2_lt_of_range (n a : Z) : 0 < n -> 0 <= a < 2 ^ n -> Z.log2 a < n.
Proof.
  intros Hn Ha. destruct (Z.eq_dec a 0) as [-> | E]; [simpl; lia |].
  apply Z.log2_lt_pow2; lia.
Qed.

Lemma lor_range (n a b : Z) :
  0 <= n -> 0 <= a < 2 ^ n -> 0 <= b < 2 ^ n -> 0 <= Z.lor a b < 2 ^ n.
Proof.
  intros Hn Ha Hb.
  assert (Hnn : 0 <= Z.lor a b) by (apply Z.lor_nonneg; lia).
  split; [assumption |].
  destruct (Z.eq_dec n 0) as [-> | En].
  - change (2 ^ 0) with 1 in *.
    assert (a = 0) by lia. assert (b = 0) by lia. subst. simpl. lia.
  - destruct (Z.eq_dec (Z.lor a b) 0) as [E | E].
    + rewrite E. apply Z.pow_pos_nonneg; lia.
    + apply Z.log2_lt_pow2; [lia |].
      rewrite Z.log2_lor by lia.
      pose proof (log2_lt_of_range n a ltac:(lia) Ha).
      pose proof (log2_lt_of_range n b ltac:(lia) Hb). lia.
Qed.

Lemma shiftl_range (m k b : Z) :
  0 <= m -> 0 <= k -> 0 <= b < 2 ^ m -> 0 <= Z.shiftl b k < 2 ^ (m + k).
Proof.
  intros Hm Hk Hb. rewrite Z.shiftl_mul_pow2 by assumption.
  rewrite Z.pow_add_r by assumption.
  assert (0 < 2 ^ k) by (apply Z.pow_pos_nonneg; lia). nia.
Qed.

Lemma pow2_mono_range (a m n : Z) :
  0 <= m <= n -> 0 <= a < 2 ^ m -> 0 <= a < 2 ^ n.
Proof.
  intros Hmn Ha. split; [lia |].
  apply Z.lt_le_trans with (2 ^ m); [lia |].
  apply Z.pow_le_mono_r; lia.
Qed.

Lemma get_u8_range buf off : 0 <= get_u8 buf off < 2 ^ 8.
Proof. apply byte_to_Z_range. Qed.

Lemma get_le16_range buf off : 0 <= get_le16 buf off < 2 ^ 16.
Proof.
  unfold get_le16. apply lor_range; [lia | |].
  - apply pow2_mono_range with 8; [lia | apply get_u8_range].
  - change 16 with (8 + 8). apply shiftl_range; try lia. apply get_u8_range.
Qed.

Lemma get_le32_range buf off : 0 <= get_le32 buf off < 2 ^ 32.
Proof.
  unfold get_le32. apply lor_range; [lia | |].
  - apply pow2_mono_range with 16; [lia | apply get_le16_range].
  - change 32 with (16 + 16). apply shiftl_range; try lia. apply get_le16_range.
Qed.

Lemma testbit_above (a n i : Z) :
  0 <= n -> 0 <= a < 2 ^ n -> n <= i -> Z.testbit a i = false.
Proof.
  intros Hn Ha Hi.
  destruct (Z.eq_dec a 0) as [-> | E]; [apply Z.bits_0 |].
  apply Z.bits_above_log2; [lia |].
  assert (Z.log2 a < n) by (apply Z.log2_lt_pow2; lia). lia.
Qed.

Lemma not32_spec (x i : Z) :
  0 <= i < 32 -> Z.testbit (not32 x) i = negb (Z.testbit x i).
Proof.
  intros Hi. unfold not32. rewrite Z.lxor_spec.
  change 0xFFFFFFFF with (Z.ones 32).
  rewrite Z.ones_spec_low by lia. apply xorb_true_r.
Qed.

Lemma gate_bits (feature all : Z) :
  0 <= feature < 2 ^ 32 ->
  Z.land feature (not32 all) = 0 <->
  (forall i, 0 <= i -> Z.testbit feature i = true -> Z.testbit all i = true).
Proof.
  intros Hf. split.
  - intros H i Hi Hb.
    destruct (Z_lt_le_dec i 32) as [Hlt | Hge].
    + assert (Hz : Z.testbit (Z.land feature (not32 all)) i = false)
        by (rewrite H; apply Z.bits_0).
      rewrite Z.land_spec, Hb, not32_spec in Hz by lia.
      simpl in Hz. now apply negb_false_iff in Hz.
    + rewrite (testbit_above feature 32 i) in Hb by lia. discriminate.
  - intros H. apply Z.bits_inj'. intros i Hi.
    rewrite Z.bits_0, Z.land_spec.
    destruct (Z.testbit feature i) eqn:Hb; [| reflexivity].
    destruct (Z_lt_le_dec i 32) as [Hlt | Hge].
    + rewrite not32_spec by lia. rewrite (H i Hi Hb). reflexivity.
    + rewrite (testbit_above feature 32 i) in Hb by lia. discriminate.
Qed.

Lemma gate_unknown_bit (feature all : Z) :
  0 <= feature < 2 ^ 32 ->
  Z.land feature (not32 all) <> 0 <->
  (exists i, 0 <= i /\ Z.testbit feature i = true /\ Z.testbit all i = false).
Proof.
  intros Hf. split.
  - intros Hne.
    assert (Hpos : 0 < Z.land feature (not32 all)).
    { assert (0 <= Z.land feature (not32 all))
        by (apply Z.land_nonneg; left; lia). lia. }
    pose proof (Z.bit_log2 _ Hpos) as Hbit.
    set (i := Z.log2 (Z.land feature (not32 all))) in *.
    assert (Hi : 0 <= i) by apply Z.log2_nonneg.
    rewrite Z.land_spec in Hbit. apply andb_true_iff in Hbit as [Hb1 Hb2].
    exists i. split; [assumption | split; [assumption |]].
    destruct (Z_lt_le_dec i 32) as [Hlt | Hge].
    + rewrite not32_spec in Hb2 by lia. now apply negb_true_iff in Hb2.
    + rewrite (testbit_above feature 32 i) in Hb1 by lia. discriminate.
  - intros (i & Hi & Hb & Hn) Hz.
    rewrite (proj1 (gate_bits _ _ Hf) Hz i Hi Hb) in Hn. discriminate.
Qed.


(** ** Buffers *)

Lemma put_bytes_nil (buf : list byte) (off : nat) : put_bytes buf off [] = buf.
Proof.
  revert buf. induction off as [| off IH]; intros [| b buf]; simpl;
    try reflexivity.
  now rewrite IH.
Qed.

Lemma put_bytes_spec (buf : list byte) (off : nat) (v : list byte) :
  (off + List.length v <= List.length buf)%nat ->
  put_bytes buf off v =
    firstn off buf ++ v ++ skipn (off + List.length v) buf.
Proof.
  revert buf v. induction off as [| off IH].
  - intros buf v. revert buf.
    induction v as [| x v IHv]; intros buf Hlen.
    + destruct buf; reflexivity.
    + destruct buf as [| b buf]; simpl in Hlen; [lia |].
      simpl. f_equal. rewrite IHv by lia. reflexivity.
  - intros [| b buf] v Hlen; simpl in Hlen; [lia |].
    simpl. f_equal. apply IH. lia.
Qed.

Lemma put_bytes_length (buf : list byte) (off : nat) (v : list byte) :
  List.length (put_bytes buf off v) = List.length buf.
Proof.
  revert buf v. induction off as [| off IH].
  - intros buf v. revert buf. induction v as [| x v IHv]; intros [| b buf];
      simpl; try reflexivity. now rewrite IHv.
  - intros [| b buf] v; simpl; [reflexivity | now rewrite IH].
Qed.






(* ------------------------------------------------------------------ *)
(** ** The incompatible-feature gate *)

Section FeatureGate.

Context {A : erofs_abi} {K : kconfig}.
Variable env : environment.
Variable crc32c : Z -> list byte -> Z.

Lemma check_layout_compatibility_false st dsb :
  0 <= dsb_feature_incompat dsb < 2 ^ 32 ->
  fst (check_layout_compatibility st dsb) = false <->
  unknown_incompat_bit (dsb_feature_incompat dsb).
Proof.
  intros Hr. unfold check_layout_compatibility, unknown_incompat_bit.
  rewrite <- (gate_unknown_bit _ _ Hr).
  destruct (Z.eqb_spec (Z.land (dsb_feature_incompat dsb)
                          (not32 EROFS_ALL_FEATURE_INCOMPAT)) 0) as [E | E];
    simpl; split; intros H; try discriminate; try tauto.
Qed.

Lemma csum_verify_ret st data :
  let r := fst (erofs_superblock_csum_verify env crc32c st data) in
  r = 0 \/ r = Z.neg ENOMEM \/ r = Z.neg EBADMSG.
Proof.
  unfold erofs_superblock_csum_verify, kmalloc.
  destruct (alloc_ok env (trace st)); simpl; [| auto].
  match goal with |- context [if negb ?b then _ else _] => destruct b end;
    simpl; auto.
Qed.

Lemma csum_verify_trace st data :
  trace (snd (erofs_superblock_csum_verify env crc32c st data)) =
    trace st ++ [EvAlloc] /\
  sb (snd (erofs_superblock_csum_verify env crc32c st data)) = sb st.
Proof.
  unfold erofs_superblock_csum_verify, kmalloc.
  destruct (alloc_ok env (trace st)); simpl; [| auto].
  match goal with |- context [if negb ?b then _ else _] => destruct b end;
    simpl; auto.
Qed.

End FeatureGate.

(** The scenarios of the specification on a concrete image: without
    incompatible features the superblock is accepted and the block count
    taken over; with an unknown one it is refused. *)
Example read_superblock_plain :
  let r := @erofs_read_superblock linux_abi kconfig_all
             (env_ok (one_block_disk (sb_image 0 0 100 0 0 0)))
             crc32c_le st_zero in
  fst r = 0 /\ total_blocks (EROFS_SB (snd r)) = 100.
Proof. vm_compute. split; reflexivity. Qed.

Example read_superblock_unknown_feature :
  fst (@erofs_read_superblock linux_abi kconfig_all
         (env_ok (one_block_disk (sb_image 0 0x80000000 100 0 0 0)))
         crc32c_le st_zero) = Z.neg EINVAL.
Proof. vm_compute. reflexivity. Qed.

(* ------------------------------------------------------------------ *)
(** ** The superblock checksum *)

Section Checksum.
Context {A : erofs_abi} {K : kconfig}.
Variable env : environment.
Variable crc32c : Z -> list byte -> Z.

Lemma csum_copy_region (data : list byte) :
  Z.of_nat (List.length data) = EROFS_BLKSIZ ->
  Z.of_nat EROFS_SUPER_OFFSET + Z.of_nat off_checksum + 4 <= EROFS_BLKSIZ ->
  put_bytes
    (sub_bytes data EROFS_SUPER_OFFSET
       (Z.to_nat EROFS_BLKSIZ - EROFS_SUPER_OFFSET))
    off_checksum [x00; x00; x00; x00] = csum_region data.
Proof.
  intros Hlen Hoff. unfold sub_bytes, csum_region.
  rewrite firstn_all2 by (rewrite length_skipn; lia).
  rewrite put_bytes_spec by (rewrite length_skipn; simpl; lia).
  reflexivity.
Qed.

Lemma csum_copy_checksum (data : list byte) :
  Z.of_nat (List.length data) = EROFS_BLKSIZ ->
  get_le32
    (sub_bytes data EROFS_SUPER_OFFSET
       (Z.to_nat EROFS_BLKSIZ - EROFS_SUPER_OFFSET)) off_checksum =
  dsb_checksum (dsb_at (skipn EROFS_SUPER_OFFSET data)).
Proof.
  intros Hlen. unfold sub_bytes.
  rewrite firstn_all2 by (rewrite length_skipn; lia).
  reflexivity.
Qed.

(** C4.  Block zero being read and carrying the magic number:
    [erofs_superblock_csum_verify] compares CRC-32C, seeded with [~0],
    of the bytes from [EROFS_SUPER_OFFSET] to the end of the block with
    the checksum field zeroed against the stored little-endian checksum;
    with the checksum bit of [feature_compat] set, a mismatch makes
    [erofs_read_superblock] return [-EBADMSG] at once; with the bit
    clear the outcome does not depend on the checksum function at all. *)
Theorem superblock_checksum_gate (st : state) (data : list byte) :
  erofs_read_metabuf env (trace st) 0 = Ok data ->
  Z.of_nat (List.length data) = EROFS_BLKSIZ ->
  Z.of_nat EROFS_SUPER_OFFSET + Z.of_nat off_checksum + 4 <= EROFS_BLKSIZ ->
  let dsb := dsb_at (skipn EROFS_SUPER_OFFSET data) in
  dsb_magic dsb = EROFS_SUPER_MAGIC_V1 ->
  let st1 := upd_sbi (set_feature_compat (dsb_feature_compat dsb))
               (log (EvReadMeta 0) st) in
  (alloc_ok env (trace st1) = true ->
   erofs_superblock_csum_verify env crc32c st1 data =
     (if crc32c 0xFFFFFFFF (csum_region data) =? dsb_checksum dsb
      then 0 else Z.neg EBADMSG,
      log EvAlloc st1)) /\
  (Z.land (dsb_feature_compat dsb) EROFS_FEATURE_COMPAT_SB_CHKSUM <> 0 ->
   alloc_ok env (trace st1) = true ->
   crc32c 0xFFFFFFFF (csum_region data) <> dsb_checksum dsb ->
   erofs_read_superblock env crc32c st = (Z.neg EBADMSG, log EvAlloc st1)) /\
  (Z.land (dsb_feature_compat dsb) EROFS_FEATURE_COMPAT_SB_CHKSUM = 0 ->
   forall crc32c' : Z -> list byte -> Z,
     erofs_read_superblock env crc32c' st =
     erofs_read_superblock env crc32c st).
Proof.
  intros Hread Hlen Hoff dsb Hmagic st1.
  assert (Hverify :
    alloc_ok env (trace st1) = true ->
    erofs_superblock_csum_verify env crc32c st1 data =
      (if crc32c 0xFFFFFFFF (csum_region data) =? dsb_checksum dsb
       then 0 else Z.neg EBADMSG,
       log EvAlloc st1)).
  { intros Halloc. unfold erofs_superblock_csum_verify, kmalloc.
    rewrite Halloc. cbv zeta. cbn [negb].
    rewrite csum_copy_region, csum_copy_checksum by assumption.
    fold dsb.
    destruct (crc32c 0xFFFFFFFF (csum_region data) =? dsb_checksum dsb);
      reflexivity. }
  split; [exact Hverify |].
  split.
  - intros Hbit Halloc Hcrc.
    unfold erofs_read_superblock, read_metabuf. rewrite Hread.
    cbv zeta. fold dsb. rewrite Hmagic, Z.eqb_refl. cbn [negb].
    fold st1. unfold erofs_sb_has_sb_chksum.
    replace (feature_compat (EROFS_SB st1)) with (dsb_feature_compat dsb)
      by reflexivity.
    apply Z.eqb_neq in Hbit. rewrite Hbit. cbn [negb].
    rewrite (Hverify Halloc).
    apply Z.eqb_neq in Hcrc. rewrite Hcrc. reflexivity.
  - intros Hbit crc32c'.
    unfold erofs_read_superblock, read_metabuf. rewrite Hread.
    cbv zeta. fold dsb. rewrite Hmagic, Z.eqb_refl. cbn [negb].
    fold st1. unfold erofs_sb_has_sb_chksum.
    replace (feature_compat (EROFS_SB st1)) with (dsb_feature_compat dsb)
      by reflexivity.
    rewrite Hbit. reflexivity.
Qed.
End Checksum.


Lemma superblock_checksum_gate_witness :
  fst (@erofs_read_superblock linux_abi kconfig_all
         (env_ok (one_block_disk (sb_image 1 0 100 0 0 0xDEADBEEF)))
         crc32c_le st_zero) = Z.neg EBADMSG.
Proof.
  assert (Hlen : Z.of_nat (List.length (sb_image 1 0 100 0 0 0xDEADBEEF)) =
                 @EROFS_BLKSIZ linux_abi) by (vm_compute; reflexivity).
  assert (Hoff : Z.of_nat (@EROFS_SUPER_OFFSET linux_abi) +
                 Z.of_nat (@off_checksum linux_abi) + 4 <=
                 @EROFS_BLKSIZ linux_abi) by (vm_compute; discriminate).
  assert (Hmagic : dsb_magic (@dsb_at linux_abi
                     (skipn (@EROFS_SUPER_OFFSET linux_abi)
                        (sb_image 1 0 100 0 0 0xDEADBEEF))) =
                   EROFS_SUPER_MAGIC_V1) by (vm_compute; reflexivity).
  destruct (@superblock_checksum_gate linux_abi kconfig_all
              (env_ok (one_block_disk (sb_image 1 0 100 0 0 0xDEADBEEF)))
              crc32c_le st_zero (sb_image 1 0 100 0 0 0xDEADBEEF)
              eq_refl Hlen Hoff Hmagic) as (_ & H & _).
  rewrite H; [reflexivity | | reflexivity |]; vm_compute; discriminate.
Defined.

(** A superblock with the checksum bit set is accepted with the right
    checksum and refused with one bit of the volume size flipped. *)
Example read_superblock_checksummed :
  fst (@erofs_read_superblock linux_abi kconfig_all
         (env_ok (one_block_disk (sb_image 1 0 100 0 0 435487258)))
         crc32c_le st_zero) = 0.
Proof. vm_compute. reflexivity. Qed.

Example read_superblock_bit_flip :
  fst (@erofs_read_superblock linux_abi kconfig_all
         (env_ok (one_block_disk (sb_image 1 0 101 0 0 435487258)))
         crc32c_le st_zero) = Z.neg EBADMSG.
Proof. vm_compute. reflexivity. Qed.

(** Without the checksum bit the stored checksum is not looked at. *)
Example read_superblock_unchecked :
  fst (@erofs_read_superblock linux_abi kconfig_all
         (env_ok (one_block_disk (sb_image 0 0 100 0 0 0xDEADBEEF)))
         crc32c_le st_zero) = 0.
Proof. vm_compute. reflexivity. Qed.

(* ------------------------------------------------------------------ *)
(** ** The device table *)

Lemma list_set_app {X : Type} (l1 l2 : list X) (x y : X) :
  list_set (List.length l1) y (l1 ++ x :: l2) = l1 ++ y :: l2.
Proof. induction l1 as [| h t IH]; simpl; [reflexivity | now rewrite IH]. Qed.

Lemma wrap64_add_l (a b : Z) : wrap64 (wrap64 a + b) = wrap64 (a + b).
Proof. unfold wrap64. apply Zplus_mod_idemp_l. Qed.

Lemma iter_succ_r {X : Type} (f : X -> X) (n : nat) (x : X) :
  Nat.iter n f (f x) = Nat.iter (S n) f x.
Proof. induction n as [| n IH]; simpl; [reflexivity | now rewrite IH]. Qed.

Lemma blob_opens_app (t1 t2 : list event) :
  blob_opens (t1 ++ t2) = blob_opens t1 ++ blob_opens t2.
Proof. unfold blob_opens. apply flat_map_app. Qed.

Lemma sum_blocks_app (l1 l2 : list erofs_device_info) :
  sum_blocks (l1 ++ l2) = sum_blocks l1 + sum_blocks l2.
Proof.
  induction l1 as [| d l1 IH]; simpl; [reflexivity | rewrite IH; lia].
Qed.

Lemma map_seq_succ {X : Type} (f : nat -> X) (n : nat) :
  map f (seq 0 (S n)) = f O :: map (fun k => f (S k)) (seq 0 n).
Proof. simpl. f_equal. rewrite <- seq_shift, map_map. reflexivity. Qed.

Lemma accum_blocks_sum (l : list erofs_device_info) (total : Z) :
  l <> [] -> accum_blocks total l = wrap64 (total + sum_blocks l).
Proof.
  revert total. induction l as [| d l IH]; intros total Hne; [congruence |].
  unfold accum_blocks in *. cbn [fold_left sum_blocks fold_right].
  destruct l as [| d' l].
  - cbn [fold_left fold_right]. f_equal. lia.
  - rewrite IH by discriminate. rewrite wrap64_add_l. f_equal.
    change (fold_right (fun d acc => dif_blocks d + acc) 0 (d' :: l))
      with (sum_blocks (d' :: l)). lia.
Qed.

Section WithDevices.
Context {A : erofs_abi}.
Variables (st0 : state) (tr : list event) (t : list erofs_device_info)
  (e total : Z).

Lemma wd_log ev :
  log ev (with_devices st0 tr t e total) =
  with_devices st0 (tr ++ [ev]) t e total.
Proof. reflexivity. Qed.

Lemma wd_set_tree t' :
  set_tree t' (with_devices st0 tr t e total) =
  with_devices st0 tr t' e total.
Proof. reflexivity. Qed.

Lemma wd_set_extra_devices e' :
  set_extra_devices e' (with_devices st0 tr t e total) =
  with_devices st0 tr t e' total.
Proof. reflexivity. Qed.

Lemma wd_add_total_blocks b :
  add_total_blocks b (with_devices st0 tr t e total) =
  with_devices st0 tr t e (wrap64 (total + b)).
Proof. reflexivity. Qed.

Lemma wd_trace : trace (with_devices st0 tr t e total) = tr.
Proof. reflexivity. Qed.

Lemma wd_tree : tree (devs (EROFS_SB (with_devices st0 tr t e total))) = t.
Proof. reflexivity. Qed.

Lemma wd_extra_devices :
  extra_devices (devs (EROFS_SB (with_devices st0 tr t e total))) = e.
Proof. reflexivity. Qed.

Lemma wd_total_blocks :
  total_blocks (EROFS_SB (with_devices st0 tr t e total)) = total.
Proof. reflexivity. Qed.

Lemma wd_bootstrap :
  bootstrap (EROFS_SB (with_devices st0 tr t e total)) =
  bootstrap (EROFS_SB st0).
Proof. reflexivity. Qed.

Lemma wd_blob_dir :
  blob_dir (EROFS_SB (with_devices st0 tr t e total)) =
  blob_dir (EROFS_SB st0).
Proof. reflexivity. Qed.

Lemma wd_feature_incompat :
  feature_incompat (EROFS_SB (with_devices st0 tr t e total)) =
  feature_incompat (EROFS_SB st0).
Proof. reflexivity. Qed.

Lemma wd_set_device_id_mask m :
  upd_sbi (set_device_id_mask m) (with_devices st0 tr t e total) =
  with_devices (upd_sbi (set_device_id_mask m) st0) tr t e total.
Proof. reflexivity. Qed.

Lemma wd_blob_dir_path :
  blob_dir_path (EROFS_SB (with_devices st0 tr t e total)) =
  blob_dir_path (EROFS_SB st0).
Proof. reflexivity. Qed.

End WithDevices.

Ltac wd :=
  repeat (progress
            (rewrite ?wd_log, ?wd_set_tree, ?wd_set_extra_devices,
               ?wd_add_total_blocks, ?wd_trace, ?wd_tree, ?wd_extra_devices,
               ?wd_total_blocks, ?wd_bootstrap, ?wd_blob_dir,
               ?wd_blob_dir_path)).

Section Loops.
Context {A : erofs_abi} {K : kconfig}.
Variable env : environment.
Variable disk : Z -> list byte.
Hypothesis Hserve : kernel_serves env disk.
Variable st0 : state.

Lemma init_devices_each_serves (todo : list erofs_device_info) :
  forall (done : list erofs_device_info) (tr : list event) (e total pos : Z),
  exists (tr' : list event) (new : list erofs_device_info),
    init_devices_each env todo (List.length done)
      (with_devices st0 tr (done ++ todo) e total) pos =
      (LoopEnd,
       with_devices st0 tr' (done ++ new) e (accum_blocks total new),
       Nat.iter (List.length todo) next_slot pos) /\
    map dif_blocks new =
      map (fun k => slot_blocks disk (Nat.iter k next_slot pos))
        (seq 0 (List.length todo)) /\
    map dif_mapped_blkaddr new =
      map (fun k => slot_mapped_blkaddr disk (Nat.iter k next_slot pos))
        (seq 0 (List.length todo)) /\
    map dif_path new = map dif_path todo /\
    Forall dif_opened new /\
    blob_opens tr' = blob_opens tr.
Proof.
  induction todo as [| d todo IH]; intros done tr e total pos.
  - exists tr, []. cbn [init_devices_each List.length Nat.iter seq map].
    repeat split; constructor.
  - cbn [init_devices_each]. unfold read_metabuf.
    rewrite wd_log, wd_trace, (serves_read _ _ Hserve). cbv zeta.
    rewrite wd_bootstrap, wd_trace.
    assert (Hopen : forall d1 ev2,
      blob_opens [ev2] = [] ->
      dif_opened d1 -> dif_path d1 = dif_path d ->
      dif_blocks d1 = slot_blocks disk pos ->
      dif_mapped_blkaddr d1 = slot_mapped_blkaddr disk pos ->
      let st := log ev2 (with_devices st0 (tr ++ [EvReadMeta (erofs_blknr pos)])
                           (done ++ d :: todo) e total) in
      exists (tr' : list event) (new : list erofs_device_info),
        init_devices_each env todo (S (List.length done))
          (add_total_blocks (dif_blocks d1)
             (set_tree (list_set (List.length done) d1
                          (tree (devs (EROFS_SB st)))) st))
          (wrap64 (pos + sizeof_deviceslot)) =
        (LoopEnd,
         with_devices st0 tr' (done ++ new) e (accum_blocks total new),
         Nat.iter (List.length (d :: todo)) next_slot pos) /\
        map dif_blocks new =
          map (fun k => slot_blocks disk (Nat.iter k next_slot pos))
            (seq 0 (List.length (d :: todo))) /\
        map dif_mapped_blkaddr new =
          map (fun k => slot_mapped_blkaddr disk (Nat.iter k next_slot pos))
            (seq 0 (List.length (d :: todo))) /\
        map dif_path new = map dif_path (d :: todo) /\
        Forall dif_opened new /\
        blob_opens tr' = blob_opens tr).
    { intros d1 ev2 Hev Hopened Hpath Hblocks Hmapped st.
      subst st.
      rewrite wd_log, wd_tree, wd_set_tree, wd_add_total_blocks, list_set_app.
      replace (done ++ d1 :: todo) with ((done ++ [d1]) ++ todo)
        by (rewrite <- app_assoc; reflexivity).
      replace (S (List.length done)) with (List.length (done ++ [d1]))
        by (rewrite length_app; simpl; lia).
      destruct (IH (done ++ [d1]) ((tr ++ [EvReadMeta (erofs_blknr pos)]) ++ [ev2])
                  e (wrap64 (total + dif_blocks d1))
                  (wrap64 (pos + sizeof_deviceslot)))
        as (tr' & new & Hrun & Hb & Hm & Hp & Ho & Ht).
      exists tr', (d1 :: new).
      rewrite Hrun, <- app_assoc. cbn [app List.length].
      change (wrap64 (pos + sizeof_deviceslot)) with (next_slot pos) in *.
      rewrite iter_succ_r.
      split; [reflexivity |].
      rewrite !map_seq_succ. cbn [map Nat.iter].
      rewrite Hblocks, Hmapped, Hpath, Hb, Hm, Hp.
      repeat split.
      - f_equal. apply map_ext. intros k. now rewrite iter_succ_r.
      - f_equal. apply map_ext. intros k. now rewrite iter_succ_r.
      - constructor; assumption.
      - rewrite Ht, !blob_opens_app, Hev. cbn. now rewrite !app_nil_r. }
    destruct (bootstrap (EROFS_SB st0)) as [b |] eqn:Hboot.
    + destruct (serves_file _ _ Hserve (tr ++ [EvReadMeta (erofs_blknr pos)])
                  (dif_path d)) as [f Hf].
      rewrite Hf.
      apply Hopen; try reflexivity. right. discriminate.
    + destruct (serves_bdev _ _ Hserve (tr ++ [EvReadMeta (erofs_blknr pos)])
                  (dif_path d)) as [f Hf].
      rewrite Hf.
      apply Hopen; try reflexivity. left. discriminate.
Qed.

Lemma init_devices_blobs_serves (n : nat) (ondisk : Z) :
  forall (t : list erofs_device_info) (tr : list event) (e total pos : Z),
  (Z.to_nat (ondisk - e) <= n)%nat ->
  exists (tr' : list event) (new : list erofs_device_info),
    init_devices_blobs env n ondisk (with_devices st0 tr t e total) pos =
      (0, with_devices st0 tr' (t ++ new) (Z.max e ondisk)
            (accum_blocks total new)) /\
    List.length new = Z.to_nat (ondisk - e) /\
    map dif_blocks new =
      map (fun k => slot_blocks disk (Nat.iter k next_slot pos))
        (seq 0 (Z.to_nat (ondisk - e))) /\
    map dif_mapped_blkaddr new =
      map (fun k => slot_mapped_blkaddr disk (Nat.iter k next_slot pos))
        (seq 0 (Z.to_nat (ondisk - e))) /\
    Forall (fun d => dif_path d = None /\ dif_bdev d = None /\
                     dif_blobfile d <> None) new /\
    blob_opens tr' =
      blob_opens tr ++
      map (fun k => (blob_dir (EROFS_SB st0),
                     blob_id_of (slot_on disk (Nat.iter k next_slot pos))))
        (seq 0 (Z.to_nat (ondisk - e))).
Proof.
  induction n as [| n IH]; intros t tr e total pos Hn.
  - assert (He : Z.to_nat (ondisk - e) = O) by lia.
    exists tr, []. rewrite He. cbn [init_devices_blobs].
    rewrite wd_extra_devices.
    assert ((e <? ondisk) = false) as -> by (apply Z.ltb_ge; lia).
    rewrite app_nil_r. replace (Z.max e ondisk) with e by lia.
    cbn [seq map accum_blocks fold_left List.length].
    rewrite app_nil_r. repeat split; constructor.
  - cbn [init_devices_blobs]. rewrite wd_extra_devices.
    destruct (Z.ltb_spec e ondisk) as [Hlt | Hge].
    + unfold init_devices_blob, read_metabuf, idr_alloc, kmalloc.
      wd. rewrite (serves_read _ _ Hserve). cbv zeta.
      rewrite !(serves_alloc _ _ Hserve). cbn [negb]. wd.
      match goal with |- context [Z.of_nat ?x <? 0] =>
        assert ((Z.of_nat x <? 0) = false) as -> by (apply Z.ltb_ge; lia)
      end.
      rewrite Nat2Z.id.
      match goal with |- context [file_open_root env ?h ?d ?nm] =>
        destruct (serves_blob _ _ Hserve h d nm) as [f Hf]; rewrite Hf
      end.
      wd. rewrite list_set_app.
      change (wrap64 (pos + sizeof_deviceslot)) with (next_slot pos).
      cbn [dif_blocks].
      match goal with
      | |- context [with_devices st0 ?tr1 (t ++ [?d1]) (e + 1) ?tot] =>
          destruct (IH (t ++ [d1]) tr1 (e + 1) tot (next_slot pos)
                      (ltac:(lia)))
            as (tr' & new & Hrun & Hl & Hb & Hm & Ho & Ht);
          exists tr', (d1 :: new)
      end.
      rewrite Hrun, <- app_assoc. cbn [app].
      replace (Z.max (e + 1) ondisk) with (Z.max e ondisk) by lia.
      replace (Z.to_nat (ondisk - e)) with (S (Z.to_nat (ondisk - (e + 1))))
        by lia.
      split; [reflexivity |].
      rewrite !map_seq_succ. cbn [map Nat.iter List.length].
      rewrite Hl, Hb, Hm, Ht.
      repeat split.
      * f_equal. apply map_ext. intros k. now rewrite iter_succ_r.
      * f_equal. apply map_ext. intros k. now rewrite iter_succ_r.
      * constructor; [| assumption]. cbn. repeat split. discriminate.
      * rewrite !blob_opens_app. cbn. rewrite !app_nil_r, <- app_assoc.
        cbn [app]. do 2 f_equal.
        apply map_ext. intros k. now rewrite iter_succ_r.
    + assert (He : Z.to_nat (ondisk - e) = O) by lia.
      exists tr, []. rewrite He.
      rewrite app_nil_r. replace (Z.max e ondisk) with e by lia.
      cbn [seq map accum_blocks fold_left List.length].
      rewrite app_nil_r. repeat split; constructor.
Qed.

Lemma seq_plus (g m : nat) : seq g m = map (Nat.add g) (seq 0 m).
Proof.
  revert g. induction m as [| m IH]; intros g; [reflexivity |].
  cbn [seq map]. rewrite Nat.add_0_r. f_equal.
  rewrite (IH (S g)), <- (seq_shift m 0), map_map.
  apply map_ext. intros k. lia.
Qed.

End Loops.

Lemma with_devices_total (st : state) :
  upd_sbi (fun i => set_total_blocks (primarydevice_blocks i) i) st =
  with_devices st (trace st) (tree (devs (EROFS_SB st)))
    (extra_devices (devs (EROFS_SB st)))
    (primarydevice_blocks (EROFS_SB st)).
Proof.
  destruct st as [tr [m b bs bb fl u r sbi]].
  destruct sbi as [mo cs ms [dt de] bp bdp bo bd tb pb dm fc fi mb xb isl rn
                   ino bt btn vn mc].
  reflexivity.
Qed.

Lemma accum_blocks_app (total : Z) (l1 l2 : list erofs_device_info) :
  accum_blocks total (l1 ++ l2) = accum_blocks (accum_blocks total l1) l2.
Proof. unfold accum_blocks. apply fold_left_app. Qed.

Lemma iter_add {X : Type} (f : X -> X) (a b : nat) (x : X) :
  Nat.iter (a + b) f x = Nat.iter b f (Nat.iter a f x).
Proof.
  revert x. induction a as [| a IH]; intros x; [reflexivity |].
  rewrite <- iter_succ_r, <- IH. cbn [Nat.add]. now rewrite iter_succ_r.
Qed.

Section Resolve.
Context {A : erofs_abi} {K : kconfig}.
Variable env : environment.
Variable disk : Z -> list byte.
Hypothesis Hserve : kernel_serves env disk.

Lemma init_devices_resolves (st : state) (dsb : erofs_super_block) :
  let n := ondisk_extradevs (EROFS_SB st) dsb in
  let t := tree (devs (EROFS_SB st)) in
  let g := extra_devices (devs (EROFS_SB st)) in
  0 < n ->
  g = Z.of_nat (List.length t) ->
  g = n \/ blob_dir_path (EROFS_SB st) <> None ->
  exists (tr' : list event) (t' : list erofs_device_info),
    erofs_init_devices env st dsb =
      (0, with_devices
            (upd_sbi (set_device_id_mask (roundup_pow_of_two (n + 1) - 1)) st)
            tr' t' (Z.max g n)
            (wrap64 (primarydevice_blocks (EROFS_SB st) + sum_blocks t'))) /\
    Z.of_nat (List.length t') = Z.max g n /\
    map dif_blocks t' =
      map (fun k => slot_blocks disk (slot_pos dsb k))
        (seq 0 (List.length t')) /\
    map dif_mapped_blkaddr t' =
      map (fun k => slot_mapped_blkaddr disk (slot_pos dsb k))
        (seq 0 (List.length t')) /\
    map dif_path t' = map dif_path t ++ repeat None (Z.to_nat (n - g)) /\
    Forall dif_opened t' /\
    blob_opens tr' =
      blob_opens (trace st) ++
      map (fun k => (blob_dir (EROFS_SB st),
                     blob_id_of (slot_on disk (slot_pos dsb k))))
        (seq (List.length t) (Z.to_nat (n - g))).
Proof.
  intros n t g Hn Hg Hmode.
  unfold erofs_init_devices. cbv zeta.
  rewrite with_devices_total. fold t g.
  unfold erofs_sb_has_device_table.
  rewrite wd_feature_incompat, negb_involutive.
  change (if Z.land (feature_incompat (EROFS_SB st))
               EROFS_FEATURE_INCOMPAT_DEVICE_TABLE =? 0
          then 0 else dsb_extra_devices dsb) with n.
  rewrite wd_extra_devices, wd_blob_dir_path.
  assert (Hgate : negb (n =? g) &&
            match blob_dir_path (EROFS_SB st) with
            | Some _ => false | None => true end = false).
  { destruct Hmode as [-> | Hb].
    - now rewrite Z.eqb_refl.
    - destruct (blob_dir_path (EROFS_SB st)); [apply andb_false_r | congruence]. }
  rewrite Hgate.
  assert ((n =? 0) = false) as -> by (apply Z.eqb_neq; lia).
  rewrite wd_set_device_id_mask. wd.
  set (st0 := upd_sbi (set_device_id_mask (roundup_pow_of_two (n + 1) - 1)) st).
  set (pos0 := dsb_devt_slotoff dsb * sizeof_deviceslot).
  destruct (init_devices_each_serves env disk Hserve st0 t [] (trace st) g
              (primarydevice_blocks (EROFS_SB st)) pos0)
    as (tr1 & new1 & Hrun1 & Hb1 & Hm1 & Hp1 & Ho1 & Ht1).
  cbn [app List.length] in Hrun1. rewrite Hrun1. wd.
  destruct (init_devices_blobs_serves env disk Hserve st0 (Z.to_nat (n - g)) n
              new1 tr1 g (accum_blocks (primarydevice_blocks (EROFS_SB st)) new1)
              (Nat.iter (List.length t) next_slot pos0) (le_n _))
    as (tr2 & new2 & Hrun2 & Hl2 & Hb2 & Hm2 & Ho2 & Ht2).
  rewrite Hrun2.
  assert (Hl1 : List.length new1 = List.length t).
  { rewrite <- (length_map dif_path new1), Hp1. apply length_map. }
  exists tr2, (new1 ++ new2).
  assert (Hlen : Z.of_nat (List.length (new1 ++ new2)) = Z.max g n).
  { rewrite length_app, Hl1, Hl2. lia. }
  assert (Hne : new1 ++ new2 <> []).
  { intros E. rewrite E in Hlen. cbn in Hlen. lia. }
  assert (Hp2 : map dif_path new2 = repeat None (Z.to_nat (n - g))).
  { rewrite <- Hl2. clear - Ho2.
    induction Ho2 as [| d l [Hd _] _ IH]; [reflexivity |].
    cbn [map List.length repeat]. now rewrite Hd, IH. }
  rewrite <- accum_blocks_app, (accum_blocks_sum _ _ Hne).
  split; [reflexivity |]. split; [exact Hlen |].
  rewrite !map_app, length_app, seq_app, !map_app, Hb1, Hm1, Hp1, Hb2, Hm2,
    Hp2, Hl1, Hl2.
  cbn [Nat.add].
  rewrite (seq_plus (List.length t) (Z.to_nat (n - g))), !map_map.
  unfold slot_pos. fold pos0.
  refine (conj _ (conj _ (conj eq_refl (conj _ _)))).
  - f_equal. apply map_ext. intros k. now rewrite iter_add.
  - f_equal. apply map_ext. intros k. now rewrite iter_add.
  - apply Forall_app. split; [assumption |].
    eapply Forall_impl; [| exact Ho2]. intros d (_ & _ & Hd). now right.
  - rewrite Ht2, Ht1. f_equal. apply map_ext. intros k. now rewrite iter_add.
Qed.
End Resolve.

Section Turns.
Context {A : erofs_abi} {K : kconfig}.
Variable env : environment.

Lemma init_devices_blob_extra (st st' : state) (pos pos' : Z) :
  init_devices_blob env st pos = (inr pos', st') ->
  extra_devices (devs (EROFS_SB st')) =
  extra_devices (devs (EROFS_SB st)) + 1.
Proof.
  unfold init_devices_blob, read_metabuf, idr_alloc, kmalloc.
  destruct (erofs_read_metabuf env (trace st) (erofs_blknr pos)) as [ptr | e];
    [| discriminate].
  cbv zeta.
  destruct (alloc_ok env (trace (log (EvReadMeta (erofs_blknr pos)) st)));
    cbn [negb]; [| discriminate].
  match goal with |- context [alloc_ok env ?h] => destruct (alloc_ok env h) end;
    cbn [negb]; [| discriminate].
  match goal with |- context [Z.of_nat ?x <? 0] =>
    destruct (Z.of_nat x <? 0); [discriminate |]
  end.
  match goal with |- context [file_open_root env ?h ?d ?nm] =>
    destruct (file_open_root env h d nm) as [f | e]; [| discriminate]
  end.
  intros H. injection H as _ <-. reflexivity.
Qed.

(** The turns [erofs_init_devices] grants the blob loop are enough: with
    that many or more, the loop ends by its own condition or leaves the
    function. *)
Lemma init_devices_blobs_turns (ondisk : Z) (n1 : nat) :
  forall (n2 : nat) (st : state) (pos : Z),
    (Z.to_nat (ondisk - extra_devices (devs (EROFS_SB st))) <= n1)%nat ->
    (Z.to_nat (ondisk - extra_devices (devs (EROFS_SB st))) <= n2)%nat ->
    init_devices_blobs env n1 ondisk st pos =
    init_devices_blobs env n2 ondisk st pos.
Proof.
  induction n1 as [| n1 IH]; intros n2 st pos H1 H2.
  - destruct n2 as [| n2]; [reflexivity |].
    cbn [init_devices_blobs].
    destruct (Z.ltb_spec (extra_devices (devs (EROFS_SB st))) ondisk);
      [lia | reflexivity].
  - cbn [init_devices_blobs].
    destruct (Z.ltb_spec (extra_devices (devs (EROFS_SB st))) ondisk)
      as [Hlt | Hge].
    + destruct n2 as [| n2]; [lia |].
      cbn [init_devices_blobs].
      destruct (Z.ltb_spec (extra_devices (devs (EROFS_SB st))) ondisk);
        [| lia].
      destruct (init_devices_blob env st pos) as [[err | pos'] st'] eqn:Hb;
        [reflexivity |].
      apply init_devices_blob_extra in Hb.
      apply IH; rewrite Hb; lia.
    + destruct n2 as [| n2]; cbn [init_devices_blobs];
        destruct (Z.ltb_spec (extra_devices (devs (EROFS_SB st))) ondisk);
        try lia; reflexivity.
Qed.

End Turns.

(* ------------------------------------------------------------------ *)
(** ** The name of a blob *)

Lemma set_nul_cons (c : byte) (l : list byte) (n : nat) :
  set_nul (c :: l) (S n) = c :: set_nul l n.
Proof. reflexivity. Qed.

Lemma cstring_set_nul_zeros (k n : nat) :
  cstring (set_nul (repeat x00 (S k)) (S n)) = [].
Proof. reflexivity. Qed.

(** The string left by [strncpy(dst, src, n + 1); dst[n] = 0] is the one
    in the first [n] bytes of [src]. *)
Lemma cstring_strncpy (n : nat) :
  forall src : list byte,
    cstring (set_nul (strncpy src (S n)) n) = cstring (firstn n src).
Proof.
  induction n as [| n IH]; intros src.
  - destruct src as [| c src]; [reflexivity |].
    cbn [strncpy]. destruct (Byte.eqb c x00); reflexivity.
  - destruct src as [| c src]; [reflexivity |].
    change (strncpy (c :: src) (S (S n)))
      with (if Byte.eqb c x00 then repeat x00 (S (S n))
            else c :: strncpy src (S n)).
    cbn [firstn cstring].
    destruct (Byte.eqb c x00) eqn:Hc.
    + apply cstring_set_nul_zeros.
    + rewrite set_nul_cons. cbn [cstring]. rewrite Hc, IH. reflexivity.
Qed.

Lemma cstring_embedded (field : list byte) :
  embedded_identifier field (cstring field).
Proof.
  induction field as [| c field [Hn Hf]]; [split; [intros [] | left; reflexivity] |].
  cbn [cstring]. destruct (Byte.eqb c x00) eqn:Hc.
  - apply Byte.byte_dec_bl in Hc. subst c.
    split; [intros [] | right; exists field; reflexivity].
  - split.
    + intros [E | Hin]; [| exact (Hn Hin)].
      subst c. discriminate.
    + destruct Hf as [E | (rest & E)].
      * left. f_equal. exact E.
      * right. exists rest. cbn [app]. f_equal. exact E.
Qed.

(** The name [erofs_init_devices] opens for a slot is the identifier
    the slot embeds. *)
Lemma blob_id_embedded {A : erofs_abi} (dis : list byte) :
  embedded_identifier (slot_userdata dis) (blob_id_of dis).
Proof.
  unfold blob_id_of, slot_userdata, sub_bytes.
  rewrite Nat.add_sub, Nat.add_1_r, cstring_strncpy.
  apply cstring_embedded.
Qed.

Section DeviceCount.
Context {A : erofs_abi} {K : kconfig}.
Variable env : environment.

Lemma init_devices_unfold_gate (st : state) (dsb : erofs_super_block) :
  let n := ondisk_extradevs (EROFS_SB st) dsb in
  let g := extra_devices (devs (EROFS_SB st)) in
  let st1 := upd_sbi (fun i => set_total_blocks (primarydevice_blocks i) i) st in
  (n <> g -> blob_dir_path (EROFS_SB st) = None ->
   erofs_init_devices env st dsb = (Z.neg EINVAL, st1)) /\
  (n = 0 -> g = 0 \/ blob_dir_path (EROFS_SB st) <> None ->
   erofs_init_devices env st dsb = (0, st1)).
Proof.
  intros n g st1. subst st1.
  unfold erofs_init_devices. cbv zeta.
  rewrite with_devices_total. fold g.
  unfold erofs_sb_has_device_table.
  rewrite wd_feature_incompat, negb_involutive.
  change (if Z.land (feature_incompat (EROFS_SB st))
               EROFS_FEATURE_INCOMPAT_DEVICE_TABLE =? 0
          then 0 else dsb_extra_devices dsb) with n.
  rewrite wd_extra_devices, wd_blob_dir_path.
  split.
  - intros Hne Hb. rewrite Hb.
    apply Z.eqb_neq in Hne. rewrite Hne. reflexivity.
  - intros Hn Hmode. rewrite Hn.
    destruct Hmode as [Hg | Hb].
    + rewrite Hg. reflexivity.
    + destruct (blob_dir_path (EROFS_SB st)); [| congruence].
      rewrite andb_false_r. reflexivity.
Qed.

(** C2 (amended).  For a superblock that declares no extra device
    (the count is zero or the device-table feature absent),
    [erofs_init_devices] returns at once: no call out of the file is
    made, the device registry is left alone and [total_blocks] is the
    block count of the primary device.  It returns 0 if the mount
    options name no extra device or a blob directory is configured, and
    [-EINVAL] otherwise. *)
Theorem init_devices_no_extra_devices (st : state) (dsb : erofs_super_block) :
  ondisk_extradevs (EROFS_SB st) dsb = 0 ->
  let r := erofs_init_devices env st dsb in
  fst r =
    (if (extra_devices (devs (EROFS_SB st)) =? 0) ||
        match blob_dir_path (EROFS_SB st) with
        | Some _ => true | None => false end
     then 0 else Z.neg EINVAL) /\
  trace (snd r) = trace st /\
  total_blocks (EROFS_SB (snd r)) = primarydevice_blocks (EROFS_SB st) /\
  devs (EROFS_SB (snd r)) = devs (EROFS_SB st).
Proof.
  intros Hn r. subst r.
  destruct (init_devices_unfold_gate st dsb) as [Hrej Hacc].
  destruct (Z.eqb_spec (extra_devices (devs (EROFS_SB st))) 0) as [Hg | Hg].
  - rewrite Hacc by (auto). cbn [orb fst snd].
    rewrite with_devices_total. repeat split.
    destruct st as [tr [m b bs bb fl u r [mo cs ms [dt de]]]]. reflexivity.
  - destruct (blob_dir_path (EROFS_SB st)) as [p |] eqn:Hb.
    + rewrite Hacc by (auto; right; congruence). cbn [orb fst snd].
      rewrite with_devices_total. repeat split.
      destruct st as [tr [m b bs bb fl u r [mo cs ms [dt de]]]]. reflexivity.
    + rewrite Hrej by (auto; congruence). cbn [orb fst snd].
      rewrite with_devices_total. repeat split.
      destruct st as [tr [m b bs bb fl u r [mo cs ms [dt de]]]]. reflexivity.
Qed.

(** C5 (amended).  When the on-disk number of extra devices differs
    from the number registered from the [device=] options: without a
    blob directory, a bootstrap being configured or not,
    [erofs_init_devices] returns [-EINVAL] before any call out of the
    file, so before any device is opened; with a blob directory the
    mismatch is accepted: when the kernel serves every request the
    function succeeds, having opened in the blob directory, for each
    missing slot and in slot order, the file named by the identifier
    the slot embeds (the bytes of its identifier field in front of the
    first NUL, the whole field if it has none), and, unless the disk
    has no extra device at all, with every descriptor open. *)
Theorem init_devices_count_mismatch (st : state) (dsb : erofs_super_block) :
  let n := ondisk_extradevs (EROFS_SB st) dsb in
  let t := tree (devs (EROFS_SB st)) in
  let g := extra_devices (devs (EROFS_SB st)) in
  let r := erofs_init_devices env st dsb in
  n <> g ->
  (blob_dir_path (EROFS_SB st) = None ->
   fst r = Z.neg EINVAL /\
   trace (snd r) = trace st /\
   devs (EROFS_SB (snd r)) = devs (EROFS_SB st)) /\
  (blob_dir_path (EROFS_SB st) <> None ->
   forall disk : Z -> list byte,
     kernel_serves env disk ->
     g = Z.of_nat (List.length t) ->
     0 <= n ->
     fst r = 0 /\
     (exists names : list (list byte),
        blob_opens (trace (snd r)) =
          blob_opens (trace st) ++
          map (fun nm => (blob_dir (EROFS_SB st), nm)) names /\
        Forall2
          (fun k nm =>
             embedded_identifier
               (slot_userdata (slot_on disk (slot_pos dsb k))) nm)
          (seq (List.length t) (Z.to_nat (n - g))) names) /\
     (0 < n ->
      extra_devices (devs (EROFS_SB (snd r))) = Z.max g n /\
      Z.of_nat (List.length (tree (devs (EROFS_SB (snd r))))) = Z.max g n /\
      Forall dif_opened (tree (devs (EROFS_SB (snd r)))) /\
      map dif_path (tree (devs (EROFS_SB (snd r)))) =
        map dif_path t ++ repeat None (Z.to_nat (n - g)))).
Proof.
  intros n t g r Hne. subst r. split.
  - intros Hb.
    rewrite (proj1 (init_devices_unfold_gate st dsb) Hne Hb).
    cbn [fst snd]. rewrite with_devices_total. repeat split.
    destruct st as [tr [m b bs bb fl u r [mo cs ms [dt de]]]]. reflexivity.
  - intros Hb disk Hserve Hg Hn.
    assert (Hnames : forall ks : list nat,
      Forall2
        (fun k nm =>
           embedded_identifier
             (slot_userdata (slot_on disk (slot_pos dsb k))) nm)
        ks (map (fun k => blob_id_of (slot_on disk (slot_pos dsb k))) ks)).
    { induction ks as [| k ks IH]; constructor;
        [apply blob_id_embedded | exact IH]. }
    destruct (Z.eq_dec n 0) as [H0 | H0].
    + rewrite (proj2 (init_devices_unfold_gate st dsb) H0 (or_intror Hb)).
      cbn [fst snd]. fold n. rewrite H0.
      replace (Z.to_nat (0 - g)) with O by lia.
      split; [reflexivity |]. split; [| lia].
      exists []. cbn [seq map]. rewrite app_nil_r.
      split; [reflexivity | constructor].
    + assert (Hpos : 0 < n) by lia.
      destruct (init_devices_resolves env disk Hserve st dsb
                  Hpos Hg (or_intror Hb))
        as (tr' & t' & Hrun & Hlen & _ & _ & Hp & Ho & Ht).
      fold n g t in Hrun, Hlen, Hp, Ht.
      rewrite Hrun. cbn [fst snd]. wd.
      split; [reflexivity |]. split; [| repeat split; assumption].
      exists (map (fun k => blob_id_of (slot_on disk (slot_pos dsb k)))
                (seq (List.length t) (Z.to_nat (n - g)))).
      rewrite map_map. split; [exact Ht | apply Hnames].
Qed.
End DeviceCount.

Lemma kernel_serves_serving (disk : Z -> list byte) :
  kernel_serves (serving disk) disk.
Proof.
  constructor; intros; cbn; try reflexivity; eexists; reflexivity.
Qed.

(** C2 as stated fails: with a [device=] option and no blob directory,
    a superblock without extra devices is refused. *)
Lemma init_devices_no_extra_devices_rejected :
  let dsb := dsb_of (sb_image 0 0 100 0 0 0) in
  let st := resolving (env_ok no_disk) "device=/dev/vdb" dsb in
  @ondisk_extradevs linux_abi (EROFS_SB st) dsb = 0 /\
  fst (@erofs_init_devices linux_abi (env_ok no_disk) st dsb) <> 0.
Proof. vm_compute. split; [reflexivity | discriminate]. Qed.

Lemma init_devices_no_extra_devices_witness :
  let dsb := dsb_of (sb_image 0 0 100 0 0 0) in
  let st := resolving (env_ok no_disk) "device=/dev/vdb" dsb in
  fst (@erofs_init_devices linux_abi (env_ok no_disk) st dsb) = Z.neg EINVAL /\
  trace (snd (@erofs_init_devices linux_abi (env_ok no_disk) st dsb)) =
    trace st.
Proof.
  intros dsb st.
  assert (H0 : @ondisk_extradevs linux_abi (EROFS_SB st) dsb = 0)
    by (vm_compute; reflexivity).
  destruct (@init_devices_no_extra_devices linux_abi (env_ok no_disk) st dsb H0)
    as (Hr & Ht & _).
  split; [| exact Ht].
  rewrite Hr. vm_compute. reflexivity.
Defined.

Lemma init_devices_count_mismatch_witness :
  (let dsb := dsb_of img_two in
   let st := resolving (env_ok no_disk) "acl" dsb in
   fst (@erofs_init_devices linux_abi (env_ok no_disk) st dsb) = Z.neg EINVAL) /\
  (let disk := whole_disk [img_two] in
   let dsb := dsb_of img_two in
   let st := resolving (serving disk) "blob_dir_path=/blobs" dsb in
   let r := @erofs_init_devices linux_abi (serving disk) st dsb in
   fst r = 0 /\
   blob_opens (trace (snd r)) =
     [(blob_dir (EROFS_SB st), bytes_of_string "blob-a");
      (blob_dir (EROFS_SB st), bytes_of_string "blob-b")] /\
   extra_devices (devs (EROFS_SB (snd r))) = 2).
Proof.
  split.
  - intros dsb st.
    assert (Hne : @ondisk_extradevs linux_abi (EROFS_SB st) dsb <>
                  extra_devices (devs (EROFS_SB st)))
      by (vm_compute; discriminate).
    destruct (@init_devices_count_mismatch linux_abi (env_ok no_disk) st dsb Hne)
      as [Ha _].
    apply Ha. vm_compute. reflexivity.
  - intros disk dsb st r.
    assert (Hne : @ondisk_extradevs linux_abi (EROFS_SB st) dsb <>
                  extra_devices (devs (EROFS_SB st)))
      by (vm_compute; discriminate).
    destruct (@init_devices_count_mismatch linux_abi (serving disk) st dsb Hne)
      as [_ Hb].
    destruct (Hb ltac:(vm_compute; discriminate) disk
                (kernel_serves_serving disk)
                ltac:(vm_compute; reflexivity)
                ltac:(vm_compute; discriminate))
      as (Hr & _ & Hres).
    destruct (Hres ltac:(vm_compute; reflexivity)) as (He & _).
    split; [exact Hr |]. split.
    + vm_compute. reflexivity.
    + subst r. rewrite He. vm_compute. reflexivity.
Defined.

(** C5 as stated fails: a mount with a bootstrap and no blob directory
    is an alternate-metadata-source mount for
    [erofs_mount_is_rafs_v6], yet with two extra devices on disk and no
    [device=] option the mismatch is refused, [erofs_init_devices] and
    with it the mount returning [-EINVAL] without a blob being
    opened. *)
Lemma init_devices_count_mismatch_bootstrap :
  let disk := whole_disk [img_two] in
  let env := serving disk in
  let opts := "bootstrap_path=/boot"%string in
  let dsb := dsb_of img_two in
  let st := resolving env opts dsb in
  let r := @erofs_init_devices linux_abi env st dsb in
  fst (erofs_mount_is_rafs_v6 env st_zero (Some opts)) = true /\
  bootstrap (EROFS_SB st) <> None /\
  @ondisk_extradevs linux_abi (EROFS_SB st) dsb = 2 /\
  extra_devices (devs (EROFS_SB st)) = 0 /\
  fst r = Z.neg EINVAL /\
  blob_opens (trace (snd r)) = [] /\
  fst (@erofs_fill_super linux_abi kconfig_all env crc32c_le st_zero
         (Some opts)) = Z.neg EINVAL.
Proof. vm_compute. repeat split; discriminate. Qed.

(* ------------------------------------------------------------------ *)
(** ** Blob identifiers *)

Section BlobId.
Context {A : erofs_abi} {K : kconfig}.
Variable env : environment.


End BlobId.



(* ------------------------------------------------------------------ *)
(** ** Matching device configuration *)

Lemma sum_blocks_bound (l : list erofs_device_info) :
  Forall (fun b => 0 <= b < 2 ^ 32) (map dif_blocks l) ->
  0 <= sum_blocks l <= Z.of_nat (List.length l) * (2 ^ 32 - 1).
Proof.
  induction l as [| d l IH]; intros H; [cbn; lia |].
  cbn [map] in H. inversion H as [| ? ? Hd Hl]; subst.
  specialize (IH Hl).
  cbn [sum_blocks fold_right List.length].
  change (fold_right (fun d acc => dif_blocks d + acc) 0 l) with (sum_blocks l).
  lia.
Qed.

Section Matching.
Context {A : erofs_abi} {K : kconfig}.
Variable env : environment.
Variable disk : Z -> list byte.
Hypothesis Hserve : kernel_serves env disk.

(** X4.  When the kernel serves every request, the device table is
    resolved in full: for [N > 0] extra devices on disk and as many
    [device=] options, [erofs_init_devices] succeeds with the [N]
    descriptors of the options, in order, each opened and carrying the
    block count and mapped address of its slot, and [total_blocks] is
    the primary block count plus the sum of theirs. *)
Lemma init_devices_matching_config (st : state) (dsb : erofs_super_block) :
  let n := ondisk_extradevs (EROFS_SB st) dsb in
  let t := tree (devs (EROFS_SB st)) in
  let r := erofs_init_devices env st dsb in
  let t' := tree (devs (EROFS_SB (snd r))) in
  0 < n < 2 ^ 16 ->
  extra_devices (devs (EROFS_SB st)) = n ->
  Z.of_nat (List.length t) = n ->
  0 <= primarydevice_blocks (EROFS_SB st) < 2 ^ 32 ->
  fst r = 0 /\
  Z.of_nat (List.length t') = n /\
  map dif_path t' = map dif_path t /\
  map dif_blocks t' =
    map (fun k => slot_blocks disk (slot_pos dsb k)) (seq 0 (Z.to_nat n)) /\
  map dif_mapped_blkaddr t' =
    map (fun k => slot_mapped_blkaddr disk (slot_pos dsb k))
      (seq 0 (Z.to_nat n)) /\
  Forall dif_opened t' /\
  total_blocks (EROFS_SB (snd r)) =
    primarydevice_blocks (EROFS_SB st) + sum_blocks t'.
Proof.
  intros n t r t' Hn Hg Hlen Hprim.
  destruct (init_devices_resolves env disk Hserve st dsb
              (proj1 Hn) (eq_trans Hg (eq_sym Hlen)) (or_introl Hg))
    as (tr1 & t1 & Hrun & Hl1 & Hb & Hm & Hp & Ho & _).
  fold n t in Hrun, Hl1, Hp. rewrite Hg in *.
  replace (Z.max n n) with n in * by lia.
  replace (Z.to_nat (n - n)) with O in Hp by lia.
  cbn [repeat] in Hp. rewrite app_nil_r in Hp.
  subst t' r. rewrite Hrun. cbn [fst snd]. wd.
  assert (Hnat : List.length t1 = Z.to_nat n) by lia.
  rewrite Hnat in Hb, Hm.
  repeat (split; [first [reflexivity | assumption] |]).
  apply Z.mod_small.
  assert (Hrange : Forall (fun b => 0 <= b < 2 ^ 32) (map dif_blocks t1)).
  { rewrite Hb. apply Forall_forall. intros b Hin.
    apply in_map_iff in Hin as (k & <- & _). apply get_le32_range. }
  pose proof (sum_blocks_bound t1 Hrange) as Hs.
  rewrite Hl1 in Hs.
  change (2 ^ 64) with (2 ^ 32 * 2 ^ 32). change (2 ^ 16) with 65536 in Hn.
  set (B := 2 ^ 32) in *. assert (65536 < B) by (subst B; reflexivity).
  nia.
Qed.
End Matching.

(** C6 fails on the code.  One [device=] option, one extra device on
    disk, the device table in a block that cannot be read: the loop over
    the registered devices is left by [break] on the read error, the
    blob loop has nothing to do, [err] is reset to 0 and
    [erofs_init_devices] reports success, the descriptor having neither
    a handle nor the block count and mapped address of its slot.  The
    mount as a whole succeeds. *)
Theorem init_devices_read_error_swallowed :
  let env := env_ok (one_block_disk img_far) in
  let dsb := dsb_of img_far in
  let st := resolving env "device=/dev/vdb" dsb in
  let r := @erofs_init_devices linux_abi env st dsb in
  (@ondisk_extradevs linux_abi (EROFS_SB st) dsb = 1 /\
   extra_devices (devs (EROFS_SB st)) = 1) /\
  erofs_read_metabuf env (trace st)
    (@erofs_blknr linux_abi (@slot_pos linux_abi dsb 0)) = Err EIO /\
  fst r = 0 /\
  tree (devs (EROFS_SB (snd r))) =
    [{| dif_path := Some "/dev/vdb"%string; dif_bdev := None;
        dif_blobfile := None; dif_blocks := 0; dif_mapped_blkaddr := 0 |}] /\
  trace (snd r) = trace st ++ [EvReadMeta 1] /\
  fst (@erofs_fill_super linux_abi kconfig_all env crc32c_le st_bdev
         (Some "device=/dev/vdb"%string)) = 0.
Proof. vm_compute. repeat split; reflexivity. Qed.

(** A whole mount with two extra devices. *)
Example init_devices_two_devices :
  let disk := whole_disk [img_two] in
  let r := @erofs_fill_super linux_abi kconfig_all (serving disk) crc32c_le
             st_bdev (Some "device=/dev/vdb,device=/dev/vdc"%string) in
  fst r = 0 /\
  map dif_blocks (tree (devs (EROFS_SB (snd r)))) = [50; 70] /\
  map dif_mapped_blkaddr (tree (devs (EROFS_SB (snd r)))) = [100; 150] /\
  total_blocks (EROFS_SB (snd r)) = 220.
Proof. vm_compute. repeat split; reflexivity. Qed.

(* ------------------------------------------------------------------ *)
(** ** The block total *)

Lemma accum_blocks_wrap (l : list erofs_device_info) (total : Z) :
  wrap64 (accum_blocks total l) = wrap64 (total + sum_blocks l).
Proof.
  destruct l as [| d l].
  - cbn. now rewrite Z.add_0_r.
  - rewrite accum_blocks_sum by discriminate. unfold wrap64.
    apply Z.mod_mod. lia.
Qed.

Lemma wrap64_add_congr (a b c : Z) :
  wrap64 a = wrap64 b -> wrap64 (a + c) = wrap64 (b + c).
Proof.
  unfold wrap64. intros H.
  rewrite <- (Zplus_mod_idemp_l a), H, Zplus_mod_idemp_l. reflexivity.
Qed.

Lemma sum_blocks_zero (l : list erofs_device_info) :
  Forall (fun d => dif_blocks d = 0) l -> sum_blocks l = 0.
Proof.
  induction 1 as [| d l Hd _ IH]; [reflexivity |].
  cbn [sum_blocks fold_right]. fold (sum_blocks l). lia.
Qed.

Section TotalBlocks.
Context {A : erofs_abi} {K : kconfig}.
Variable env : environment.
Variable st0 : state.

Lemma init_devices_each_total (todo : list erofs_device_info) :
  forall (done : list erofs_device_info) (tr : list event) (e total pos : Z),
    Forall (fun d => dif_blocks d = 0) todo ->
    exists (ex : loop_exit) (tr' : list event)
           (new rest : list erofs_device_info) (pos' : Z),
      init_devices_each env todo (List.length done)
        (with_devices st0 tr (done ++ todo) e total) pos =
        (ex, with_devices st0 tr' (done ++ new ++ rest) e
               (accum_blocks total new), pos') /\
      Forall (fun d => dif_blocks d = 0) rest.
Proof.
  induction todo as [| d todo IH]; intros done tr e total pos Hz.
  - exists LoopEnd, tr, [], [], pos. split; [reflexivity | constructor].
  - cbn [init_devices_each]. unfold read_metabuf. wd.
    destruct (erofs_read_metabuf env tr (erofs_blknr pos)) as [ptr | err].
    2:{ exists (LoopBreak (PTR_ERR err)), (tr ++ [EvReadMeta (erofs_blknr pos)]),
          [], (d :: todo), pos.
        split; [reflexivity | exact Hz]. }
    cbv zeta. wd.
    assert (Hopen : forall d1 ev2,
      let st := log ev2 (with_devices st0 (tr ++ [EvReadMeta (erofs_blknr pos)])
                           (done ++ d :: todo) e total) in
      exists (ex : loop_exit) (tr' : list event)
             (new rest : list erofs_device_info) (pos' : Z),
        init_devices_each env todo (S (List.length done))
          (add_total_blocks (dif_blocks d1)
             (set_tree (list_set (List.length done) d1
                          (tree (devs (EROFS_SB st)))) st))
          (wrap64 (pos + sizeof_deviceslot)) =
        (ex, with_devices st0 tr' (done ++ new ++ rest) e
               (accum_blocks total new), pos') /\
        Forall (fun d => dif_blocks d = 0) rest).
    { intros d1 ev2 st. subst st. wd. rewrite list_set_app.
      replace (done ++ d1 :: todo) with ((done ++ [d1]) ++ todo)
        by (rewrite <- app_assoc; reflexivity).
      replace (S (List.length done)) with (List.length (done ++ [d1]))
        by (rewrite length_app; simpl; lia).
      inversion Hz as [| ? ? _ Hz']; subst.
      destruct (IH (done ++ [d1]) ((tr ++ [EvReadMeta (erofs_blknr pos)]) ++ [ev2])
                  e (wrap64 (total + dif_blocks d1))
                  (wrap64 (pos + sizeof_deviceslot)) Hz')
        as (ex & tr' & new & rest & pos' & Hrun & Hrest).
      exists ex, tr', (d1 :: new), rest, pos'.
      rewrite Hrun, <- app_assoc. split; [reflexivity | exact Hrest]. }
    destruct (bootstrap (EROFS_SB st0)).
    + destruct (filp_open env _ (dif_path d)) as [f | err].
      * apply Hopen.
      * eexists (LoopReturn (PTR_ERR err)), _, [], (d :: todo), pos.
        split; [wd; reflexivity | exact Hz].
    + destruct (blkdev_get_by_path env _ (dif_path d)) as [f | err].
      * apply Hopen.
      * eexists (LoopReturn (PTR_ERR err)), _, [], (d :: todo), pos.
        split; [wd; reflexivity | exact Hz].
Qed.

Lemma init_devices_blobs_total (n : nat) (ondisk : Z) :
  forall (t : list erofs_device_info) (tr : list event) (e total pos : Z),
    exists (err : Z) (tr' : list event)
           (new rest : list erofs_device_info) (e' : Z),
      init_devices_blobs env n ondisk (with_devices st0 tr t e total) pos =
        (err, with_devices st0 tr' (t ++ new ++ rest) e'
                (accum_blocks total new)) /\
      Forall (fun d => dif_blocks d = 0) rest.
Proof.
  induction n as [| n IH]; intros t tr e total pos.
  - exists 0, tr, [], [], e. cbn [init_devices_blobs].
    rewrite !app_nil_r.
    destruct (_ <? _); split; first [reflexivity | constructor].
  - cbn [init_devices_blobs]. wd.
    destruct (e <? ondisk).
    2:{ exists 0, tr, [], [], e. rewrite !app_nil_r.
        split; [reflexivity | constructor]. }
    unfold init_devices_blob, read_metabuf, idr_alloc, kmalloc. wd.
    destruct (erofs_read_metabuf env tr (erofs_blknr pos)) as [ptr | err].
    2:{ eexists _, _, [], [], e. rewrite !app_nil_r.
        split; [reflexivity | constructor]. }
    cbv zeta.
    destruct (alloc_ok env _); cbn [negb].
    2:{ eexists _, _, [], [], e. rewrite !app_nil_r.
        split; [wd; reflexivity | constructor]. }
    wd.
    destruct (alloc_ok env _); cbn [negb].
    2:{ eexists _, _, [], [], e. rewrite !app_nil_r.
        split; [wd; reflexivity | constructor]. }
    wd.
    match goal with |- context [Z.of_nat ?x <? 0] =>
      assert ((Z.of_nat x <? 0) = false) as -> by (apply Z.ltb_ge; lia)
    end.
    rewrite Nat2Z.id.
    match goal with |- context [file_open_root env ?h ?d ?nm] =>
      destruct (file_open_root env h d nm) as [f | err]
    end.
    + wd. rewrite list_set_app.
      match goal with
      | |- context [with_devices st0 ?tr1 (t ++ [?d1]) (e + 1) ?tot] =>
          destruct (IH (t ++ [d1]) tr1 (e + 1) tot
                      (wrap64 (pos + sizeof_deviceslot)))
            as (err & tr' & new & rest & e' & Hrun & Hrest);
          exists err, tr', (d1 :: new), rest, e'
      end.
      rewrite Hrun, <- app_assoc. split; [reflexivity | exact Hrest].
    + eexists _, _, [], [dev_zero], e.
      split; [wd; reflexivity | repeat constructor].
Qed.
End TotalBlocks.

Section Invariant.
Context {A : erofs_abi} {K : kconfig}.
Variable env : environment.

(** The invariant of the mount instance, for every behaviour of the
    kernel and whatever [erofs_init_devices] returns: starting from
    descriptors as the option parser creates them, [total_blocks] is,
    in 64-bit arithmetic, the block count of the primary device plus the
    block counts the descriptors carry. *)
Lemma init_devices_total_blocks (st : state) (dsb : erofs_super_block) :
  Forall (fun d => dif_blocks d = 0) (tree (devs (EROFS_SB st))) ->
  let st' := snd (erofs_init_devices env st dsb) in
  wrap64 (total_blocks (EROFS_SB st')) =
  wrap64 (primarydevice_blocks (EROFS_SB st) +
          sum_blocks (tree (devs (EROFS_SB st')))).
Proof.
  intros Hz st'. subst st'.
  unfold erofs_init_devices. cbv zeta.
  rewrite with_devices_total.
  match goal with |- context [if ?c then (Z.neg EINVAL, _) else _] =>
    destruct c; [cbn [snd]; wd; now rewrite (sum_blocks_zero _ Hz), Z.add_0_r |]
  end.
  match goal with |- context [if ?c then (0, _) else _] =>
    destruct c; [cbn [snd]; wd; now rewrite (sum_blocks_zero _ Hz), Z.add_0_r |]
  end.
  rewrite wd_set_device_id_mask. wd.
  match goal with
  | |- context [init_devices_each env ?t 0 (with_devices ?s0 ?tr ?t ?e ?tot) ?p] =>
      destruct (init_devices_each_total env s0 t [] tr e tot p Hz)
        as (ex & tr1 & new1 & rest1 & pos1 & Hrun1 & Hrest1)
  end.
  cbn [app List.length] in Hrun1. rewrite Hrun1.
  assert (Hfirst :
    wrap64 (accum_blocks (primarydevice_blocks (EROFS_SB st)) new1) =
    wrap64 (primarydevice_blocks (EROFS_SB st) + sum_blocks (new1 ++ rest1))).
  { rewrite accum_blocks_wrap, sum_blocks_app, (sum_blocks_zero _ Hrest1).
    now rewrite Z.add_0_r. }
  assert (Hblobs : forall n ondisk s0 e,
    let r := init_devices_blobs env n ondisk
               (with_devices s0 tr1 (new1 ++ rest1) e
                  (accum_blocks (primarydevice_blocks (EROFS_SB st)) new1))
               pos1 in
    wrap64 (total_blocks (EROFS_SB (snd r))) =
    wrap64 (primarydevice_blocks (EROFS_SB st) +
            sum_blocks (tree (devs (EROFS_SB (snd r)))))).
  { intros n ondisk s0 e r. subst r.
    destruct (init_devices_blobs_total env s0 n ondisk (new1 ++ rest1) tr1 e
                (accum_blocks (primarydevice_blocks (EROFS_SB st)) new1) pos1)
      as (err & tr2 & new2 & rest2 & e2 & Hrun2 & Hrest2).
    rewrite Hrun2. cbn [snd]. wd.
    rewrite accum_blocks_wrap.
    rewrite (wrap64_add_congr _ _ (sum_blocks new2) Hfirst).
    rewrite !sum_blocks_app, (sum_blocks_zero _ Hrest2). f_equal. lia. }
  destruct ex; cbn [snd]; wd; first [apply Hblobs | exact Hfirst].
Qed.
End Invariant.

(* ------------------------------------------------------------------ *)
(** ** The [cache_strategy] option *)

Lemma strsep_commas_no_comma (s : string) :
  no_comma s = true -> strsep_commas s = [s].
Proof.
  induction s as [| c s IH]; intros H; [reflexivity |].
  cbn [no_comma] in H. apply andb_true_iff in H as [Hc Hs].
  cbn [strsep_commas]. apply negb_true_iff in Hc. rewrite Hc, (IH Hs).
  reflexivity.
Qed.

Lemma match_token_cache_strategy (v : string) :
  match_token ("cache_strategy=" ++ v) erofs_tokens =
  match v with
  | EmptyString => (Opt_err, None)
  | _ => (Opt_cache_strategy, Some v)
  end.
Proof. destruct v; reflexivity. Qed.

Section CacheStrategy.
Context {A : erofs_abi} {K : kconfig}.
Variable env : environment.

Lemma parse_options_cache_strategy (st : state) (v : string) :
  no_comma v = true ->
  erofs_parse_options env st (Some ("cache_strategy=" ++ v)%string) =
  match v with
  | EmptyString => (Z.neg EINVAL, st)
  | _ =>
      let '(err, st) := erofs_build_cache_strategy env st (Some v) in
      if negb (err =? 0) then (err, st) else (0, st)
  end.
Proof.
  intros Hv. unfold erofs_parse_options.
  rewrite strsep_commas_no_comma by (cbn; exact Hv).
  cbn [parse_options_loop]. unfold parse_option.
  change (streq ("cache_strategy=" ++ v) EmptyString) with false. cbv iota.
  rewrite match_token_cache_strategy.
  destruct v as [| c v]; [reflexivity |].
  destruct (erofs_build_cache_strategy env st (Some (String c v))) as [err st'].
  destruct (negb (err =? 0)); reflexivity.
Qed.

(** C7.  Parsing the single option [cache_strategy=v], [v] free of
    commas.  With the compressed cache compiled in and memory for the
    copy of the value: for [disabled], [readahead] and [readaround] the
    parse succeeds and records exactly that strategy, nothing else of
    the configuration changing; for every other value, the missing one
    included, it fails with [-EINVAL] and the configuration is as
    before.  With the compressed cache compiled out every value is
    accepted and nothing changes. *)
Theorem parse_cache_strategy (st : state) (v : string) :
  no_comma v = true ->
  let r := erofs_parse_options env st (Some ("cache_strategy=" ++ v)%string) in
  (CONFIG_EROFS_FS_ZIP = true ->
   alloc_ok env (trace st) = true ->
   match cache_strategy_of v with
   | Some cs => r = (0, upd_sbi (set_cache_strategy cs) (log EvAlloc st))
   | None => fst r = Z.neg EINVAL /\ sb (snd r) = sb st
   end) /\
  (CONFIG_EROFS_FS_ZIP = false ->
   v <> EmptyString ->
   r = (0, st)).
Proof.
  intros Hv r. subst r. rewrite (parse_options_cache_strategy st v Hv).
  unfold erofs_build_cache_strategy, kmalloc, cache_strategy_of, streq.
  split.
  - intros Hzip Halloc. rewrite Hzip, Halloc. cbn [negb].
    destruct v as [| c v]; [split; reflexivity |].
    destruct (String.eqb (String c v) "disabled"); [reflexivity |].
    destruct (String.eqb (String c v) "readahead"); [reflexivity |].
    destruct (String.eqb (String c v) "readaround"); [reflexivity |].
    split; reflexivity.
  - intros Hzip Hne. rewrite Hzip.
    destruct v as [| c v]; [congruence | reflexivity].
Qed.
End CacheStrategy.

Lemma parse_cache_strategy_witness :
  (fst (@erofs_parse_options linux_abi kconfig_all (env_ok no_disk) st_zero
          (Some "cache_strategy=bogus"%string)) = Z.neg EINVAL) /\
  (cache_strategy
     (EROFS_SB
        (snd (@erofs_parse_options linux_abi kconfig_all (env_ok no_disk)
                st_zero (Some "cache_strategy=readaround"%string)))) =
   EROFS_ZIP_CACHE_READAROUND) /\
  (@erofs_parse_options linux_abi kconfig_nozip (env_ok no_disk) st_zero
     (Some "cache_strategy=bogus"%string) = (0, st_zero)).
Proof.
  split; [| split].
  - destruct (@parse_cache_strategy linux_abi kconfig_all (env_ok no_disk)
                st_zero "bogus" eq_refl) as [H _].
    exact (proj1 (H eq_refl eq_refl)).
  - destruct (@parse_cache_strategy linux_abi kconfig_all (env_ok no_disk)
                st_zero "readaround" eq_refl) as [H _].
    assert (E : @erofs_parse_options linux_abi kconfig_all (env_ok no_disk)
                  st_zero (Some "cache_strategy=readaround"%string) =
                (0, upd_sbi (set_cache_strategy EROFS_ZIP_CACHE_READAROUND)
                      (log EvAlloc st_zero)))
      by exact (H eq_refl eq_refl).
    rewrite E. reflexivity.
  - destruct (@parse_cache_strategy linux_abi kconfig_nozip (env_ok no_disk)
                st_zero "bogus" eq_refl) as [_ H].
    apply H; [reflexivity | discriminate].
Defined.

(* ------------------------------------------------------------------ *)
(** ** The pre-scan for the mount mode *)

Section PreScan.
Context {A : erofs_abi} {K : kconfig}.
Variable env : environment.

Lemma parse_option_paths (st : state) (p : string) :
  match fst (match_token p erofs_tokens) with
  | Opt_bootstrap_path | Opt_blob_dir_path => streq p EmptyString = true
  | _ => True
  end ->
  bootstrap_path (EROFS_SB (snd (parse_option env st p))) =
    bootstrap_path (EROFS_SB st) /\
  blob_dir_path (EROFS_SB (snd (parse_option env st p))) =
    blob_dir_path (EROFS_SB st).
Proof.
  unfold parse_option.
  destruct (streq p EmptyString) eqn:Hp; [split; reflexivity |].
  destruct (match_token p erofs_tokens) as [tok arg]. cbn [fst].
  destruct tok; try discriminate; intros _;
    unfold erofs_build_cache_strategy, idr_alloc, kmalloc;
    cbn [trace log];
    repeat match goal with
           | |- context [if ?b then _ else _] => destruct b
           end;
    split; reflexivity.
Qed.

(** The pre-scan of the option string agrees with the parser: when
    [erofs_mount_is_rafs_v6] finds neither [bootstrap_path] nor
    [blob_dir_path], parsing the options leaves both paths as they
    are. *)
Lemma mount_is_rafs_v6_loop_false (ps : list string) :
  mount_is_rafs_v6_loop ps = false ->
  forall st : state,
    bootstrap_path (EROFS_SB (snd (parse_options_loop env st ps))) =
      bootstrap_path (EROFS_SB st) /\
    blob_dir_path (EROFS_SB (snd (parse_options_loop env st ps))) =
      blob_dir_path (EROFS_SB st).
Proof.
  induction ps as [| p ps IH]; intros Hscan st; [split; reflexivity |].
  cbn [mount_is_rafs_v6_loop parse_options_loop] in *.
  assert (Hp : match fst (match_token p erofs_tokens) with
               | Opt_bootstrap_path | Opt_blob_dir_path => streq p EmptyString = true
               | _ => True
               end /\ mount_is_rafs_v6_loop ps = false).
  { destruct (streq p EmptyString).
    - split; [destruct (fst (match_token p erofs_tokens)); auto | exact Hscan].
    - destruct (fst (match_token p erofs_tokens)); auto; discriminate. }
  destruct Hp as [Hp Hps].
  pose proof (parse_option_paths st p Hp) as [Hb Hd].
  destruct (parse_option env st p) as [[err | u] st']; cbn [snd] in *.
  - split; assumption.
  - destruct (IH Hps st') as [Hb' Hd']. split; congruence.
Qed.

Lemma mount_is_rafs_v6_false (st : state) (options : option string) :
  alloc_ok env (trace st) = true ->
  fst (erofs_mount_is_rafs_v6 env st options) = false ->
  forall st1 : state,
    blob_dir_path (EROFS_SB (snd (erofs_parse_options env st1 options))) =
    blob_dir_path (EROFS_SB st1).
Proof.
  intros Ha Hscan st1. destruct options as [o |]; [| reflexivity].
  unfold erofs_mount_is_rafs_v6, kmalloc in Hscan. rewrite Ha in Hscan.
  cbn [negb fst] in Hscan.
  exact (proj2 (mount_is_rafs_v6_loop_false _ Hscan st1)).
Qed.
End PreScan.

Example mount_is_rafs_v6_blob_dir :
  fst (erofs_mount_is_rafs_v6 (env_ok no_disk) st_zero
         (Some "acl,,blob_dir_path=/blobs"%string)) = true.
Proof. reflexivity. Qed.

Example mount_is_rafs_v6_bdev :
  fst (erofs_mount_is_rafs_v6 (env_ok no_disk) st_zero
         (Some "device=/dev/vdb,noacl"%string)) = false.
Proof. reflexivity. Qed.

(** Out of memory, the options that copy their value fail with
    [-ENOMEM], and so does the checksum verification. *)
Example parse_cache_strategy_oom :
  fst (@erofs_parse_options linux_abi kconfig_all (env_oom no_disk) st_zero
         (Some "cache_strategy=readaround"%string)) = Z.neg ENOMEM.
Proof. reflexivity. Qed.

Example read_superblock_checksum_oom :
  fst (@erofs_read_superblock linux_abi kconfig_all
         (env_oom (one_block_disk (sb_image 1 0 100 0 0 435487258)))
         crc32c_le st_zero) = Z.neg ENOMEM.
Proof. vm_compute. reflexivity. Qed.

(* ------------------------------------------------------------------ *)
(** ** The devices the options register *)

Section ParsedDevices.
Context {A : erofs_abi} {K : kconfig}.
Variable env : environment.

Lemma parse_option_devices (st : state) (p : string) :
  let dc := devs (EROFS_SB st) in
  let dc' := devs (EROFS_SB (snd (parse_option env st p))) in
  dc' = dc \/
  exists d, dif_fresh d /\
            tree dc' = tree dc ++ [d] /\
            extra_devices dc' = wrap32 (extra_devices dc + 1).
Proof.
  unfold parse_option.
  destruct (streq p EmptyString); [left; reflexivity |].
  destruct (match_token p erofs_tokens) as [tok arg].
  destruct tok;
    unfold erofs_build_cache_strategy, idr_alloc, kmalloc;
    cbn [trace log]; cbv beta iota zeta;
    repeat match goal with
           | |- context [Z.of_nat ?x <? 0] =>
               assert ((Z.of_nat x <? 0) = false) as ->
                 by (apply Z.ltb_ge; lia)
           | |- context [if ?b then _ else _] =>
               destruct b; cbn [negb]; cbv beta iota zeta;
               cbn [Z.ltb Z.compare]
           end;
    try (left; reflexivity).
  right. eexists. split; [| split; reflexivity]. repeat split.
Qed.

Lemma parse_options_loop_devices (ps : list string) :
  forall st : state,
    let dc := devs (EROFS_SB st) in
    let dc' := devs (EROFS_SB (snd (parse_options_loop env st ps))) in
    exists new,
      tree dc' = tree dc ++ new /\
      Forall dif_fresh new /\
      (extra_devices dc = Z.of_nat (List.length (tree dc)) ->
       Z.of_nat (List.length (tree dc')) < 2 ^ 32 ->
       extra_devices dc' = Z.of_nat (List.length (tree dc'))).
Proof.
  induction ps as [| p ps IH]; intros st; cbn [parse_options_loop].
  - exists []. rewrite app_nil_r. repeat split; auto.
  - pose proof (parse_option_devices st p) as Hp. cbv zeta in Hp.
    destruct (parse_option env st p) as [[err | u] st']; cbn [snd] in *.
    + destruct Hp as [-> | (d & Hd & Ht & He)].
      * exists []. rewrite app_nil_r. repeat split; auto.
      * exists [d]. split; [exact Ht |].
        split; [constructor; [exact Hd | constructor] |].
        intros Hc Hlen. rewrite He, Hc, Ht, length_app in *. cbn in *.
        unfold wrap32. rewrite Z.mod_small; lia.
    + destruct (IH st') as (new & Ht' & Hf' & Hc').
      destruct Hp as [E | (d & Hd & Ht & He)].
      * rewrite E in *. exists new. repeat split; assumption.
      * exists (d :: new).
        split; [rewrite Ht', Ht, <- app_assoc; reflexivity |].
        split; [constructor; assumption |].
        intros Hc Hlen. apply Hc'; [| exact Hlen].
        rewrite Ht', Ht, !length_app in Hlen. cbn [List.length] in Hlen.
        rewrite He, Hc, Ht, length_app. cbn [List.length].
        unfold wrap32. rewrite Z.mod_small; lia.
Qed.

(** X7.  Mounting: after the options are parsed into a fresh mount
    instance, whether the parser succeeded or not, the device registry
    holds only unopened descriptors without block range, and
    [extra_devices] is their number. *)
Lemma parse_options_fresh_devices (st : state) (options : option string) :
  devs (EROFS_SB st) = {| tree := []; extra_devices := 0 |} ->
  let dc' := devs (EROFS_SB (snd (erofs_parse_options env st options))) in
  Forall dif_fresh (tree dc') /\
  (Z.of_nat (List.length (tree dc')) < 2 ^ 32 ->
   extra_devices dc' = Z.of_nat (List.length (tree dc'))).
Proof.
  intros Hd dc'. subst dc'. destruct options as [o |].
  - unfold erofs_parse_options.
    destruct (parse_options_loop_devices (strsep_commas o) st)
      as (new & Ht & Hf & Hc).
    rewrite Hd in *. cbn [tree extra_devices app List.length] in *.
    rewrite Ht. split; [exact Hf |]. intros Hlen. rewrite <- Ht.
    apply Hc; [reflexivity | rewrite Ht; exact Hlen].
  - cbn. rewrite Hd. cbn. split; [constructor | reflexivity].
Qed.
End ParsedDevices.

(* ------------------------------------------------------------------ *)
(** ** Remount *)

Lemma land_lor_same (a b : Z) : Z.land (Z.lor a b) b = b.
Proof.
  apply Z.bits_inj'. intros i Hi.
  rewrite Z.land_spec, Z.lor_spec.
  destruct (Z.testbit a i), (Z.testbit b i); reflexivity.
Qed.

Lemma land_lor_disjoint (s p r : Z) :
  Z.land r p = 0 -> Z.land (Z.lor s p) r = Z.land s r.
Proof.
  intros H. apply Z.bits_inj'. intros i Hi.
  assert (Hb : Z.testbit (Z.land r p) i = false) by (rewrite H; apply Z.bits_0).
  rewrite Z.land_spec in Hb. rewrite !Z.land_spec, Z.lor_spec.
  destruct (Z.testbit s i), (Z.testbit p i), (Z.testbit r i);
    try reflexivity; discriminate.
Qed.

Lemma land_ldiff_disjoint (s p r : Z) :
  Z.land r p = 0 -> Z.land (Z.ldiff s p) r = Z.land s r.
Proof.
  intros H. apply Z.bits_inj'. intros i Hi.
  assert (Hb : Z.testbit (Z.land r p) i = false) by (rewrite H; apply Z.bits_0).
  rewrite Z.land_spec in Hb. rewrite !Z.land_spec, Z.ldiff_spec.
  destruct (Z.testbit s i), (Z.testbit p i), (Z.testbit r i);
    try reflexivity; discriminate.
Qed.

Section Remount.
Context {A : erofs_abi} {K : kconfig}.
Variable env : environment.

Lemma parse_option_s_flags (st : state) (p : string) :
  s_flags (sb (snd (parse_option env st p))) = s_flags (sb st).
Proof.
  unfold parse_option.
  destruct (streq p EmptyString); [reflexivity |].
  destruct (match_token p erofs_tokens) as [tok arg].
  destruct tok;
    unfold erofs_build_cache_strategy, idr_alloc, kmalloc;
    cbn [trace log];
    repeat match goal with
           | |- context [if ?b then _ else _] => destruct b
           end;
    reflexivity.
Qed.

Lemma parse_options_loop_s_flags (ps : list string) :
  forall st, s_flags (sb (snd (parse_options_loop env st ps))) = s_flags (sb st).
Proof.
  induction ps as [| p ps IH]; intros st; [reflexivity |].
  cbn [parse_options_loop].
  pose proof (parse_option_s_flags st p) as Hp.
  destruct (parse_option env st p) as [[err | u] st']; cbn [snd] in *.
  - exact Hp.
  - rewrite IH. exact Hp.
Qed.

Lemma parse_options_s_flags (st : state) (data : option string) :
  s_flags (sb (snd (erofs_parse_options env st data))) = s_flags (sb st).
Proof.
  destruct data as [o |]; [apply parse_options_loop_s_flags | reflexivity].
Qed.

(** A remount, failed or not, leaves the read-only bit of [s_flags]
    alone. *)
Lemma remount_keeps_rdonly_bit (st : state) (flags : Z)
    (data : option string) :
  Z.land SB_RDONLY SB_POSIXACL = 0 ->
  Z.land (s_flags (sb (snd (fst (erofs_remount env st flags data)))))
    SB_RDONLY =
  Z.land (s_flags (sb st)) SB_RDONLY.
Proof.
  intros Hd. unfold erofs_remount. cbv zeta.
  pose proof (parse_options_s_flags st data) as Hf.
  destruct (erofs_parse_options env st data) as [err st1]. cbn [fst snd] in *.
  destruct (negb (err =? 0)); cbn [fst snd].
  - cbn. rewrite <- Hf. reflexivity.
  - destruct (test_opt (EROFS_SB st1) EROFS_MOUNT_POSIX_ACL);
      cbn [upd_sb sb set_s_flags s_flags]; rewrite Hf.
    + apply land_lor_disjoint. exact Hd.
    + apply land_ldiff_disjoint. exact Hd.
Qed.

(** A failed remount puts the toggle flags back. *)
Lemma remount_restores_mount_opt (st : state) (flags : Z)
    (data : option string) :
  fst (fst (erofs_remount env st flags data)) <> 0 ->
  mount_opt (EROFS_SB (snd (fst (erofs_remount env st flags data)))) =
  mount_opt (EROFS_SB st).
Proof.
  unfold erofs_remount. cbv zeta.
  destruct (erofs_parse_options env st data) as [err st1].
  destruct (Z.eqb_spec err 0) as [He | He]; cbn [negb fst snd].
  - congruence.
  - reflexivity.
Qed.

End Remount.

(** C1 fails on the code.  On a volume mounted with the defaults, a
    remount whose option string sets the cache strategy, registers a
    device and names a blob directory before an unknown option fails
    with [-EINVAL]; [erofs_remount] puts [mount_opt] back, and only
    that: the cache strategy, the device registry and the blob-directory
    path stay as the options before the bad one left them. *)
Theorem remount_failure_keeps_parsed_options :
  let env := env_ok no_disk in
  let data :=
    "noacl,cache_strategy=disabled,device=/dev/vdb,blob_dir_path=/b,bogus"%string in
  let r := @erofs_remount linux_abi kconfig_all env mounted 0 (Some data) in
  let before := EROFS_SB mounted in
  let after := EROFS_SB (snd (fst r)) in
  fst (fst r) = Z.neg EINVAL /\
  mount_opt after = mount_opt before /\
  (cache_strategy before = EROFS_ZIP_CACHE_READAROUND /\
   cache_strategy after = EROFS_ZIP_CACHE_DISABLED) /\
  (devs before = {| tree := []; extra_devices := 0 |} /\
   devs after =
     {| tree := [{| dif_path := Some "/dev/vdb"%string; dif_bdev := None;
                    dif_blobfile := None; dif_blocks := 0;
                    dif_mapped_blkaddr := 0 |}];
        extra_devices := 1 |}) /\
  (blob_dir_path before = None /\
   blob_dir_path after = Some "/b"%string).
Proof. vm_compute. repeat split; reflexivity. Qed.

(* ------------------------------------------------------------------ *)
(** ** Invalidating a managed cache page *)

Lemma spins_succ (tr : list cache_event) (j : nat) :
  ((tr ++ [EvTryFree]) ++ [EvResched]) ++ spins j = tr ++ spins (S j).
Proof. cbn [spins]. now rewrite <- !app_assoc. Qed.

Section Invalidate.
Context {A : erofs_abi}.
Variable busy : list cache_event -> bool.

Lemma invalidatepage_loop_returns (k : nat) :
  forall (fuel : nat) (c : cache_state),
    PagePrivate (cpage c) = true ->
    (forall j, (j < k)%nat -> busy (ctrace c ++ spins j) = true) ->
    busy (ctrace c ++ spins k) = false ->
    (k < fuel)%nat ->
    invalidatepage_loop busy fuel c =
      Some (released c (ctrace c ++ spins k ++ [EvTryFree])).
Proof.
  induction k as [| k IH]; intros fuel c Hpriv Hbusy Hfree Hfuel.
  - destruct fuel as [| fuel]; [lia |].
    cbn [invalidatepage_loop spins app] in *.
    unfold erofs_managed_cache_releasepage, erofs_try_to_free_cached_page.
    rewrite app_nil_r in Hfree. rewrite Hpriv, Hfree. reflexivity.
  - destruct fuel as [| fuel]; [lia |].
    cbn [invalidatepage_loop].
    unfold erofs_managed_cache_releasepage, erofs_try_to_free_cached_page.
    pose proof (Hbusy O (Nat.lt_0_succ k)) as H0.
    cbn [spins] in H0. rewrite app_nil_r in H0. rewrite Hpriv, H0.
    cbn [Z.eqb]. unfold cond_resched. cbn [cpage ctrace].
    rewrite (IH fuel); cbn [cpage ctrace].
    + unfold released. cbn [cpage spins]. rewrite <- !app_assoc. reflexivity.
    + exact Hpriv.
    + intros j Hj. rewrite spins_succ. apply Hbusy. lia.
    + rewrite spins_succ. exact Hfree.
    + lia.
Qed.

Lemma invalidatepage_loop_spins (fuel : nat) :
  forall c : cache_state,
    PagePrivate (cpage c) = true ->
    (forall j, busy (ctrace c ++ spins j) = true) ->
    invalidatepage_loop busy fuel c = None.
Proof.
  induction fuel as [| fuel IH]; intros c Hpriv Hbusy; [reflexivity |].
  cbn [invalidatepage_loop].
  unfold erofs_managed_cache_releasepage, erofs_try_to_free_cached_page.
  pose proof (Hbusy O) as H0. cbn [spins] in H0. rewrite app_nil_r in H0.
  rewrite Hpriv, H0. cbn [Z.eqb].
  apply IH; unfold cond_resched; cbn [cpage ctrace]; [exact Hpriv |].
  intros j. rewrite spins_succ. apply Hbusy.
Qed.

Lemma invalidatepage_loop_sound (fuel : nat) :
  forall c c' : cache_state,
    invalidatepage_loop busy fuel c = Some c' ->
    PagePrivate (cpage c') = false /\
    exists k : nat,
      ctrace c' =
        ctrace c ++ spins k ++
        (if PagePrivate (cpage c) then [EvTryFree] else []) /\
      (forall j, (j < k)%nat -> busy (ctrace c ++ spins j) = true) /\
      (PagePrivate (cpage c) = true -> busy (ctrace c ++ spins k) = false).
Proof.
  induction fuel as [| fuel IH]; intros c c' H; [discriminate |].
  cbn [invalidatepage_loop] in H.
  unfold erofs_managed_cache_releasepage, erofs_try_to_free_cached_page in H.
  destruct (PagePrivate (cpage c)) eqn:Hpriv.
  - destruct (busy (ctrace c)) eqn:Hb; cbn [Z.eqb] in H.
    + apply IH in H. unfold cond_resched in H. cbn [cpage ctrace] in H.
      destruct H as (Hp & k & Ht & Hbusy & Hfree).
      split; [exact Hp |]. exists (S k).
      rewrite Hpriv in Ht, Hfree.
      split; [| split].
      * rewrite Ht. cbn [spins]. now rewrite <- !app_assoc.
      * intros [| j] Hj.
        -- cbn [spins]. now rewrite app_nil_r.
        -- rewrite <- spins_succ. apply Hbusy. lia.
      * intros _. rewrite <- spins_succ. now apply Hfree.
    + injection H as <-. cbn [cpage ctrace]. split; [reflexivity |].
      exists O. cbn [spins app]. split; [reflexivity |].
      split; [intros j Hj; lia |]. intros _. now rewrite app_nil_r.
  - injection H as <-. split; [exact Hpriv |].
    exists O. cbn [spins app]. rewrite app_nil_r.
    split; [reflexivity |]. split; [intros j Hj; lia | discriminate].
Qed.

(** C8.  For a range that is exactly the whole page,
    [erofs_managed_cache_invalidatepage] tries to release the page again
    and again, yielding after every failed attempt: whenever it returns,
    the page has no backing state left and [releasepage] answers 1 for
    it, all attempts but the last having found the page busy; it
    returns after the first attempt that finds the page free, and at
    once for a page without backing state; and as long as the page
    stays busy it does not return. *)
Theorem invalidatepage_full_page (c : cache_state) (offset length : Z) :
  offset = 0 ->
  length = PAGE_SIZE ->
  0 <= PAGE_SIZE < 2 ^ 32 ->
  (forall (fuel : nat) (c' : cache_state),
     erofs_managed_cache_invalidatepage busy fuel c offset length = Some c' ->
     PagePrivate (cpage c') = false /\
     erofs_managed_cache_releasepage busy c' = (1, c') /\
     exists k : nat,
       ctrace c' =
         ctrace c ++ spins k ++
         (if PagePrivate (cpage c) then [EvTryFree] else []) /\
       (forall j, (j < k)%nat -> busy (ctrace c ++ spins j) = true) /\
       (PagePrivate (cpage c) = true ->
        busy (ctrace c ++ spins k) = false)) /\
  (forall k : nat,
     PagePrivate (cpage c) = true ->
     (forall j, (j < k)%nat -> busy (ctrace c ++ spins j) = true) ->
     busy (ctrace c ++ spins k) = false ->
     forall fuel : nat,
       (k < fuel)%nat ->
       erofs_managed_cache_invalidatepage busy fuel c offset length =
         Some (released c (ctrace c ++ spins k ++ [EvTryFree]))) /\
  (PagePrivate (cpage c) = false ->
   forall fuel : nat,
     (0 < fuel)%nat ->
     erofs_managed_cache_invalidatepage busy fuel c offset length = Some c) /\
  (PagePrivate (cpage c) = true ->
   (forall j, busy (ctrace c ++ spins j) = true) ->
   forall fuel : nat,
     erofs_managed_cache_invalidatepage busy fuel c offset length = None).
Proof.
  intros -> -> Hpage.
  assert (Hfull : forall fuel,
            erofs_managed_cache_invalidatepage busy fuel c 0 PAGE_SIZE =
            invalidatepage_loop busy fuel c).
  { intros fuel. unfold erofs_managed_cache_invalidatepage, wrap32.
    rewrite Z.add_0_r, Z.mod_small by exact Hpage.
    now rewrite !Z.eqb_refl. }
  split; [| split; [| split]].
  - intros fuel c' H. rewrite Hfull in H.
    apply invalidatepage_loop_sound in H as (Hp & Hk).
    split; [exact Hp |]. split; [| exact Hk].
    unfold erofs_managed_cache_releasepage. now rewrite Hp.
  - intros k Hpriv Hbusy Hfree fuel Hfuel. rewrite Hfull.
    now apply invalidatepage_loop_returns.
  - intros Hpriv [| fuel] Hfuel; [lia |]. rewrite Hfull.
    cbn [invalidatepage_loop]. unfold erofs_managed_cache_releasepage.
    now rewrite Hpriv.
  - intros Hpriv Hbusy fuel. rewrite Hfull.
    now apply invalidatepage_loop_spins.
Qed.

(** X17.  Invalidating a range that is not the whole page leaves the
    page alone: [erofs_managed_cache_invalidatepage] returns at once,
    without an attempt to release the page and without yielding, also
    when the page has backing state and is busy. *)
Lemma invalidatepage_partial (c : cache_state) (offset length : Z)
    (fuel : nat) :
  0 <= offset < 2 ^ 32 -> 0 <= length < 2 ^ 32 ->
  offset <> 0 \/ length <> PAGE_SIZE ->
  erofs_managed_cache_invalidatepage busy fuel c offset length = Some c.
Proof.
  intros Ho Hl Hpart. unfold erofs_managed_cache_invalidatepage, wrap32.
  destruct (Z.eqb_spec offset 0) as [-> | Hne]; [| reflexivity].
  rewrite Z.add_0_r, Z.mod_small by lia.
  destruct (Z.eqb_spec length PAGE_SIZE); [| reflexivity]. destruct Hpart; congruence.
Qed.
End Invalidate.

Lemma invalidatepage_full_page_witness :
  @erofs_managed_cache_invalidatepage linux_abi busy_twice 3 page_cached
    0 4096 =
  Some (mkCache {| PageLocked := true; PagePrivate := false |}
          [EvTryFree; EvResched; EvTryFree; EvResched; EvTryFree]).
Proof.
  destruct (@invalidatepage_full_page linux_abi busy_twice page_cached 0 4096
              eq_refl eq_refl ltac:(vm_compute; split; [discriminate | reflexivity]))
    as (_ & H & _).
  apply (H 2%nat eq_refl).
  - intros [| [| j]] Hj; [reflexivity | reflexivity | lia].
  - reflexivity.
  - lia.
Defined.

(* ------------------------------------------------------------------ *)
(** ** The superblock flags from mount on *)

Section MountFlags.
Context {A : erofs_abi} {K : kconfig}.
Variable env : environment.
Variable crc32c : Z -> list byte -> Z.

Lemma init_devices_each_s_flags (todo : list erofs_device_info) :
  forall (id : nat) (st : state) (pos : Z),
    s_flags (sb (snd (fst (init_devices_each env todo id st pos)))) =
    s_flags (sb st).
Proof.
  induction todo as [| d todo IH]; intros id st pos; [reflexivity |].
  cbn [init_devices_each]. unfold read_metabuf.
  destruct (erofs_read_metabuf env (trace st) (erofs_blknr pos)) as [ptr | e];
    [| reflexivity].
  cbv zeta.
  destruct (bootstrap (EROFS_SB (log (EvReadMeta (erofs_blknr pos)) st))).
  - match goal with |- context [filp_open env ?h ?p] =>
      destruct (filp_open env h p)
    end; [| reflexivity].
    rewrite IH. reflexivity.
  - match goal with |- context [blkdev_get_by_path env ?h ?p] =>
      destruct (blkdev_get_by_path env h p)
    end; [| reflexivity].
    rewrite IH. reflexivity.
Qed.

Lemma init_devices_blob_s_flags (st : state) (pos : Z) :
  s_flags (sb (snd (init_devices_blob env st pos))) = s_flags (sb st).
Proof.
  unfold init_devices_blob, read_metabuf, idr_alloc, kmalloc.
  destruct (erofs_read_metabuf env (trace st) (erofs_blknr pos)) as [ptr | e];
    [| reflexivity].
  cbv zeta.
  repeat match goal with
         | |- context [alloc_ok env ?h] => destruct (alloc_ok env h); cbn [negb]
         end; try reflexivity.
  match goal with |- context [Z.of_nat ?x <? 0] =>
    destruct (Z.of_nat x <? 0); [reflexivity |]
  end.
  match goal with |- context [file_open_root env ?h ?d ?nm] =>
    destruct (file_open_root env h d nm) as [f | e]; reflexivity
  end.
Qed.

Lemma init_devices_blobs_s_flags (n : nat) (ondisk : Z) :
  forall (st : state) (pos : Z),
    s_flags (sb (snd (init_devices_blobs env n ondisk st pos))) =
    s_flags (sb st).
Proof.
  induction n as [| n IH]; intros st pos; cbn [init_devices_blobs];
    destruct (extra_devices (devs (EROFS_SB st)) <? ondisk);
    try reflexivity.
  pose proof (init_devices_blob_s_flags st pos) as Hb.
  destruct (init_devices_blob env st pos) as [[err | pos'] st'];
    cbn [snd] in *; [exact Hb |].
  rewrite IH. exact Hb.
Qed.

Lemma init_devices_s_flags (st : state) (dsb : erofs_super_block) :
  s_flags (sb (snd (erofs_init_devices env st dsb))) = s_flags (sb st).
Proof.
  unfold erofs_init_devices. cbv zeta.
  match goal with |- context [if ?c then (Z.neg EINVAL, _) else _] =>
    destruct c; [reflexivity |]
  end.
  match goal with |- context [if ?c then (0, _) else _] =>
    destruct c; [reflexivity |]
  end.
  match goal with |- context [init_devices_each env ?t ?i ?s ?p] =>
    pose proof (init_devices_each_s_flags t i s p) as He;
    destruct (init_devices_each env t i s p) as [[ex st1] pos1]
  end.
  cbn [fst snd] in He.
  destruct ex; try exact He; rewrite init_devices_blobs_s_flags; exact He.
Qed.

Lemma read_superblock_s_flags (st : state) :
  s_flags (sb (snd (erofs_read_superblock env crc32c st))) = s_flags (sb st).
Proof.
  unfold erofs_read_superblock, read_metabuf.
  destruct (erofs_read_metabuf env (trace st) 0) as [data | e];
    [| reflexivity].
  cbv zeta.
  destruct (dsb_magic (dsb_at (skipn EROFS_SUPER_OFFSET data)) =?
            EROFS_SUPER_MAGIC_V1); cbn [negb]; [| reflexivity].
  match goal with
  | |- context [if ?c then erofs_superblock_csum_verify ?e ?f ?s ?d else ?z] =>
      assert (Hc : s_flags (sb (snd (if c then erofs_superblock_csum_verify e f s d
                                     else z))) = s_flags (sb st))
        by (destruct c; [rewrite (proj2 (csum_verify_trace e f s d)) |];
            reflexivity);
      destruct (if c then erofs_superblock_csum_verify e f s d else z)
        as [ret st1]
  end.
  cbn [snd] in Hc.
  destruct (negb (ret =? 0)); [exact Hc |].
  destruct (negb (dsb_blkszbits (dsb_at (skipn EROFS_SUPER_OFFSET data)) =?
                  LOG_BLOCK_SIZE)); [exact Hc |].
  unfold check_layout_compatibility.
  match goal with |- context [if negb ?c then (false, _) else _] =>
    destruct c; cbn [negb]; [| exact Hc]
  end.
  destruct (strscpy _ _) as [r name].
  destruct (r <? 0); [exact Hc |].
  rewrite init_devices_s_flags. exact Hc.
Qed.

Lemma land_lor_lor_same (s r n : Z) : Z.land (Z.lor s (Z.lor r n)) r = r.
Proof.
  apply Z.bits_inj'. intros i Hi.
  rewrite Z.land_spec, !Z.lor_spec.
  destruct (Z.testbit s i), (Z.testbit r i), (Z.testbit n i); reflexivity.
Qed.

Lemma default_options_s_flags (st : state) :
  s_flags (sb (erofs_default_options st)) = s_flags (sb st).
Proof.
  unfold erofs_default_options.
  destruct CONFIG_EROFS_FS_ZIP, CONFIG_EROFS_FS_XATTR,
    CONFIG_EROFS_FS_POSIX_ACL; reflexivity.
Qed.

Lemma rafs_v6_fill_super_s_flags (st : state) :
  s_flags (sb (snd (rafs_v6_fill_super env st))) = s_flags (sb st).
Proof.
  unfold rafs_v6_fill_super.
  destruct (bootstrap_path (EROFS_SB st)) as [p |].
  - destruct (filp_open env (trace st) (Some p)) as [f | e]; cbn [negb Z.eqb].
    + match goal with |- context [blob_dir_path ?i] =>
        destruct (blob_dir_path i) as [q |]; [| reflexivity]
      end.
      match goal with |- context [kern_path env ?h ?q] =>
        destruct (kern_path env h q); reflexivity
      end.
    + reflexivity.
  - cbn [negb Z.eqb].
    destruct (blob_dir_path (EROFS_SB st)) as [q |]; [| reflexivity].
    destruct (kern_path env (trace st) (Some q)); reflexivity.
Qed.

Lemma init_managed_cache_s_flags (st : state) :
  s_flags (sb (snd (erofs_init_managed_cache env st))) = s_flags (sb st).
Proof.
  unfold erofs_init_managed_cache, kmalloc.
  destruct CONFIG_EROFS_FS_ZIP; [| reflexivity].
  destruct (alloc_ok env (trace st)); reflexivity.
Qed.

(** A mount that succeeds leaves the volume read-only. *)
Lemma fill_super_rdonly (st : state) (data : option string) :
  Z.land SB_RDONLY SB_POSIXACL = 0 ->
  fst (erofs_fill_super env crc32c st data) = 0 ->
  Z.land (s_flags (sb (snd (erofs_fill_super env crc32c st data)))) SB_RDONLY =
  SB_RDONLY.
Proof.
  intros Hd. unfold erofs_fill_super, kmalloc. cbv zeta.
  match goal with
  | |- context [match s_bdev (sb ?s) with Some _ => ?a | None => ?b end] =>
      set (pre := match s_bdev (sb s) with Some _ => a | None => b end)
  end.
  destruct pre as [ok st2].
  assert (Htail : forall s : state,
    let r :=
      (let st0 := upd_sb (set_s_blocksize EROFS_BLKSIZ LOG_BLOCK_SIZE) s in
       if negb (alloc_ok env (trace st0)) then (Z.neg ENOMEM, log EvAlloc st0)
       else
         let st1 := upd_sb (set_s_fs_info sbi_zero) (log EvAlloc st0) in
         if negb (alloc_ok env (trace st1)) then (Z.neg ENOMEM, log EvAlloc st1)
         else
           let st2 :=
             upd_sb (fun s => set_s_flags
                                (Z.lor (s_flags s) (Z.lor SB_RDONLY SB_NOATIME)) s)
               (log EvAlloc st1) in
           let st3 := erofs_default_options st2 in
           let '(err, st4) := erofs_parse_options env st3 data in
           if negb (err =? 0) then (err, st4)
           else
             let '(err0, st5) := rafs_v6_fill_super env st4 in
             if negb (err0 =? 0) then (err0, st5)
             else
               let '(err1, st6) := erofs_read_superblock env crc32c st5 in
               if negb (err1 =? 0) then (err1, st6)
               else
                 let st7 :=
                   if test_opt (EROFS_SB st6) EROFS_MOUNT_POSIX_ACL
                   then upd_sb (fun s => set_s_flags
                                           (Z.lor (s_flags s) SB_POSIXACL) s) st6
                   else upd_sb (fun s => set_s_flags
                                           (Z.ldiff (s_flags s) SB_POSIXACL) s)
                          st6 in
                 let nid := root_nid (EROFS_SB st7) in
                 let inode := erofs_iget env (trace st7) nid in
                 let st8 := log (EvIget nid) st7 in
                 match inode with
                 | Ok i_mode =>
                     if negb (S_ISDIR i_mode) then (Z.neg EINVAL, st8)
                     else
                       if negb (alloc_ok env (trace st8))
                       then (Z.neg ENOMEM, log EvAlloc st8)
                       else erofs_init_managed_cache env
                              (upd_sb (set_s_root (Some nid)) (log EvAlloc st8))
                 | Err e => (PTR_ERR e, st8)
                 end) in
    fst r = 0 -> Z.land (s_flags (sb (snd r))) SB_RDONLY = SB_RDONLY).
  { intros s. cbv zeta.
    destruct (alloc_ok env _); cbn [negb]; [| discriminate].
    destruct (alloc_ok env _); cbn [negb]; [| discriminate].
    match goal with |- context [erofs_parse_options env ?s0 data] =>
      pose proof (parse_options_s_flags env s0 data) as H1;
      rewrite default_options_s_flags in H1;
      destruct (erofs_parse_options env s0 data) as [err st4]
    end.
    cbn [snd upd_sb sb set_s_flags s_flags] in H1.
    destruct (err =? 0); cbn [negb];
      [| intros E; cbn [fst] in E; cbn [snd]; rewrite H1; apply land_lor_lor_same].
    pose proof (rafs_v6_fill_super_s_flags st4) as H2.
    destruct (rafs_v6_fill_super env st4) as [err0 st5]. cbn [snd] in H2.
    destruct (err0 =? 0); cbn [negb];
      [| intros _; cbn [snd]; rewrite H2, H1; apply land_lor_lor_same].
    pose proof (read_superblock_s_flags st5) as H3.
    destruct (erofs_read_superblock env crc32c st5) as [err1 st6].
    cbn [snd] in H3.
    destruct (err1 =? 0); cbn [negb];
      [| intros _; cbn [snd]; rewrite H3, H2, H1; apply land_lor_lor_same].
    match goal with
    | |- context [if test_opt ?i ?b then ?x else ?y] =>
        assert (H7 : Z.land (s_flags (sb (if test_opt i b then x else y)))
                       SB_RDONLY = SB_RDONLY)
          by (destruct (test_opt i b);
              cbn [upd_sb sb set_s_flags s_flags];
              [rewrite land_lor_disjoint by exact Hd
              | rewrite land_ldiff_disjoint by exact Hd];
              rewrite H3, H2, H1; apply land_lor_lor_same);
        set (st7 := if test_opt i b then x else y) in *
    end.
    destruct (erofs_iget env (trace st7) (root_nid (EROFS_SB st7)))
      as [i_mode | e]; [| intros _; exact H7].
    destruct (S_ISDIR i_mode); cbn [negb]; [| intros _; exact H7].
    destruct (alloc_ok env _); cbn [negb]; [| intros _; exact H7].
    intros _. rewrite init_managed_cache_s_flags. exact H7. }
  destruct (s_bdev (sb st2)) as [b |]; [destruct ok |];
    first [apply Htail | discriminate].
Qed.

End MountFlags.
(* ------------------------------------------------------------------ *)
(** ** What the device-table resolver changes, and what it opens *)

Lemma owed_app (env : environment) (evs1 evs2 tr : list event) :
  owed env tr (evs1 ++ evs2) =
  owed env tr evs1 ++ owed env (tr ++ evs1) evs2.
Proof.
  revert tr. induction evs1 as [| ev evs1 IH]; intros tr; cbn [owed app].
  - now rewrite app_nil_r.
  - rewrite IH, <- !app_assoc. reflexivity.
Qed.

Lemma held_devices_app (l1 l2 : list erofs_device_info) :
  held_devices (l1 ++ l2) = held_devices l1 ++ held_devices l2.
Proof. unfold held_devices. apply flat_map_app. Qed.

Lemma held_devices_cons_nil (d : erofs_device_info)
    (l : list erofs_device_info) :
  held_devices (d :: l) = [] ->
  dif_bdev d = None /\ dif_blobfile d = None /\ held_devices l = [].
Proof.
  unfold held_devices, erofs_release_device_info. cbn [flat_map snd].
  destruct (dif_bdev d), (dif_blobfile d); cbn; try discriminate.
  auto.
Qed.

Lemma with_devices_mask (st : state) (tr : list event)
    (t : list erofs_device_info) (e total : Z) :
  with_devices st tr t e total =
  with_devices
    (upd_sbi (set_device_id_mask (device_id_mask (EROFS_SB st))) st)
    tr t e total.
Proof.
  destruct st as [tr0 [m b bs bb fl u r sbi]].
  destruct sbi as [mo cs ms [dt de] bp bdp bo bd tb pb dm fc fi mb xb isl rn
                   ino bt btn vn mc].
  reflexivity.
Qed.

(** [tr ++ [a; b; c]] as [((tr ++ [a]) ++ [b]) ++ [c]], the way [log]
    builds a trace. *)
Ltac snoc_trace :=
  repeat match goal with
         | |- context [?tr ++ ?x :: ?y :: ?l] =>
             replace (tr ++ x :: y :: l) with ((tr ++ [x]) ++ y :: l)
               by (rewrite <- app_assoc; reflexivity)
         end.

Section DevicesFrame.
Context {A : erofs_abi} {K : kconfig}.
Variable env : environment.
Variable st0 : state.

(** The first loop: the calls [evs] it adds, the descriptors [new] it
    has filled in and those, [rest], it has not reached.  The handles
    of the descriptors are the ones its calls handed out. *)
Lemma init_devices_each_shape (todo : list erofs_device_info) :
  forall (done : list erofs_device_info) (tr : list event) (e total pos : Z),
    exists (ex : loop_exit) (evs : list event)
           (new rest : list erofs_device_info) (pos' : Z),
      init_devices_each env todo (List.length done)
        (with_devices st0 tr (done ++ todo) e total) pos =
        (ex, with_devices st0 (tr ++ evs) (done ++ new ++ rest) e
               (accum_blocks total new), pos') /\
      (held_devices todo = [] ->
       held_devices (new ++ rest) = owed env tr evs).
Proof.
  induction todo as [| d todo IH]; intros done tr e total pos.
  - exists LoopEnd, [], [], [], pos. rewrite !app_nil_r.
    split; reflexivity.
  - cbn [init_devices_each]. unfold read_metabuf. wd.
    destruct (erofs_read_metabuf env tr (erofs_blknr pos)) as [ptr | err].
    2:{ exists (LoopBreak (PTR_ERR err)), [EvReadMeta (erofs_blknr pos)],
          [], (d :: todo), pos.
        split; [reflexivity | intros H; exact H]. }
    cbv zeta. wd.
    set (tr1 := tr ++ [EvReadMeta (erofs_blknr pos)]).
    assert (Hopen : forall d1 ev2,
      (held_devices [d] = [] -> held_devices [d1] = owed_for env tr1 ev2) ->
      let st := log ev2 (with_devices st0 tr1 (done ++ d :: todo) e total) in
      exists (ex : loop_exit) (evs : list event)
             (new rest : list erofs_device_info) (pos' : Z),
        init_devices_each env todo (S (List.length done))
          (add_total_blocks (dif_blocks d1)
             (set_tree (list_set (List.length done) d1
                          (tree (devs (EROFS_SB st)))) st))
          (wrap64 (pos + sizeof_deviceslot)) =
        (ex, with_devices st0 (tr ++ evs) (done ++ new ++ rest) e
               (accum_blocks total new), pos') /\
        (held_devices (d :: todo) = [] ->
         held_devices (new ++ rest) = owed env tr evs)).
    { intros d1 ev2 Hd1 st. subst st. wd. rewrite list_set_app.
      replace (done ++ d1 :: todo) with ((done ++ [d1]) ++ todo)
        by (rewrite <- app_assoc; reflexivity).
      replace (S (List.length done)) with (List.length (done ++ [d1]))
        by (rewrite length_app; simpl; lia).
      destruct (IH (done ++ [d1]) (tr1 ++ [ev2])
                  e (wrap64 (total + dif_blocks d1))
                  (wrap64 (pos + sizeof_deviceslot)))
        as (ex & evs & new & rest & pos' & Hrun & Hheld).
      exists ex, (EvReadMeta (erofs_blknr pos) :: ev2 :: evs),
             (d1 :: new), rest, pos'.
      rewrite Hrun. subst tr1. rewrite <- !app_assoc. cbn [app].
      split; [reflexivity |].
      intros Hnil. apply held_devices_cons_nil in Hnil as (Hb & Hf & Hnil).
      change (d1 :: new ++ rest) with ([d1] ++ (new ++ rest)).
      rewrite held_devices_app. cbn [owed owed_for app].
      rewrite Hheld by exact Hnil. rewrite Hd1.
      - rewrite <- !app_assoc. reflexivity.
      - unfold held_devices, erofs_release_device_info.
        cbn [flat_map snd]. rewrite Hb, Hf. reflexivity. }
    destruct (bootstrap (EROFS_SB st0)).
    + fold tr1. destruct (filp_open env tr1 (dif_path d)) as [f | err] eqn:Ho.
      * apply Hopen. intros Hnil.
        apply held_devices_cons_nil in Hnil as (Hb & Hf & _).
        unfold held_devices, erofs_release_device_info.
        cbn. rewrite Hb, Ho. reflexivity.
      * exists (LoopReturn (PTR_ERR err)),
          [EvReadMeta (erofs_blknr pos); EvFileOpen (dif_path d)],
          [], (d :: todo), pos.
        split; [snoc_trace; wd; reflexivity |].
        intros Hnil. cbn [owed owed_for app]. fold tr1. rewrite Ho.
        exact Hnil.
    + fold tr1.
      destruct (blkdev_get_by_path env tr1 (dif_path d)) as [f | err] eqn:Ho.
      * apply Hopen. intros Hnil.
        apply held_devices_cons_nil in Hnil as (Hb & Hf & _).
        unfold held_devices, erofs_release_device_info.
        cbn. rewrite Hf, Ho. reflexivity.
      * exists (LoopReturn (PTR_ERR err)),
          [EvReadMeta (erofs_blknr pos); EvBdevOpen (dif_path d)],
          [], (d :: todo), pos.
        split; [snoc_trace; wd; reflexivity |].
        intros Hnil. cbn [owed owed_for app]. fold tr1. rewrite Ho.
        exact Hnil.
Qed.

(** The second loop: the calls it adds and the descriptors it appends,
    whose handles are the ones its calls handed out. *)
Lemma init_devices_blobs_shape (n : nat) (ondisk : Z) :
  forall (t : list erofs_device_info) (tr : list event) (e total pos : Z),
    exists (err : Z) (evs : list event) (new : list erofs_device_info)
           (e' total' : Z),
      init_devices_blobs env n ondisk (with_devices st0 tr t e total) pos =
        (err, with_devices st0 (tr ++ evs) (t ++ new) e' total') /\
      held_devices new = owed env tr evs.
Proof.
  induction n as [| n IH]; intros t tr e total pos.
  - exists 0, [], [], e, total. cbn [init_devices_blobs].
    rewrite !app_nil_r.
    destruct (_ <? _); split; reflexivity.
  - cbn [init_devices_blobs]. wd.
    destruct (e <? ondisk).
    2:{ exists 0, [], [], e, total. rewrite !app_nil_r.
        split; reflexivity. }
    unfold init_devices_blob, read_metabuf, idr_alloc, kmalloc. wd.
    destruct (erofs_read_metabuf env tr (erofs_blknr pos)) as [ptr | err].
    2:{ eexists _, [EvReadMeta (erofs_blknr pos)], [], e, total.
        rewrite !app_nil_r. split; reflexivity. }
    cbv zeta.
    destruct (alloc_ok env _); cbn [negb].
    2:{ eexists _, [EvReadMeta (erofs_blknr pos); EvAlloc], [], e, total.
        rewrite !app_nil_r. snoc_trace.
        split; [wd; reflexivity | reflexivity]. }
    wd.
    destruct (alloc_ok env _); cbn [negb].
    2:{ eexists _, [EvReadMeta (erofs_blknr pos); EvAlloc; EvAlloc], [],
          e, total.
        rewrite !app_nil_r. snoc_trace.
        split; [wd; reflexivity | reflexivity]. }
    wd.
    match goal with |- context [Z.of_nat ?x <? 0] =>
      assert ((Z.of_nat x <? 0) = false) as -> by (apply Z.ltb_ge; lia)
    end.
    rewrite Nat2Z.id.
    match goal with |- context [file_open_root env ?h ?d ?nm] =>
      destruct (file_open_root env h d nm) as [f | err] eqn:Ho
    end.
    + wd. rewrite list_set_app.
      match goal with
      | |- context [with_devices st0 ?tr1 (t ++ [?d1]) (e + 1) ?tot] =>
          destruct (IH (t ++ [d1]) tr1 (e + 1) tot
                      (wrap64 (pos + sizeof_deviceslot)))
            as (err & evs & new & e' & tot' & Hrun & Hheld);
          exists err,
            (EvReadMeta (erofs_blknr pos) :: EvAlloc :: EvAlloc ::
               EvBlobOpen (blob_dir (EROFS_SB st0))
                 (blob_id_of (slot_at ptr pos)) :: evs),
            (d1 :: new), e', tot'
      end.
      rewrite Hrun, <- !app_assoc. cbn [app].
      split; [reflexivity |].
      match goal with |- held_devices (?d1 :: new) = _ =>
        change (d1 :: new) with ([d1] ++ new)
      end.
      rewrite held_devices_app, Hheld.
      cbn [owed owed_for app]. rewrite <- !app_assoc in Ho. cbn [app] in Ho.
      rewrite <- !app_assoc. cbn [app]. rewrite Ho. reflexivity.
    + eexists _,
        [EvReadMeta (erofs_blknr pos); EvAlloc; EvAlloc;
         EvBlobOpen (blob_dir (EROFS_SB st0)) (blob_id_of (slot_at ptr pos))],
        [dev_zero], e, total.
      split; [snoc_trace; wd; reflexivity |].
      cbn [owed owed_for app]. rewrite Ho. reflexivity.
Qed.

End DevicesFrame.

Section InitDevicesFrame.
Context {A : erofs_abi} {K : kconfig}.
Variable env : environment.

(** [erofs_init_devices] extends the trace and changes the device
    registry, the block total and the device id mask; everything else
    of the superblock stays as it is.  Run on descriptors without
    handles, it leaves the registry holding the handles its calls
    handed out. *)
Lemma init_devices_frame (st : state) (dsb : erofs_super_block) :
  let n := ondisk_extradevs (EROFS_SB st) dsb in
  exists (m : Z) (evs : list event) (t' : list erofs_device_info)
         (e' total' : Z),
    snd (erofs_init_devices env st dsb) =
      with_devices (upd_sbi (set_device_id_mask m) st)
        (trace st ++ evs) t' e' total' /\
    (held_devices (tree (devs (EROFS_SB st))) = [] ->
     held_devices t' = owed env (trace st) evs) /\
    (n <> 0 -> fst (erofs_init_devices env st dsb) = 0 ->
     m = roundup_pow_of_two (n + 1) - 1).
Proof.
  intros n.
  unfold erofs_init_devices. cbv zeta.
  rewrite with_devices_total.
  unfold erofs_sb_has_device_table.
  rewrite wd_feature_incompat, negb_involutive.
  change (if Z.land (feature_incompat (EROFS_SB st))
               EROFS_FEATURE_INCOMPAT_DEVICE_TABLE =? 0
          then 0 else dsb_extra_devices dsb) with n.
  match goal with |- context [if ?c then (Z.neg EINVAL, _) else _] =>
    destruct c;
      [cbn [fst snd]; rewrite with_devices_mask;
       exists (device_id_mask (EROFS_SB st)), []; do 3 eexists;
       rewrite app_nil_r;
       split; [reflexivity | split; [intros H; exact H | discriminate]] |]
  end.
  destruct (Z.eqb_spec n 0) as [Hn | Hn].
  { cbn [fst snd]. rewrite with_devices_mask.
    exists (device_id_mask (EROFS_SB st)), []. do 3 eexists.
    rewrite app_nil_r.
    split; [reflexivity | split; [intros H; exact H | contradiction]]. }
  rewrite wd_set_device_id_mask. wd.
  set (st0 := upd_sbi (set_device_id_mask (roundup_pow_of_two (n + 1) - 1)) st).
  match goal with
  | |- context [init_devices_each env ?t 0 (with_devices st0 ?tr ?t ?e ?tot) ?p] =>
      destruct (init_devices_each_shape env st0 t [] tr e tot p)
        as (ex & evs1 & new1 & rest1 & pos1 & Hrun1 & Hheld1)
  end.
  cbn [app List.length] in Hrun1. rewrite Hrun1.
  assert (Hblobs : forall k ondisk,
    exists (m : Z) (evs : list event) (t' : list erofs_device_info)
           (e' total' : Z),
      snd (init_devices_blobs env k ondisk
             (with_devices st0 (trace st ++ evs1) (new1 ++ rest1)
                (extra_devices (devs (EROFS_SB st)))
                (accum_blocks (primarydevice_blocks (EROFS_SB st)) new1))
             pos1) =
        with_devices (upd_sbi (set_device_id_mask m) st)
          (trace st ++ evs) t' e' total' /\
      (held_devices (tree (devs (EROFS_SB st))) = [] ->
       held_devices t' = owed env (trace st) evs) /\
      (n <> 0 ->
       fst (init_devices_blobs env k ondisk
              (with_devices st0 (trace st ++ evs1) (new1 ++ rest1)
                 (extra_devices (devs (EROFS_SB st)))
                 (accum_blocks (primarydevice_blocks (EROFS_SB st)) new1))
              pos1) = 0 ->
       m = roundup_pow_of_two (n + 1) - 1)).
  { intros k ondisk.
    match goal with
    | |- context [init_devices_blobs env k ondisk
                    (with_devices st0 ?tr ?t ?e ?tot) ?p] =>
        destruct (init_devices_blobs_shape env st0 k ondisk t tr e tot p)
          as (err & evs2 & new2 & e2 & tot2 & Hrun2 & Hheld2)
    end.
    rewrite Hrun2. cbn [fst snd].
    eexists _, (evs1 ++ evs2), _, _, _.
    rewrite app_assoc. split; [reflexivity |]. split; [| reflexivity].
    intros Hnil. rewrite held_devices_app, owed_app, Hheld2.
    rewrite (Hheld1 Hnil). reflexivity. }
  destruct ex; cbn [fst snd]; wd;
    first [ apply Hblobs
          | eexists _, evs1, _, _, _;
            split; [reflexivity | split; [exact Hheld1 | reflexivity]] ].
Qed.

End InitDevicesFrame.

(* ------------------------------------------------------------------ *)
(** ** Decoding the superblock *)

Lemma has_nul_cstring_length (l : list byte) :
  has_nul l = true -> (List.length (cstring l) < List.length l)%nat.
Proof.
  unfold has_nul. induction l as [| c l IH]; cbn [existsb cstring List.length].
  - discriminate.
  - destruct (Byte.eqb c x00); cbn [orb List.length]; [lia |].
    intros H. specialize (IH H). lia.
Qed.

Lemma strscpy_fits (src : list byte) (count : nat) :
  (fst (strscpy src count) <? 0) = false ->
  has_nul (firstn count src) = true /\
  snd (strscpy src count) = cstring (firstn count src).
Proof.
  unfold strscpy. destruct (has_nul (firstn count src)); cbn [fst snd].
  - auto.
  - discriminate.
Qed.

Lemma sub_bytes_firstn (buf : list byte) (off len : nat) :
  firstn len (sub_bytes buf off len) = sub_bytes buf off len.
Proof.
  unfold sub_bytes. rewrite firstn_firstn, Nat.min_id. reflexivity.
Qed.

Section Superblock.
Context {A : erofs_abi} {K : kconfig}.
Variable env : environment.
Variable crc32c : Z -> list byte -> Z.

(** The passage of [erofs_read_superblock] from the block read to the
    call of [erofs_init_devices]: what a run that gets there has
    checked, and the state it hands over. *)
Lemma read_superblock_reaches (st : state) :
  let r := erofs_read_superblock env crc32c st in
  (exists e, erofs_read_metabuf env (trace st) 0 = Err e /\
             r = (PTR_ERR e, log (EvReadMeta 0) st)) \/
  exists data,
    erofs_read_metabuf env (trace st) 0 = Ok data /\
    let dsb := dsb_at (skipn EROFS_SUPER_OFFSET data) in
    ((exists tr, fst r <> 0 /\ trace (snd r) = trace st ++ EvReadMeta 0 :: tr /\
                 Forall (fun ev => ev = EvAlloc) tr /\
                 devs (EROFS_SB (snd r)) = devs (EROFS_SB st) /\
                 bootstrap (EROFS_SB (snd r)) = bootstrap (EROFS_SB st) /\
                 blob_dir (EROFS_SB (snd r)) = blob_dir (EROFS_SB st) /\
                 blob_dir_path (EROFS_SB (snd r)) =
                   blob_dir_path (EROFS_SB st) /\
                 mount_opt (EROFS_SB (snd r)) = mount_opt (EROFS_SB st) /\
                 cache_strategy (EROFS_SB (snd r)) =
                   cache_strategy (EROFS_SB st) /\
                 managed_cache (EROFS_SB (snd r)) =
                   managed_cache (EROFS_SB st) /\
                 sb_vfs (sb (snd r)) = sb_vfs (sb st)) \/
     exists (st1 : state) (tr : list event),
       r = erofs_init_devices env st1 dsb /\
       trace st1 = trace st ++ EvReadMeta 0 :: tr /\
       Forall (fun ev => ev = EvAlloc) tr /\
       sb st1 =
         set_s_fs_info
           {| mount_opt := mount_opt (EROFS_SB st);
              cache_strategy := cache_strategy (EROFS_SB st);
              max_sync_decompress_pages :=
                max_sync_decompress_pages (EROFS_SB st);
              devs := devs (EROFS_SB st);
              bootstrap_path := bootstrap_path (EROFS_SB st);
              blob_dir_path := blob_dir_path (EROFS_SB st);
              bootstrap := bootstrap (EROFS_SB st);
              blob_dir := blob_dir (EROFS_SB st);
              total_blocks := total_blocks (EROFS_SB st);
              primarydevice_blocks := dsb_blocks dsb;
              device_id_mask := device_id_mask (EROFS_SB st);
              feature_compat := dsb_feature_compat dsb;
              feature_incompat := dsb_feature_incompat dsb;
              meta_blkaddr := dsb_meta_blkaddr dsb;
              xattr_blkaddr :=
                if CONFIG_EROFS_FS_XATTR then dsb_xattr_blkaddr dsb
                else xattr_blkaddr (EROFS_SB st);
              islotbits := ilog2 sizeof_inode_compact;
              root_nid := dsb_root_nid dsb;
              inos := dsb_inos dsb;
              build_time := dsb_build_time dsb;
              build_time_nsec := dsb_build_time_nsec dsb;
              volume_name := cstring (dsb_volume_name dsb);
              managed_cache := managed_cache (EROFS_SB st) |}
           (set_s_uuid (dsb_uuid dsb) (sb st)) /\
       dsb_magic dsb = EROFS_SUPER_MAGIC_V1 /\
       dsb_blkszbits dsb = LOG_BLOCK_SIZE /\
       Z.land (dsb_feature_incompat dsb)
         (not32 EROFS_ALL_FEATURE_INCOMPAT) = 0 /\
       has_nul (dsb_volume_name dsb) = true /\
       (Z.land (dsb_feature_compat dsb) EROFS_FEATURE_COMPAT_SB_CHKSUM <> 0 ->
        fst (erofs_superblock_csum_verify env crc32c
               (upd_sbi (set_feature_compat (dsb_feature_compat dsb))
                  (log (EvReadMeta 0) st)) data) = 0)).
Proof.
  intros r. subst r. unfold erofs_read_superblock, read_metabuf.
  destruct (erofs_read_metabuf env (trace st) 0) as [data | e];
    [right; exists data; split; [reflexivity |]
    | left; exists e; split; reflexivity].
  cbv zeta.
  set (dsb := dsb_at (skipn EROFS_SUPER_OFFSET data)).
  destruct (Z.eqb_spec (dsb_magic dsb) EROFS_SUPER_MAGIC_V1) as [Hm | Hm];
    cbn [negb].
  2:{ left. exists []. cbn [fst snd]. repeat split; try constructor.
      discriminate. }
  set (st1 := upd_sbi (set_feature_compat (dsb_feature_compat dsb))
                (log (EvReadMeta 0) st)).
  assert (Hc :
    exists tr ret st2,
      (if erofs_sb_has_sb_chksum (EROFS_SB st1)
       then erofs_superblock_csum_verify env crc32c st1 data
       else (0, st1)) = (ret, st2) /\
      trace st2 = trace st ++ EvReadMeta 0 :: tr /\
      Forall (fun ev => ev = EvAlloc) tr /\
      sb st2 = sb st1 /\
      (Z.land (dsb_feature_compat dsb) EROFS_FEATURE_COMPAT_SB_CHKSUM <> 0 ->
       fst (erofs_superblock_csum_verify env crc32c st1 data) = ret)).
  { unfold erofs_sb_has_sb_chksum.
    change (feature_compat (EROFS_SB st1)) with (dsb_feature_compat dsb).
    destruct (Z.eqb_spec
                (Z.land (dsb_feature_compat dsb)
                   EROFS_FEATURE_COMPAT_SB_CHKSUM) 0) as [Hz | Hz];
      cbn [negb].
    - exists [], 0, st1. repeat split; try constructor.
      intros H. contradiction.
    - destruct (csum_verify_trace env crc32c st1 data) as [Ht Hs].
      destruct (erofs_superblock_csum_verify env crc32c st1 data)
        as [ret st2] eqn:Hv.
      cbn [snd] in Ht, Hs.
      exists [EvAlloc], ret, st2. repeat split.
      + rewrite Ht. subst st1. cbn [trace upd_sbi log].
        rewrite <- app_assoc. reflexivity.
      + repeat constructor.
      + exact Hs. }
  destruct Hc as (tr & ret & st2 & -> & Htr & Hall & Hsb & Hret).
  destruct st2 as [tr2 sb2]. cbn [trace sb] in Htr, Hsb. subst tr2 sb2.
  assert (Hfail : forall (err : Z) (s : state),
    err <> 0 ->
    trace s = trace st ++ EvReadMeta 0 :: tr ->
    devs (EROFS_SB s) = devs (EROFS_SB st) ->
    bootstrap (EROFS_SB s) = bootstrap (EROFS_SB st) ->
    blob_dir (EROFS_SB s) = blob_dir (EROFS_SB st) ->
    blob_dir_path (EROFS_SB s) = blob_dir_path (EROFS_SB st) ->
    mount_opt (EROFS_SB s) = mount_opt (EROFS_SB st) ->
    cache_strategy (EROFS_SB s) = cache_strategy (EROFS_SB st) ->
    managed_cache (EROFS_SB s) = managed_cache (EROFS_SB st) ->
    sb_vfs (sb s) = sb_vfs (sb st) ->
    exists tr0,
      fst (err, s) <> 0 /\
      trace (snd (err, s)) = trace st ++ EvReadMeta 0 :: tr0 /\
      Forall (fun ev => ev = EvAlloc) tr0 /\
      devs (EROFS_SB (snd (err, s))) = devs (EROFS_SB st) /\
      bootstrap (EROFS_SB (snd (err, s))) = bootstrap (EROFS_SB st) /\
      blob_dir (EROFS_SB (snd (err, s))) = blob_dir (EROFS_SB st) /\
      blob_dir_path (EROFS_SB (snd (err, s))) =
        blob_dir_path (EROFS_SB st) /\
      mount_opt (EROFS_SB (snd (err, s))) = mount_opt (EROFS_SB st) /\
      cache_strategy (EROFS_SB (snd (err, s))) =
        cache_strategy (EROFS_SB st) /\
      managed_cache (EROFS_SB (snd (err, s))) =
        managed_cache (EROFS_SB st) /\
      sb_vfs (sb (snd (err, s))) = sb_vfs (sb st)).
  { intros err s Herr H1 H2 H3 H4 H5 H6 H7 H8 H9. exists tr. cbn [fst snd].
    repeat split; assumption. }
  destruct (Z.eqb_spec ret 0) as [Hr | Hr]; cbn [negb];
    [subst ret | left; apply Hfail; first [exact Hr | reflexivity]].
  destruct (Z.eqb_spec (dsb_blkszbits dsb) LOG_BLOCK_SIZE) as [Hb | Hb];
    cbn [negb];
    [| left; apply Hfail; first [discriminate | reflexivity]].
  unfold check_layout_compatibility.
  destruct (Z.eqb_spec (Z.land (dsb_feature_incompat dsb)
                          (not32 EROFS_ALL_FEATURE_INCOMPAT)) 0) as [Hf | Hf];
    cbn [negb];
    [| left; apply Hfail; first [discriminate | reflexivity]].
  pose proof (strscpy_fits (dsb_volume_name dsb) sizeof_volume_name) as Hn.
  destruct (strscpy (dsb_volume_name dsb) sizeof_volume_name) as [rn name].
  cbn [fst snd] in Hn.
  destruct (rn <? 0);
    [left; apply Hfail; first [discriminate | reflexivity] |].
  destruct (Hn eq_refl) as [Hnul Hname].
  unfold dsb, dsb_at in Hnul, Hname. cbn [dsb_volume_name] in Hnul, Hname.
  rewrite sub_bytes_firstn in Hnul, Hname.
  right.
  match goal with |- context [erofs_init_devices env ?s dsb] =>
    exists s, tr
  end.
  split; [reflexivity |]. split; [reflexivity |]. split; [exact Hall |].
  split; [subst name; reflexivity |].
  repeat split; assumption.
Qed.

Lemma with_devices_mask_sbi (st : state) (m : Z) (tr : list event)
    (t : list erofs_device_info) (e total : Z) :
  let i := EROFS_SB st in
  let i' := EROFS_SB (with_devices (upd_sbi (set_device_id_mask m) st)
                        tr t e total) in
  mount_opt i' = mount_opt i /\
  cache_strategy i' = cache_strategy i /\
  max_sync_decompress_pages i' = max_sync_decompress_pages i /\
  bootstrap_path i' = bootstrap_path i /\
  blob_dir_path i' = blob_dir_path i /\
  bootstrap i' = bootstrap i /\
  blob_dir i' = blob_dir i /\
  primarydevice_blocks i' = primarydevice_blocks i /\
  feature_compat i' = feature_compat i /\
  feature_incompat i' = feature_incompat i /\
  meta_blkaddr i' = meta_blkaddr i /\
  xattr_blkaddr i' = xattr_blkaddr i /\
  islotbits i' = islotbits i /\
  root_nid i' = root_nid i /\
  inos i' = inos i /\
  build_time i' = build_time i /\
  build_time_nsec i' = build_time_nsec i /\
  volume_name i' = volume_name i /\
  managed_cache i' = managed_cache i.
Proof. cbv zeta. repeat split. Qed.

Lemma with_devices_mask_sb (st : state) (m : Z) (tr : list event)
    (t : list erofs_device_info) (e total : Z) :
  let s := sb st in
  let s' := sb (with_devices (upd_sbi (set_device_id_mask m) st)
                  tr t e total) in
  s_magic s' = s_magic s /\ s_bdev s' = s_bdev s /\
  s_blocksize s' = s_blocksize s /\
  s_blocksize_bits s' = s_blocksize_bits s /\
  s_flags s' = s_flags s /\ s_uuid s' = s_uuid s /\ s_root s' = s_root s.
Proof. cbv zeta. repeat split. Qed.

(** X1.  [erofs_read_superblock] accepts only a valid superblock.  When
    it returns 0, block zero could be read and the record in it carries
    the magic number, the supported [blkszbits], no incompatible
    feature outside [EROFS_ALL_FEATURE_INCOMPAT] and a volume name whose
    terminating NUL lies inside the field; if the checksum feature is
    set (the block being [EROFS_BLKSIZ] bytes long and the checksum
    field inside it), the stored checksum is the CRC-32C of the
    checksummed region. *)
Theorem read_superblock_accepts_valid (st : state) :
  fst (erofs_read_superblock env crc32c st) = 0 ->
  exists data,
    erofs_read_metabuf env (trace st) 0 = Ok data /\
    let dsb := dsb_at (skipn EROFS_SUPER_OFFSET data) in
    dsb_magic dsb = EROFS_SUPER_MAGIC_V1 /\
    dsb_blkszbits dsb = LOG_BLOCK_SIZE /\
    ~ unknown_incompat_bit (dsb_feature_incompat dsb) /\
    has_nul (dsb_volume_name dsb) = true /\
    (Z.land (dsb_feature_compat dsb) EROFS_FEATURE_COMPAT_SB_CHKSUM <> 0 ->
     Z.of_nat (List.length data) = EROFS_BLKSIZ ->
     Z.of_nat EROFS_SUPER_OFFSET + Z.of_nat off_checksum + 4 <=
       EROFS_BLKSIZ ->
     crc32c 0xFFFFFFFF (csum_region data) = dsb_checksum dsb).
Proof.
  intros Hok.
  destruct (read_superblock_reaches st) as [(e & _ & Hr) | (data & Hread & H)].
  { rewrite Hr in Hok. discriminate. }
  exists data. split; [exact Hread |]. cbv zeta in *.
  destruct H as [(tr & Hne & _) | (st1 & tr & _ & _ & _ & _ & Hm & Hb & Hf & Hn & Hc)].
  { contradiction. }
  split; [exact Hm |]. split; [exact Hb |]. split; [| split; [exact Hn |]].
  - intros Hbit.
    apply (proj2 (gate_unknown_bit _ EROFS_ALL_FEATURE_INCOMPAT
                    (get_le32_range _ _))) in Hbit.
    apply Hbit. exact Hf.
  - intros Hbit Hlen Hoff. specialize (Hc Hbit).
    unfold erofs_superblock_csum_verify, kmalloc in Hc.
    destruct (alloc_ok env _); cbn [negb fst snd] in Hc; [| discriminate].
    cbv zeta in Hc.
    rewrite csum_copy_region, csum_copy_checksum in Hc by assumption.
    destruct (Z.eqb_spec (crc32c 0xFFFFFFFF (csum_region data))
                (dsb_checksum (dsb_at (skipn EROFS_SUPER_OFFSET data))))
      as [E | E]; cbn [negb fst] in Hc; [exact E | discriminate].
Qed.

(** X2.  What a successful [erofs_read_superblock] leaves in the mount
    instance: the little-endian fields of the record in block zero,
    whatever the device table made [erofs_init_devices] do afterwards;
    the volume name up to its NUL, which is shorter than the field; and
    the mount options as they were. *)
Theorem read_superblock_decodes (st : state) :
  let r := erofs_read_superblock env crc32c st in
  fst r = 0 ->
  exists data,
    erofs_read_metabuf env (trace st) 0 = Ok data /\
    let rec := skipn EROFS_SUPER_OFFSET data in
    let sbi := EROFS_SB (snd r) in
    feature_compat sbi = get_le32 rec off_feature_compat /\
    feature_incompat sbi = get_le32 rec off_feature_incompat /\
    primarydevice_blocks sbi = get_le32 rec off_blocks /\
    meta_blkaddr sbi = get_le32 rec off_meta_blkaddr /\
    (CONFIG_EROFS_FS_XATTR = true ->
     xattr_blkaddr sbi = get_le32 rec off_xattr_blkaddr) /\
    root_nid sbi = get_le16 rec off_root_nid /\
    inos sbi = get_le64 rec off_inos /\
    build_time sbi = get_le64 rec off_build_time /\
    build_time_nsec sbi = get_le32 rec off_build_time_nsec /\
    s_uuid (sb (snd r)) = sub_bytes rec off_uuid sizeof_uuid /\
    volume_name sbi =
      cstring (sub_bytes rec off_volume_name sizeof_volume_name) /\
    (List.length (volume_name sbi) < sizeof_volume_name)%nat /\
    mount_opt sbi = mount_opt (EROFS_SB st) /\
    cache_strategy sbi = cache_strategy (EROFS_SB st).
Proof.
  intros r Hok. subst r.
  destruct (read_superblock_reaches st) as [(e & _ & Hr) | (data & Hread & H)].
  { rewrite Hr in Hok. discriminate. }
  exists data. split; [exact Hread |]. cbv zeta in *.
  destruct H as [(tr & Hne & _) | (st1 & tr & Hr & _ & _ & Hsb & _ & _ & _ & Hn & _)].
  { contradiction. }
  rewrite Hr.
  destruct (init_devices_frame env st1 (dsb_at (skipn EROFS_SUPER_OFFSET data)))
    as (m & evs & t' & e' & tot' & -> & _).
  pose proof (with_devices_mask_sbi st1 m (trace st1 ++ evs) t' e' tot') as Hi.
  pose proof (with_devices_mask_sb st1 m (trace st1 ++ evs) t' e' tot') as Hs.
  cbv zeta in Hi, Hs.
  destruct Hi as (H1 & H2 & _ & _ & _ & _ & _ & H8 & H9 & H10 & H11 & H12 & _
                  & H14 & H15 & H16 & H17 & H18 & _).
  destruct Hs as (_ & _ & _ & _ & _ & Hu & _).
  rewrite H1, H2, H8, H9, H10, H11, H12, H14, H15, H16, H17, H18, Hu.
  unfold EROFS_SB. rewrite Hsb.
  cbn [s_fs_info set_s_fs_info s_uuid set_s_uuid mount_opt cache_strategy
       primarydevice_blocks feature_compat feature_incompat meta_blkaddr
       xattr_blkaddr root_nid inos build_time build_time_nsec volume_name].
  unfold dsb_at.
  cbn [dsb_feature_compat dsb_feature_incompat dsb_blocks dsb_meta_blkaddr
       dsb_xattr_blkaddr dsb_root_nid dsb_inos dsb_build_time
       dsb_build_time_nsec dsb_uuid dsb_volume_name].
  repeat split.
  - intros ->. reflexivity.
  - apply Nat.lt_le_trans
      with (List.length (sub_bytes (skipn EROFS_SUPER_OFFSET data)
                           off_volume_name sizeof_volume_name)).
    + apply has_nul_cstring_length. exact Hn.
    + unfold sub_bytes. apply firstn_le_length.
Qed.

End Superblock.

Lemma read_superblock_accepts_valid_witness :
  let env := env_ok (one_block_disk (sb_image 0 0 100 0 0 0)) in
  fst (@erofs_read_superblock linux_abi kconfig_all env crc32c_le st_zero) = 0
  /\
  exists data,
    erofs_read_metabuf env [] 0 = Ok data /\
    dsb_magic (dsb_of data) = EROFS_SUPER_MAGIC_V1 /\
    has_nul (dsb_volume_name (dsb_of data)) = true.
Proof.
  intros env.
  assert (Hok : fst (@erofs_read_superblock linux_abi kconfig_all env
                       crc32c_le st_zero) = 0)
    by (vm_compute; reflexivity).
  split; [exact Hok |].
  destruct (@read_superblock_accepts_valid linux_abi kconfig_all env
              crc32c_le st_zero Hok)
    as (data & Hread & Hm & _ & _ & Hn & _).
  exists data. repeat split; assumption.
Defined.

Lemma read_superblock_decodes_witness :
  let env := env_ok (one_block_disk (sb_image 0 0 100 0 0 0)) in
  let r := @erofs_read_superblock linux_abi kconfig_all env crc32c_le
             st_zero in
  fst r = 0 /\
  primarydevice_blocks (EROFS_SB (snd r)) = 100 /\
  volume_name (EROFS_SB (snd r)) = [].
Proof.
  intros env r.
  assert (Hok : fst r = 0) by (vm_compute; reflexivity).
  split; [exact Hok |].
  destruct (@read_superblock_decodes linux_abi kconfig_all env
              crc32c_le st_zero Hok)
    as (data & Hread & _ & _ & Hb & _ & _ & _ & _ & _ & _ & _ & Hv & _).
  injection Hread as <-.
  split; [exact Hb | exact Hv].
Defined.

(* ------------------------------------------------------------------ *)
(** ** The incompatible-feature gate in [erofs_read_superblock] *)

Section FeatureGateThrough.
Context {A : erofs_abi} {K : kconfig}.
Variable env : environment.
Variable crc32c : Z -> list byte -> Z.

(** C3.  The feature gate of [erofs_read_superblock].  The gate is shut
    exactly when [feature_incompat] has a bit outside
    [EROFS_ALL_FEATURE_INCOMPAT], and with such a bit the superblock is
    never accepted.  Once the checks in front of the gate are passed
    (the magic number, the checksum if the image carries one, and
    [blkszbits]), an unknown bit makes the function return [-EINVAL]
    with the device registry untouched, and with only known bits
    (so with none at all) the gate is passed: the features are
    recorded and the result is that of the steps behind the gate, the
    volume name check and [erofs_init_devices]; in particular an image
    without device table whose name is terminated is accepted with the
    block count of the primary device, unless [device=] options ask
    for devices it does not have. *)
Theorem feature_incompat_gate (st : state) (data : list byte) :
  erofs_read_metabuf env (trace st) 0 = Ok data ->
  let dsb := dsb_at (skipn EROFS_SUPER_OFFSET data) in
  let feature := dsb_feature_incompat dsb in
  let r := erofs_read_superblock env crc32c st in
  let st1 := upd_sbi (set_feature_compat (dsb_feature_compat dsb))
               (log (EvReadMeta 0) st) in
  let chk := if erofs_sb_has_sb_chksum (EROFS_SB st1)
             then erofs_superblock_csum_verify env crc32c st1 data
             else (0, st1) in
  (fst (check_layout_compatibility st dsb) = false <->
   unknown_incompat_bit feature) /\
  (unknown_incompat_bit feature -> fst r < 0) /\
  (dsb_magic dsb = EROFS_SUPER_MAGIC_V1 ->
   fst chk = 0 ->
   dsb_blkszbits dsb = LOG_BLOCK_SIZE ->
   (unknown_incompat_bit feature ->
    fst r = Z.neg EINVAL /\
    trace (snd r) = trace (snd chk) /\
    devs (EROFS_SB (snd r)) = devs (EROFS_SB st)) /\
   (~ unknown_incompat_bit feature ->
    (has_nul (dsb_volume_name dsb) = false ->
     fst r = Z.neg EFSCORRUPTED /\
     feature_incompat (EROFS_SB (snd r)) = feature) /\
    (has_nul (dsb_volume_name dsb) = true ->
     (exists st2 : state,
        r = erofs_init_devices env st2 dsb /\
        trace st2 = trace (snd chk) /\
        feature_incompat (EROFS_SB st2) = feature /\
        primarydevice_blocks (EROFS_SB st2) = dsb_blocks dsb /\
        devs (EROFS_SB st2) = devs (EROFS_SB st) /\
        blob_dir_path (EROFS_SB st2) = blob_dir_path (EROFS_SB st)) /\
     (Z.land feature EROFS_FEATURE_INCOMPAT_DEVICE_TABLE = 0 ->
      extra_devices (devs (EROFS_SB st)) = 0 \/
      blob_dir_path (EROFS_SB st) <> None ->
      fst r = 0 /\
      trace (snd r) = trace (snd chk) /\
      feature_incompat (EROFS_SB (snd r)) = feature /\
      total_blocks (EROFS_SB (snd r)) = dsb_blocks dsb)))).
Proof.
  intros Hread dsb feature r st1 chk.
  assert (Hr : 0 <= dsb_feature_incompat dsb < 2 ^ 32)
    by apply get_le32_range.
  split; [apply check_layout_compatibility_false; assumption |].
  assert (Hgate : forall s,
    check_layout_compatibility s dsb =
      ((Z.land feature (not32 EROFS_ALL_FEATURE_INCOMPAT) =? 0),
       upd_sbi (set_feature_incompat feature) s) /\
    (unknown_incompat_bit feature <->
     (Z.land feature (not32 EROFS_ALL_FEATURE_INCOMPAT) =? 0) = false)).
  { intros s. split.
    - unfold check_layout_compatibility. fold feature.
      destruct (Z.land feature (not32 EROFS_ALL_FEATURE_INCOMPAT) =? 0);
        reflexivity.
    - pose proof (check_layout_compatibility_false s dsb Hr) as H.
      unfold check_layout_compatibility in H. fold feature in H.
      destruct (Z.land feature (not32 EROFS_ALL_FEATURE_INCOMPAT) =? 0);
        cbn [negb fst] in H.
      + split; [intros Hu; apply H in Hu; discriminate | discriminate].
      + split; [reflexivity | intros _; apply H; reflexivity]. }
  assert (Hchk : (fst chk = 0 \/ fst chk = Z.neg ENOMEM \/
                  fst chk = Z.neg EBADMSG) /\
                 sb (snd chk) = sb st1).
  { subst chk. destruct (erofs_sb_has_sb_chksum (EROFS_SB st1)).
    - split; [apply csum_verify_ret | apply csum_verify_trace].
    - split; [left |]; reflexivity. }
  destruct Hchk as [Hret Hsb].
  assert (Hrun : r =
    if negb (dsb_magic dsb =? EROFS_SUPER_MAGIC_V1)
    then (Z.neg EINVAL, log (EvReadMeta 0) st)
    else
      if negb (fst chk =? 0) then (fst chk, snd chk)
      else
        if negb (dsb_blkszbits dsb =? LOG_BLOCK_SIZE)
        then (Z.neg EINVAL, snd chk)
        else
          let '(compatible, s) := check_layout_compatibility (snd chk) dsb in
          if negb compatible then (Z.neg EINVAL, s)
          else
            let s :=
              upd_sbi
                (fun i =>
                   {| mount_opt := mount_opt i;
                      cache_strategy := cache_strategy i;
                      max_sync_decompress_pages :=
                        max_sync_decompress_pages i;
                      devs := devs i;
                      bootstrap_path := bootstrap_path i;
                      blob_dir_path := blob_dir_path i;
                      bootstrap := bootstrap i;
                      blob_dir := blob_dir i;
                      total_blocks := total_blocks i;
                      primarydevice_blocks := dsb_blocks dsb;
                      device_id_mask := device_id_mask i;
                      feature_compat := feature_compat i;
                      feature_incompat := feature_incompat i;
                      meta_blkaddr := dsb_meta_blkaddr dsb;
                      xattr_blkaddr :=
                        if CONFIG_EROFS_FS_XATTR
                        then dsb_xattr_blkaddr dsb
                        else xattr_blkaddr i;
                      islotbits := ilog2 sizeof_inode_compact;
                      root_nid := dsb_root_nid dsb;
                      inos := dsb_inos dsb;
                      build_time := dsb_build_time dsb;
                      build_time_nsec := dsb_build_time_nsec dsb;
                      volume_name := volume_name i;
                      managed_cache := managed_cache i |}) s in
            let s := upd_sb (set_s_uuid (dsb_uuid dsb)) s in
            let '(ret, name) :=
              strscpy (dsb_volume_name dsb) sizeof_volume_name in
            let s := upd_sbi (set_volume_name name) s in
            if ret <? 0 then (Z.neg EFSCORRUPTED, s)
            else erofs_init_devices env s dsb).
  { subst r. unfold erofs_read_superblock, read_metabuf. rewrite Hread.
    cbv zeta. fold dsb. fold st1. fold chk.
    destruct (negb (dsb_magic dsb =? EROFS_SUPER_MAGIC_V1)); [reflexivity |].
    destruct chk as [ret s]. reflexivity. }
  assert (Hdevs : devs (EROFS_SB (snd chk)) = devs (EROFS_SB st))
    by (unfold EROFS_SB; rewrite Hsb; reflexivity).
  assert (Hbdp : blob_dir_path (EROFS_SB (snd chk)) =
                 blob_dir_path (EROFS_SB st))
    by (unfold EROFS_SB; rewrite Hsb; reflexivity).
  split.
  { intros Hunk. rewrite Hrun.
    destruct (negb (dsb_magic dsb =? EROFS_SUPER_MAGIC_V1));
      [apply Pos2Z.neg_is_neg |].
    destruct Hret as [-> | [-> | ->]]; cbn [negb Z.eqb fst];
      try apply Pos2Z.neg_is_neg.
    destruct (negb (dsb_blkszbits dsb =? LOG_BLOCK_SIZE));
      [apply Pos2Z.neg_is_neg |].
    destruct (Hgate (snd chk)) as [-> Hiff].
    rewrite (proj1 Hiff Hunk). cbn [negb orb fst]. apply Pos2Z.neg_is_neg. }
  intros Hmagic Hpass Hblk.
  rewrite Hmagic, Hpass, Hblk, !Z.eqb_refl in Hrun. cbn [negb Z.eqb] in Hrun.
  destruct (Hgate (snd chk)) as [Hg Hiff]. rewrite Hg in Hrun.
  split.
  { intros Hunk. rewrite (proj1 Hiff Hunk) in Hrun. cbn [negb orb] in Hrun.
    rewrite Hrun. cbn [fst snd].
    split; [reflexivity |]. split; [reflexivity |]. exact Hdevs. }
  intros Hknown.
  destruct (Z.land feature (not32 EROFS_ALL_FEATURE_INCOMPAT) =? 0) eqn:Hbits;
    [| exfalso; apply Hknown, Hiff; reflexivity].
  cbn [negb orb] in Hrun. cbv zeta in Hrun.
  assert (Hfirst : firstn sizeof_volume_name (dsb_volume_name dsb) =
                   dsb_volume_name dsb)
    by (unfold dsb, dsb_at; cbn [dsb_volume_name]; apply sub_bytes_firstn).
  unfold strscpy in Hrun. rewrite Hfirst in Hrun.
  split.
  { intros Hnul. rewrite Hnul in Hrun. cbn [Z.ltb Z.compare] in Hrun.
    rewrite Hrun. split; reflexivity. }
  intros Hnul. rewrite Hnul in Hrun.
  assert (Hlen : (Z.of_nat (List.length (cstring (dsb_volume_name dsb))) <? 0)
                 = false) by (apply Z.ltb_ge; lia).
  rewrite Hlen in Hrun.
  match type of Hrun with _ = erofs_init_devices env ?s dsb =>
    set (st2 := s) in *
  end.
  assert (Hf2 : feature_incompat (EROFS_SB st2) = feature) by reflexivity.
  assert (Hp2 : primarydevice_blocks (EROFS_SB st2) = dsb_blocks dsb)
    by reflexivity.
  assert (Hd2 : devs (EROFS_SB st2) = devs (EROFS_SB st))
    by (rewrite <- Hdevs; reflexivity).
  assert (Hb2 : blob_dir_path (EROFS_SB st2) = blob_dir_path (EROFS_SB st))
    by (rewrite <- Hbdp; reflexivity).
  split.
  { exists st2. repeat split; assumption. }
  intros Htable Hmode.
  destruct (init_devices_unfold_gate env st2 dsb) as [_ Hacc].
  cbv zeta in Hacc. rewrite Hrun, Hacc.
  - cbn [fst snd]. repeat split; assumption.
  - unfold ondisk_extradevs. rewrite Hf2, Htable. reflexivity.
  - rewrite Hd2, Hb2. exact Hmode.
Qed.

End FeatureGateThrough.

Lemma feature_incompat_gate_witness :
  (let img := sb_image 1 0x10 100 0 0 1101809000 in
   fst (@erofs_read_superblock linux_abi kconfig_all
          (env_ok (one_block_disk img)) crc32c_le st_zero) = Z.neg EINVAL) /\
  (let img := sb_image 1 2 100 0 0 1401239368 in
   let r := @erofs_read_superblock linux_abi kconfig_all
              (env_ok (one_block_disk img)) crc32c_le st_zero in
   fst r = 0 /\ total_blocks (EROFS_SB (snd r)) = 100).
Proof.
  split.
  - intros img.
    destruct (@feature_incompat_gate linux_abi kconfig_all
                (env_ok (one_block_disk img)) crc32c_le st_zero img eq_refl)
      as (_ & _ & H).
    destruct (H ltac:(vm_compute; reflexivity) ltac:(vm_compute; reflexivity)
                ltac:(vm_compute; reflexivity)) as [Hunk _].
    apply Hunk. exists 4. vm_compute. repeat split; discriminate.
  - intros img r.
    destruct (@feature_incompat_gate linux_abi kconfig_all
                (env_ok (one_block_disk img)) crc32c_le st_zero img eq_refl)
      as (Hiff & _ & H).
    destruct (H ltac:(vm_compute; reflexivity) ltac:(vm_compute; reflexivity)
                ltac:(vm_compute; reflexivity)) as [_ Hknown].
    destruct Hknown as [_ Hname].
    { intros Hu. apply (proj2 Hiff) in Hu. vm_compute in Hu. discriminate. }
    destruct (Hname ltac:(vm_compute; reflexivity)) as [_ Hok].
    destruct (Hok ltac:(vm_compute; reflexivity) ltac:(left; reflexivity))
      as (H0 & _ & _ & Htot).
    split; [exact H0 | exact Htot].
Defined.
(* ------------------------------------------------------------------ *)
(** ** A device table that can be read *)

Section Readable.
Context {A : erofs_abi} {K : kconfig}.
Variable env : environment.
Variable disk : Z -> list byte.
(** The metadata blocks read as [disk]; allocations and opens may fail. *)
Hypothesis Hread : forall h b, erofs_read_metabuf env h b = Ok (disk b).
Variable st0 : state.

Lemma init_devices_each_readable (todo : list erofs_device_info) :
  forall (done : list erofs_device_info) (tr : list event) (e total pos : Z),
  (exists (err : Z) (st' : state) (pos' : Z),
     init_devices_each env todo (List.length done)
       (with_devices st0 tr (done ++ todo) e total) pos =
       (LoopReturn err, st', pos') /\ err < 0) \/
  (exists (tr' : list event) (new : list erofs_device_info),
    init_devices_each env todo (List.length done)
      (with_devices st0 tr (done ++ todo) e total) pos =
      (LoopEnd,
       with_devices st0 tr' (done ++ new) e (accum_blocks total new),
       Nat.iter (List.length todo) next_slot pos) /\
    map dif_blocks new =
      map (fun k => slot_blocks disk (Nat.iter k next_slot pos))
        (seq 0 (List.length todo)) /\
    map dif_mapped_blkaddr new =
      map (fun k => slot_mapped_blkaddr disk (Nat.iter k next_slot pos))
        (seq 0 (List.length todo)) /\
    map dif_path new = map dif_path todo /\
    Forall dif_opened new).
Proof.
  induction todo as [| d todo IH]; intros done tr e total pos.
  - right. exists tr, []. cbn [init_devices_each List.length Nat.iter seq map].
    repeat split; constructor.
  - cbn [init_devices_each]. unfold read_metabuf.
    rewrite wd_log, wd_trace, Hread. cbv zeta.
    rewrite wd_bootstrap, wd_trace.
    assert (Hopen : forall d1 ev2,
      dif_opened d1 -> dif_path d1 = dif_path d ->
      dif_blocks d1 = slot_blocks disk pos ->
      dif_mapped_blkaddr d1 = slot_mapped_blkaddr disk pos ->
      let st := log ev2 (with_devices st0 (tr ++ [EvReadMeta (erofs_blknr pos)])
                           (done ++ d :: todo) e total) in
      let run :=
        init_devices_each env todo (S (List.length done))
          (add_total_blocks (dif_blocks d1)
             (set_tree (list_set (List.length done) d1
                          (tree (devs (EROFS_SB st)))) st))
          (wrap64 (pos + sizeof_deviceslot)) in
      (exists (err : Z) (st' : state) (pos' : Z),
         run = (LoopReturn err, st', pos') /\ err < 0) \/
      (exists (tr' : list event) (new : list erofs_device_info),
        run =
        (LoopEnd,
         with_devices st0 tr' (done ++ new) e (accum_blocks total new),
         Nat.iter (List.length (d :: todo)) next_slot pos) /\
        map dif_blocks new =
          map (fun k => slot_blocks disk (Nat.iter k next_slot pos))
            (seq 0 (List.length (d :: todo))) /\
        map dif_mapped_blkaddr new =
          map (fun k => slot_mapped_blkaddr disk (Nat.iter k next_slot pos))
            (seq 0 (List.length (d :: todo))) /\
        map dif_path new = map dif_path (d :: todo) /\
        Forall dif_opened new)).
    { intros d1 ev2 Hopened Hpath Hblocks Hmapped st run.
      subst run st.
      rewrite wd_log, wd_tree, wd_set_tree, wd_add_total_blocks, list_set_app.
      replace (done ++ d1 :: todo) with ((done ++ [d1]) ++ todo)
        by (rewrite <- app_assoc; reflexivity).
      replace (S (List.length done)) with (List.length (done ++ [d1]))
        by (rewrite length_app; simpl; lia).
      destruct (IH (done ++ [d1]) ((tr ++ [EvReadMeta (erofs_blknr pos)]) ++ [ev2])
                  e (wrap64 (total + dif_blocks d1))
                  (wrap64 (pos + sizeof_deviceslot)))
        as [(err & st' & pos' & Hrun & Herr)
           | (tr' & new & Hrun & Hb & Hm & Hp & Ho)].
      { left. exists err, st', pos'. split; assumption. }
      right. exists tr', (d1 :: new).
      rewrite Hrun, <- app_assoc. cbn [app List.length].
      change (wrap64 (pos + sizeof_deviceslot)) with (next_slot pos) in *.
      rewrite iter_succ_r.
      split; [reflexivity |].
      rewrite !map_seq_succ. cbn [map Nat.iter].
      rewrite Hblocks, Hmapped, Hpath, Hb, Hm, Hp.
      repeat split.
      - f_equal. apply map_ext. intros k. now rewrite iter_succ_r.
      - f_equal. apply map_ext. intros k. now rewrite iter_succ_r.
      - constructor; assumption. }
    destruct (bootstrap (EROFS_SB st0)) as [b |] eqn:Hboot.
    + destruct (filp_open env (tr ++ [EvReadMeta (erofs_blknr pos)])
                  (dif_path d)) as [f | err].
      * apply Hopen; try reflexivity. right. discriminate.
      * left. do 3 eexists. split; [reflexivity | apply Pos2Z.neg_is_neg].
    + destruct (blkdev_get_by_path env (tr ++ [EvReadMeta (erofs_blknr pos)])
                  (dif_path d)) as [f | err].
      * apply Hopen; try reflexivity. left. discriminate.
      * left. do 3 eexists. split; [reflexivity | apply Pos2Z.neg_is_neg].
Qed.

Lemma init_devices_blobs_readable (n : nat) (ondisk : Z) :
  forall (t : list erofs_device_info) (tr : list event) (e total pos : Z),
  (Z.to_nat (ondisk - e) <= n)%nat ->
  (exists (err : Z) (st' : state),
     init_devices_blobs env n ondisk (with_devices st0 tr t e total) pos =
       (err, st') /\ err < 0) \/
  (exists (tr' : list event) (new : list erofs_device_info),
    init_devices_blobs env n ondisk (with_devices st0 tr t e total) pos =
      (0, with_devices st0 tr' (t ++ new) (Z.max e ondisk)
            (accum_blocks total new)) /\
    List.length new = Z.to_nat (ondisk - e) /\
    map dif_blocks new =
      map (fun k => slot_blocks disk (Nat.iter k next_slot pos))
        (seq 0 (Z.to_nat (ondisk - e))) /\
    map dif_mapped_blkaddr new =
      map (fun k => slot_mapped_blkaddr disk (Nat.iter k next_slot pos))
        (seq 0 (Z.to_nat (ondisk - e))) /\
    Forall (fun d => dif_path d = None /\ dif_bdev d = None /\
                     dif_blobfile d <> None) new).
Proof.
  induction n as [| n IH]; intros t tr e total pos Hn.
  - assert (He : Z.to_nat (ondisk - e) = O) by lia.
    right. exists tr, []. rewrite He. cbn [init_devices_blobs].
    rewrite wd_extra_devices.
    assert ((e <? ondisk) = false) as -> by (apply Z.ltb_ge; lia).
    rewrite app_nil_r. replace (Z.max e ondisk) with e by lia.
    cbn [seq map accum_blocks fold_left List.length].
    repeat split; constructor.
  - cbn [init_devices_blobs]. rewrite wd_extra_devices.
    destruct (Z.ltb_spec e ondisk) as [Hlt | Hge].
    + unfold init_devices_blob, read_metabuf, idr_alloc, kmalloc.
      wd. rewrite Hread. cbv zeta.
      destruct (alloc_ok env _); cbn [negb];
        [| left; do 2 eexists; split;
           [reflexivity | apply Pos2Z.neg_is_neg]].
      wd.
      destruct (alloc_ok env _); cbn [negb];
        [| left; do 2 eexists; split;
           [reflexivity | apply Pos2Z.neg_is_neg]].
      wd.
      match goal with |- context [Z.of_nat ?x <? 0] =>
        assert ((Z.of_nat x <? 0) = false) as -> by (apply Z.ltb_ge; lia)
      end.
      rewrite Nat2Z.id.
      match goal with |- context [file_open_root env ?h ?d ?nm] =>
        destruct (file_open_root env h d nm) as [f | err]
      end;
        [| left; do 2 eexists; split;
           [reflexivity | apply Pos2Z.neg_is_neg]].
      wd. rewrite list_set_app.
      change (wrap64 (pos + sizeof_deviceslot)) with (next_slot pos).
      cbn [dif_blocks].
      match goal with
      | |- context [with_devices st0 ?tr1 (t ++ [?d1]) (e + 1) ?tot] =>
          destruct (IH (t ++ [d1]) tr1 (e + 1) tot (next_slot pos)
                      (ltac:(lia)))
            as [(err & st' & Hrun & Herr)
               | (tr' & new & Hrun & Hl & Hb & Hm & Ho)];
          [left; exists err, st'; split; assumption
          | right; exists tr', (d1 :: new)]
      end.
      rewrite Hrun, <- app_assoc. cbn [app].
      replace (Z.max (e + 1) ondisk) with (Z.max e ondisk) by lia.
      replace (Z.to_nat (ondisk - e)) with (S (Z.to_nat (ondisk - (e + 1))))
        by lia.
      split; [reflexivity |].
      rewrite !map_seq_succ. cbn [map Nat.iter List.length].
      rewrite Hl, Hb, Hm.
      repeat split.
      * f_equal. apply map_ext. intros k. now rewrite iter_succ_r.
      * f_equal. apply map_ext. intros k. now rewrite iter_succ_r.
      * constructor; [| assumption]. cbn. repeat split. discriminate.
    + assert (He : Z.to_nat (ondisk - e) = O) by lia.
      right. exists tr, []. rewrite He.
      rewrite app_nil_r. replace (Z.max e ondisk) with e by lia.
      cbn [seq map accum_blocks fold_left List.length].
      repeat split; constructor.
Qed.

End Readable.

Section Resolved.
Context {A : erofs_abi} {K : kconfig}.
Variable env : environment.
Variable disk : Z -> list byte.
Hypothesis Hread : forall h b, erofs_read_metabuf env h b = Ok (disk b).

(** X3.  With a device table that can be read, [erofs_init_devices]
    succeeds only with every device resolved, whatever else the kernel
    refuses: if it returns 0 for [n > 0] extra devices on disk and a
    registry of [g] descriptors, the registry ends up with
    [max g n] descriptors (the ones of the options, followed by one per
    blob), each of them opened and carrying the block count and the
    mapped address of its slot, and [total_blocks] is the block count
    of the primary device plus theirs. *)
Theorem init_devices_success_resolved (st : state)
    (dsb : erofs_super_block) :
  let n := ondisk_extradevs (EROFS_SB st) dsb in
  let t := tree (devs (EROFS_SB st)) in
  let g := extra_devices (devs (EROFS_SB st)) in
  let r := erofs_init_devices env st dsb in
  let t' := tree (devs (EROFS_SB (snd r))) in
  0 < n ->
  g = Z.of_nat (List.length t) ->
  fst r = 0 ->
  Z.of_nat (List.length t') = Z.max g n /\
  extra_devices (devs (EROFS_SB (snd r))) = Z.max g n /\
  Forall dif_opened t' /\
  map dif_blocks t' =
    map (fun k => slot_blocks disk (slot_pos dsb k))
      (seq 0 (List.length t')) /\
  map dif_mapped_blkaddr t' =
    map (fun k => slot_mapped_blkaddr disk (slot_pos dsb k))
      (seq 0 (List.length t')) /\
  map dif_path t' = map dif_path t ++ repeat None (Z.to_nat (n - g)) /\
  total_blocks (EROFS_SB (snd r)) =
    wrap64 (primarydevice_blocks (EROFS_SB st) + sum_blocks t').
Proof.
  intros n t g r t' Hn Hg. subst t' r.
  unfold erofs_init_devices. cbv zeta.
  rewrite with_devices_total. fold t g.
  unfold erofs_sb_has_device_table.
  rewrite wd_feature_incompat, negb_involutive.
  change (if Z.land (feature_incompat (EROFS_SB st))
               EROFS_FEATURE_INCOMPAT_DEVICE_TABLE =? 0
          then 0 else dsb_extra_devices dsb) with n.
  rewrite wd_extra_devices, wd_blob_dir_path.
  destruct (negb (n =? g) &&
            match blob_dir_path (EROFS_SB st) with
            | Some _ => false | None => true end);
    [cbn [fst]; discriminate |].
  assert ((n =? 0) = false) as -> by (apply Z.eqb_neq; lia).
  rewrite wd_set_device_id_mask. wd.
  set (st0 := upd_sbi (set_device_id_mask (roundup_pow_of_two (n + 1) - 1)) st).
  set (pos0 := dsb_devt_slotoff dsb * sizeof_deviceslot).
  destruct (init_devices_each_readable env disk Hread st0 t [] (trace st) g
              (primarydevice_blocks (EROFS_SB st)) pos0)
    as [(err & st' & pos' & Hrun1 & Herr)
       | (tr1 & new1 & Hrun1 & Hb1 & Hm1 & Hp1 & Ho1)];
    cbn [app List.length] in Hrun1; rewrite Hrun1.
  { cbn [fst]. lia. }
  wd.
  destruct (init_devices_blobs_readable env disk Hread st0 (Z.to_nat (n - g)) n
              new1 tr1 g (accum_blocks (primarydevice_blocks (EROFS_SB st)) new1)
              (Nat.iter (List.length t) next_slot pos0) (le_n _))
    as [(err & st' & Hrun2 & Herr)
       | (tr2 & new2 & Hrun2 & Hl2 & Hb2 & Hm2 & Ho2)];
    rewrite Hrun2.
  { cbn [fst]. lia. }
  intros _. cbn [snd]. wd.
  assert (Hl1 : List.length new1 = List.length t).
  { rewrite <- (length_map dif_path new1), Hp1. apply length_map. }
  assert (Hlen : Z.of_nat (List.length (new1 ++ new2)) = Z.max g n).
  { rewrite length_app, Hl1, Hl2. lia. }
  assert (Hne : new1 ++ new2 <> []).
  { intros E. rewrite E in Hlen. cbn in Hlen. lia. }
  assert (Hp2 : map dif_path new2 = repeat None (Z.to_nat (n - g))).
  { rewrite <- Hl2. clear - Ho2.
    induction Ho2 as [| d l [Hd _] _ IH]; [reflexivity |].
    cbn [map List.length repeat]. now rewrite Hd, IH. }
  rewrite <- accum_blocks_app, (accum_blocks_sum _ _ Hne).
  split; [exact Hlen |]. split; [reflexivity |].
  rewrite !map_app, length_app, seq_app, !map_app, Hb1, Hm1, Hp1, Hb2, Hm2,
    Hp2, Hl1, Hl2.
  cbn [Nat.add].
  rewrite (seq_plus (List.length t) (Z.to_nat (n - g))), !map_map.
  unfold slot_pos. fold pos0.
  refine (conj _ (conj _ (conj _ (conj eq_refl eq_refl)))).
  - apply Forall_app. split; [assumption |].
    eapply Forall_impl; [| exact Ho2]. intros d (_ & _ & Hd). now right.
  - f_equal. apply map_ext. intros k. now rewrite iter_add.
  - f_equal. apply map_ext. intros k. now rewrite iter_add.
Qed.

End Resolved.

Lemma init_devices_success_resolved_witness :
  let disk := whole_disk [img_two] in
  let env := env_opens 6 (fun b => Ok (disk b)) in
  let dsb := dsb_of img_two in
  let st := resolving env "device=/dev/vdb,device=/dev/vdc" dsb in
  let r := @erofs_init_devices linux_abi env st dsb in
  fst r = 0 /\
  Forall dif_opened (tree (devs (EROFS_SB (snd r)))) /\
  map dif_blocks (tree (devs (EROFS_SB (snd r)))) = [50; 70] /\
  total_blocks (EROFS_SB (snd r)) = 120.
Proof.
  intros disk env dsb st r.
  assert (Hok : fst r = 0) by (vm_compute; reflexivity).
  split; [exact Hok |].
  destruct (@init_devices_success_resolved linux_abi env disk
              (fun _ _ => eq_refl) st dsb
              ltac:(vm_compute; reflexivity) ltac:(vm_compute; reflexivity)
              Hok)
    as (Hl & _ & Ho & Hb & _ & _ & Ht).
  fold r in Hl, Ho, Hb, Ht.
  split; [exact Ho |]. split.
  - rewrite Hb.
    replace (List.length (tree (devs (EROFS_SB (snd r))))) with 2%nat
      by (apply Nat2Z.inj; rewrite Hl; vm_compute; reflexivity).
    vm_compute. reflexivity.
  - rewrite Ht. vm_compute. reflexivity.
Defined.

(* ------------------------------------------------------------------ *)
(** ** The device id mask *)

Lemma roundup_pow_of_two_mask (n : Z) :
  0 < n ->
  let mask := roundup_pow_of_two (n + 1) - 1 in
  (exists k, 0 < k /\ mask = 2 ^ k - 1) /\
  n <= mask < 2 * n /\
  forall id, 0 <= id <= n -> Z.land id mask = id.
Proof.
  intros Hn mask. subst mask. unfold roundup_pow_of_two.
  set (k := Z.log2_up (n + 1)).
  assert (Hk : 0 < k) by (apply Z.log2_up_pos; lia).
  destruct (Z.log2_up_spec (n + 1) ltac:(lia)) as [Hlo Hhi]. fold k in Hlo, Hhi.
  assert (Hpow : 2 ^ k = 2 * 2 ^ Z.pred k).
  { rewrite <- Z.pow_succ_r by lia. f_equal. lia. }
  split; [exists k; split; [exact Hk | reflexivity] |].
  split; [lia |].
  intros id Hid.
  replace (2 ^ k - 1) with (Z.ones k) by (rewrite Z.ones_equiv; lia).
  rewrite Z.land_ones by lia. apply Z.mod_small. lia.
Qed.

Section IdMask.
Context {A : erofs_abi} {K : kconfig}.
Variable env : environment.

(** X6.  The id mask of a resolved device table: when
    [erofs_init_devices] succeeds for [n > 0] extra devices on disk,
    [device_id_mask] is one less than a power of two, at least [n] and
    less than [2 * n], so that masking leaves every device id from 0
    (the primary device) to [n] as it is. *)
Theorem init_devices_id_mask (st : state) (dsb : erofs_super_block) :
  let n := ondisk_extradevs (EROFS_SB st) dsb in
  let r := erofs_init_devices env st dsb in
  let mask := device_id_mask (EROFS_SB (snd r)) in
  0 < n ->
  fst r = 0 ->
  (exists k, 0 < k /\ mask = 2 ^ k - 1) /\
  n <= mask < 2 * n /\
  forall id, 0 <= id <= n -> Z.land id mask = id.
Proof.
  intros n r mask Hn Hok. subst mask r.
  destruct (init_devices_frame env st dsb)
    as (m & evs & t' & e' & tot' & Hst & _ & Hm).
  fold n in Hm. rewrite Hst.
  change (device_id_mask
            (EROFS_SB (with_devices (upd_sbi (set_device_id_mask m) st)
                         (trace st ++ evs) t' e' tot'))) with m.
  rewrite (Hm ltac:(lia) Hok).
  apply roundup_pow_of_two_mask. exact Hn.
Qed.

End IdMask.

Lemma init_devices_id_mask_witness :
  let disk := whole_disk [img_two] in
  let env := serving disk in
  let dsb := dsb_of img_two in
  let st := resolving env "device=/dev/vdb,device=/dev/vdc" dsb in
  let r := @erofs_init_devices linux_abi env st dsb in
  fst r = 0 /\
  device_id_mask (EROFS_SB (snd r)) = 3 /\
  forall id, 0 <= id <= 2 -> Z.land id (device_id_mask (EROFS_SB (snd r))) = id.
Proof.
  intros disk env dsb st r.
  assert (Hok : fst r = 0) by (vm_compute; reflexivity).
  split; [exact Hok |].
  split; [vm_compute; reflexivity |].
  destruct (@init_devices_id_mask linux_abi env st dsb
              ltac:(vm_compute; reflexivity) Hok) as (_ & _ & H).
  exact H.
Defined.
(* ------------------------------------------------------------------ *)
(** ** Runs of the device-table resolver *)

Lemma init_devices_matching_config_witness :
  let disk := whole_disk [img_two] in
  let env := serving disk in
  let dsb := dsb_of img_two in
  let st := resolving env "device=/dev/vdb,device=/dev/vdc" dsb in
  let r := @erofs_init_devices linux_abi env st dsb in
  fst r = 0 /\
  map dif_path (tree (devs (EROFS_SB (snd r)))) =
    [Some "/dev/vdb"%string; Some "/dev/vdc"%string] /\
  Forall dif_opened (tree (devs (EROFS_SB (snd r)))).
Proof.
  intros disk env dsb st r.
  destruct (@init_devices_matching_config linux_abi env disk
              (kernel_serves_serving disk) st dsb
              ltac:(vm_compute; split; reflexivity)
              ltac:(vm_compute; reflexivity)
              ltac:(vm_compute; reflexivity)
              ltac:(vm_compute; split; [discriminate | reflexivity]))
    as (Hr & _ & Hp & _ & _ & Ho & _).
  fold r in Hr, Hp, Ho.
  split; [exact Hr |]. split; [| exact Ho].
  rewrite Hp. vm_compute. reflexivity.
Defined.

(* ------------------------------------------------------------------ *)
(** ** Option strings *)

Lemma strsep_commas_not_nil (s : string) : strsep_commas s <> [].
Proof.
  destruct s as [| c s]; cbn [strsep_commas]; [discriminate |].
  destruct (Ascii.eqb c ","%char); [discriminate |].
  destruct (strsep_commas s); discriminate.
Qed.

Lemma strsep_commas_app (a b : string) :
  strsep_commas (a ++ String ","%char b) = strsep_commas a ++ strsep_commas b.
Proof.
  induction a as [| c a IH]; cbn [String.append strsep_commas].
  - reflexivity.
  - destruct (Ascii.eqb c ","%char).
    + rewrite IH. reflexivity.
    + rewrite IH.
      pose proof (strsep_commas_not_nil a) as Hne.
      destruct (strsep_commas a) as [| p ps]; [congruence | reflexivity].
Qed.

Section OptionSequence.
Context {A : erofs_abi} {K : kconfig}.
Variable env : environment.

Lemma parse_option_error (st st' : state) (p : string) (err : Z) :
  parse_option env st p = (inl err, st') -> err < 0.
Proof.
  unfold parse_option.
  destruct (streq p EmptyString); [discriminate |].
  destruct (match_token p erofs_tokens) as [tok arg].
  destruct tok;
    unfold erofs_build_cache_strategy, idr_alloc, kmalloc;
    cbn [trace log]; cbv beta iota zeta;
    repeat match goal with
           | |- context [Z.of_nat ?x <? 0] =>
               assert ((Z.of_nat x <? 0) = false) as ->
                 by (apply Z.ltb_ge; lia)
           | |- context [if ?b then _ else _] =>
               destruct b; cbn [negb]; cbv beta iota zeta;
               cbn [Z.eqb Z.ltb Z.compare negb]
           end;
    intros H; try discriminate H;
    injection H as <- _; apply Pos2Z.neg_is_neg.
Qed.

Lemma parse_options_loop_app (ps1 ps2 : list string) :
  forall st : state,
    parse_options_loop env st (ps1 ++ ps2) =
    (let '(err, st1) := parse_options_loop env st ps1 in
     if err =? 0 then parse_options_loop env st1 ps2 else (err, st1)).
Proof.
  induction ps1 as [| p ps1 IH]; intros st; cbn [app parse_options_loop].
  - reflexivity.
  - destruct (parse_option env st p) as [[err | u] st1] eqn:Hp.
    + apply parse_option_error in Hp.
      destruct (Z.eqb_spec err 0); [lia | reflexivity].
    + apply IH.
Qed.

(** X8.  Options are applied from left to right: parsing [a,b] is
    parsing [a] and then, unless that failed, parsing [b] in the state
    it left, the error of [a] being the error of the whole. *)
Theorem parse_options_sequence (st : state) (a b : string) :
  erofs_parse_options env st (Some (a ++ String ","%char b)%string) =
  (let '(err, st1) := erofs_parse_options env st (Some a) in
   if err =? 0 then erofs_parse_options env st1 (Some b) else (err, st1)).
Proof.
  unfold erofs_parse_options.
  rewrite strsep_commas_app. apply parse_options_loop_app.
Qed.

End OptionSequence.

Lemma parse_options_fresh_devices_witness :
  let r := @erofs_parse_options linux_abi kconfig_all (env_ok no_disk) st_zero
             (Some "device=/dev/vdb,noacl,device=/dev/vdc"%string) in
  Forall dif_fresh (tree (devs (EROFS_SB (snd r)))) /\
  extra_devices (devs (EROFS_SB (snd r))) = 2.
Proof.
  intros r.
  destruct (@parse_options_fresh_devices linux_abi kconfig_all
              (env_ok no_disk) st_zero
              (Some "device=/dev/vdb,noacl,device=/dev/vdc"%string) eq_refl)
    as [Hf Hc].
  fold r in Hf, Hc. split; [exact Hf |].
  rewrite Hc; vm_compute; reflexivity.
Defined.
(* ------------------------------------------------------------------ *)
(** ** Listing the options and parsing them again *)

Section ShowParse.
Context {A : erofs_abi} {K : kconfig}.
Variable env : environment.

Lemma test_opt_set (bit : Z) (st : state) :
  bit <> 0 -> test_opt (EROFS_SB (set_opt bit st)) bit = true.
Proof.
  intros Hb. unfold test_opt, set_opt, upd_sbi, EROFS_SB.
  cbn [sb s_fs_info set_s_fs_info mount_opt set_mount_opt].
  rewrite land_lor_same. apply negb_true_iff, Z.eqb_neq. exact Hb.
Qed.

Lemma test_opt_clear (bit : Z) (st : state) :
  test_opt (EROFS_SB (clear_opt bit st)) bit = false.
Proof.
  unfold test_opt, clear_opt, upd_sbi, EROFS_SB.
  cbn [sb s_fs_info set_s_fs_info mount_opt set_mount_opt].
  rewrite Z.land_ldiff. reflexivity.
Qed.

Lemma test_opt_set_other (bit other : Z) (st : state) :
  Z.land other bit = 0 ->
  test_opt (EROFS_SB (set_opt bit st)) other = test_opt (EROFS_SB st) other.
Proof.
  intros Hd. unfold test_opt, set_opt, upd_sbi, EROFS_SB.
  cbn [sb s_fs_info set_s_fs_info mount_opt set_mount_opt].
  rewrite land_lor_disjoint by exact Hd. reflexivity.
Qed.

Lemma test_opt_clear_other (bit other : Z) (st : state) :
  Z.land other bit = 0 ->
  test_opt (EROFS_SB (clear_opt bit st)) other = test_opt (EROFS_SB st) other.
Proof.
  intros Hd. unfold test_opt, clear_opt, upd_sbi, EROFS_SB.
  cbn [sb s_fs_info set_s_fs_info mount_opt set_mount_opt].
  rewrite land_ldiff_disjoint by exact Hd. reflexivity.
Qed.


Lemma parse_option_empty (st : state) :
  parse_option env st EmptyString = (inr tt, st).
Proof. reflexivity. Qed.

Lemma parse_option_user_xattr (st : state) :
  parse_option env st "user_xattr" =
  (inr tt, if CONFIG_EROFS_FS_XATTR then set_opt EROFS_MOUNT_XATTR_USER st
           else st).
Proof.
  unfold parse_option. cbn [streq String.eqb Ascii.eqb Bool.eqb].
  change (match_token "user_xattr" erofs_tokens) with (Opt_user_xattr, @None string).
  cbv beta iota. destruct CONFIG_EROFS_FS_XATTR; reflexivity.
Qed.

Lemma parse_option_nouser_xattr (st : state) :
  parse_option env st "nouser_xattr" =
  (inr tt, if CONFIG_EROFS_FS_XATTR then clear_opt EROFS_MOUNT_XATTR_USER st
           else st).
Proof.
  unfold parse_option. cbn [streq String.eqb Ascii.eqb Bool.eqb].
  change (match_token "nouser_xattr" erofs_tokens)
    with (Opt_nouser_xattr, @None string).
  cbv beta iota. destruct CONFIG_EROFS_FS_XATTR; reflexivity.
Qed.

Lemma parse_option_acl (st : state) :
  parse_option env st "acl" =
  (inr tt, if CONFIG_EROFS_FS_POSIX_ACL then set_opt EROFS_MOUNT_POSIX_ACL st
           else st).
Proof.
  unfold parse_option. cbn [streq String.eqb Ascii.eqb Bool.eqb].
  change (match_token "acl" erofs_tokens) with (Opt_acl, @None string).
  cbv beta iota. destruct CONFIG_EROFS_FS_POSIX_ACL; reflexivity.
Qed.

Lemma parse_option_noacl (st : state) :
  parse_option env st "noacl" =
  (inr tt, if CONFIG_EROFS_FS_POSIX_ACL
           then clear_opt EROFS_MOUNT_POSIX_ACL st else st).
Proof.
  unfold parse_option. cbn [streq String.eqb Ascii.eqb Bool.eqb].
  change (match_token "noacl" erofs_tokens) with (Opt_noacl, @None string).
  cbv beta iota. destruct CONFIG_EROFS_FS_POSIX_ACL; reflexivity.
Qed.

(** The name of a cache strategy, as [erofs_show_options] prints it. *)
Lemma parse_option_cache_strategy (st : state) (cs : cache_strategy_t) :
  alloc_ok env (trace st) = true ->
  parse_option env st
    (match cs with
     | EROFS_ZIP_CACHE_DISABLED => "cache_strategy=disabled"
     | EROFS_ZIP_CACHE_READAHEAD => "cache_strategy=readahead"
     | EROFS_ZIP_CACHE_READAROUND => "cache_strategy=readaround"
     end) =
  (inr tt, if CONFIG_EROFS_FS_ZIP
           then upd_sbi (set_cache_strategy cs) (log EvAlloc st) else st).
Proof.
  intros Halloc. unfold parse_option.
  destruct cs; cbn [streq String.eqb Ascii.eqb Bool.eqb];
    match goal with |- context [match_token ?s erofs_tokens] =>
      let v := eval vm_compute in (match_token s erofs_tokens) in
      change (match_token s erofs_tokens) with v
    end;
    cbv beta iota; unfold erofs_build_cache_strategy, kmalloc;
    rewrite Halloc; destruct CONFIG_EROFS_FS_ZIP; reflexivity.
Qed.
(** X9.  What [erofs_show_options] prints can be parsed again, and
    selects the options it was printed from: for toggle bits that are
    different and not zero, and with memory for the copy of the cache
    strategy name, [erofs_parse_options] accepts the string shown for
    [st] in any state [st1], after which the toggles and the cache
    strategy that this kernel configuration knows are those of [st];
    the device registry and the paths of [st1] stay as they are. *)
Theorem show_options_round_trip (st st1 : state) :
  Z.land EROFS_MOUNT_XATTR_USER EROFS_MOUNT_POSIX_ACL = 0 ->
  EROFS_MOUNT_XATTR_USER <> 0 ->
  EROFS_MOUNT_POSIX_ACL <> 0 ->
  (CONFIG_EROFS_FS_ZIP = true -> alloc_ok env (trace st1) = true) ->
  let shown := snd (erofs_show_options EmptyString st) in
  let r := erofs_parse_options env st1 (Some shown) in
  fst r = 0 /\
  (CONFIG_EROFS_FS_XATTR = true ->
   test_opt (EROFS_SB (snd r)) EROFS_MOUNT_XATTR_USER =
   test_opt (EROFS_SB st) EROFS_MOUNT_XATTR_USER) /\
  (CONFIG_EROFS_FS_POSIX_ACL = true ->
   test_opt (EROFS_SB (snd r)) EROFS_MOUNT_POSIX_ACL =
   test_opt (EROFS_SB st) EROFS_MOUNT_POSIX_ACL) /\
  (CONFIG_EROFS_FS_ZIP = true ->
   cache_strategy (EROFS_SB (snd r)) = cache_strategy (EROFS_SB st)) /\
  devs (EROFS_SB (snd r)) = devs (EROFS_SB st1) /\
  bootstrap_path (EROFS_SB (snd r)) = bootstrap_path (EROFS_SB st1) /\
  blob_dir_path (EROFS_SB (snd r)) = blob_dir_path (EROFS_SB st1).
Proof.
  intros Hd Hx Ha Halloc shown r. subst r shown.
  assert (Hd' : Z.land EROFS_MOUNT_POSIX_ACL EROFS_MOUNT_XATTR_USER = 0)
    by (rewrite Z.land_comm; exact Hd).
  unfold erofs_show_options, seq_puts. cbv zeta.
  destruct CONFIG_EROFS_FS_ZIP eqn:Ez, CONFIG_EROFS_FS_XATTR eqn:Exa, CONFIG_EROFS_FS_POSIX_ACL eqn:Eacl;
  destruct (test_opt (EROFS_SB st) EROFS_MOUNT_XATTR_USER) eqn:Ex;
  destruct (test_opt (EROFS_SB st) EROFS_MOUNT_POSIX_ACL) eqn:Ea;
  destruct (cache_strategy (EROFS_SB st)) eqn:Ec.
  all: cbn [snd String.append].
  all: unfold erofs_parse_options.
  all: match goal with |- context [strsep_commas ?s] =>
         let l := eval vm_compute in (strsep_commas s) in
         change (strsep_commas s) with l end.
  all: cbn [parse_options_loop].
  all: rewrite ?parse_option_empty, ?parse_option_user_xattr, ?parse_option_nouser_xattr, ?parse_option_acl, ?parse_option_noacl.
  all: rewrite ?Ez, ?Exa, ?Eacl.
  all: try (match goal with
            | |- context [parse_option env ?s (String _ _)] =>
                first
                  [ pose proof (parse_option_cache_strategy s
                                  EROFS_ZIP_CACHE_DISABLED (Halloc eq_refl))
                      as Hp; cbv beta iota in Hp; rewrite Hp
                  | pose proof (parse_option_cache_strategy s
                                  EROFS_ZIP_CACHE_READAHEAD (Halloc eq_refl))
                      as Hp; cbv beta iota in Hp; rewrite Hp
                  | pose proof (parse_option_cache_strategy s
                                  EROFS_ZIP_CACHE_READAROUND (Halloc eq_refl))
                      as Hp; cbv beta iota in Hp; rewrite Hp ]
            end; rewrite Ez).
  all: cbn [fst snd].
  all: unfold test_opt, set_opt, clear_opt, upd_sbi, log, EROFS_SB;
    cbn [sb s_fs_info set_s_fs_info mount_opt set_mount_opt cache_strategy
         set_cache_strategy devs bootstrap_path blob_dir_path].
  all: rewrite ?(land_lor_disjoint _ _ _ Hd), ?(land_lor_disjoint _ _ _ Hd'),
    ?(land_ldiff_disjoint _ _ _ Hd), ?(land_ldiff_disjoint _ _ _ Hd'),
    ?land_lor_same, ?Z.land_ldiff.
  all: repeat split; try discriminate; intros _;
    try (apply negb_true_iff, Z.eqb_neq; assumption).
Qed.

End ShowParse.

Lemma show_options_round_trip_witness :
  let shown := snd (@erofs_show_options linux_abi kconfig_all EmptyString
                      mounted) in
  let r := @erofs_parse_options linux_abi kconfig_all (env_ok no_disk)
             st_zero (Some shown) in
  shown = ",user_xattr,acl,cache_strategy=readaround"%string /\
  fst r = 0 /\
  cache_strategy (EROFS_SB (snd r)) = EROFS_ZIP_CACHE_READAROUND /\
  test_opt (EROFS_SB (snd r)) (@EROFS_MOUNT_POSIX_ACL linux_abi) =
    true.
Proof.
  intros shown r.
  destruct (@show_options_round_trip linux_abi kconfig_all (env_ok no_disk)
              mounted st_zero eq_refl ltac:(discriminate)
              ltac:(discriminate) (fun _ => eq_refl))
    as (Hr & _ & Ha & Hc & _).
  fold shown in Hr, Ha, Hc. fold r in Hr, Ha, Hc.
  split; [vm_compute; reflexivity |].
  split; [exact Hr |].
  split; [rewrite (Hc eq_refl) | rewrite (Ha eq_refl)];
    vm_compute; reflexivity.
Defined.
(* ------------------------------------------------------------------ *)
(** ** The choice between [mount_nodev] and [mount_bdev] *)

Lemma match_token_path_value (p : string) (tok : token)
    (arg : option string) :
  match_token p erofs_tokens = (tok, arg) ->
  tok = Opt_bootstrap_path \/ tok = Opt_blob_dir_path ->
  arg <> None.
Proof.
  unfold erofs_tokens. cbn [match_token].
  repeat match goal with
         | |- context [match match_one p ?pat with _ => _ end] =>
             destruct (match_one p pat) as [a |] eqn:?
         end;
    intros H [Ht | Ht]; injection H as <- <-; try discriminate Ht;
    match goal with
    | Hm : match_one p _ = Some _ |- _ => revert Hm
    end;
    clear;
    repeat (destruct p as [| ? p]; cbn [match_one]; [discriminate |];
            match goal with
            | |- context [Ascii.eqb ?a ?b] =>
                destruct (Ascii.eqb a b); [| discriminate]
            end);
    (destruct p; cbn [match_one]; [discriminate |]);
    intros H; injection H as <-; discriminate.
Qed.

Section MountHelper.
Context {A : erofs_abi} {K : kconfig}.
Variable env : environment.

Lemma parse_option_rafs (st st' : state) (p : string) (u : unit) :
  parse_option env st p = (inr u, st') ->
  (rafs_mode st -> rafs_mode st') /\
  (streq p EmptyString = false ->
   fst (match_token p erofs_tokens) = Opt_bootstrap_path \/
   fst (match_token p erofs_tokens) = Opt_blob_dir_path ->
   rafs_mode st').
Proof.
  destruct u. unfold parse_option, rafs_mode.
  destruct (streq p EmptyString).
  { intros H. injection H as <-. split; [tauto | discriminate]. }
  pose proof (match_token_path_value p) as Hv.
  destruct (match_token p erofs_tokens) as [tok arg].
  specialize (Hv tok arg eq_refl). cbn [fst].
  destruct tok;
    unfold erofs_build_cache_strategy, idr_alloc, kmalloc;
    cbn [trace log]; cbv beta iota zeta;
    repeat match goal with
           | |- context [Z.of_nat ?x <? 0] =>
               assert ((Z.of_nat x <? 0) = false) as ->
                 by (apply Z.ltb_ge; lia)
           | |- context [if ?b then _ else _] =>
               destruct b; cbn [negb]; cbv beta iota zeta;
               cbn [Z.eqb Z.ltb Z.compare negb]
           end;
    intros H; try discriminate H; injection H as <-;
    unfold EROFS_SB, upd_sbi, set_opt, clear_opt, set_extra_devices,
      set_tree, log;
    cbn [sb s_fs_info set_s_fs_info bootstrap_path blob_dir_path
         set_mount_opt set_cache_strategy set_devs set_bootstrap_path
         set_blob_dir_path upd_sbi EROFS_SB];
    (split; [tauto |]); intros _ [Ht | Ht]; try discriminate Ht;
    first [left; apply Hv; tauto | right; apply Hv; tauto].
Qed.

Lemma parse_options_loop_rafs (ps : list string) :
  forall st : state,
    fst (parse_options_loop env st ps) = 0 ->
    rafs_mode st \/ mount_is_rafs_v6_loop ps = true ->
    rafs_mode (snd (parse_options_loop env st ps)).
Proof.
  induction ps as [| p ps IH]; intros st Hok Hr;
    cbn [parse_options_loop mount_is_rafs_v6_loop] in *.
  - destruct Hr as [Hr | Hr]; [exact Hr | discriminate].
  - destruct (parse_option env st p) as [[err | u] st'] eqn:Hp.
    + apply parse_option_error in Hp. cbn [fst] in Hok. lia.
    + destruct (parse_option_rafs st st' p u Hp) as [Hkeep Hset].
      apply IH; [exact Hok |].
      destruct Hr as [Hr | Hr]; [left; apply Hkeep; exact Hr |].
      destruct (streq p EmptyString); [right; exact Hr |].
      destruct (fst (match_token p erofs_tokens)) eqn:Ht;
        first [right; exact Hr | left; apply Hset; auto].
Qed.

(** X10.  [erofs_mount] picks the mount helper by the options the
    parser will see: with memory for the copy of the option string, a
    mount whose options then parse without error into a mount instance
    without bootstrap and blob directory is handed to [mount_nodev]
    exactly if parsing configures a bootstrap or a blob directory, and
    to [mount_bdev] otherwise. *)
Theorem mount_helper_matches_options (st st1 : state)
    (data : option string) :
  alloc_ok env (trace st) = true ->
  bootstrap_path (EROFS_SB st1) = None ->
  blob_dir_path (EROFS_SB st1) = None ->
  let r := erofs_parse_options env st1 data in
  fst r = 0 ->
  (fst (erofs_mount env st data) = mount_nodev <->
   bootstrap_path (EROFS_SB (snd r)) <> None \/
   blob_dir_path (EROFS_SB (snd r)) <> None) /\
  (fst (erofs_mount env st data) = mount_bdev <->
   bootstrap_path (EROFS_SB (snd r)) = None /\
   blob_dir_path (EROFS_SB (snd r)) = None).
Proof.
  intros Halloc Hb Hd r Hok. subst r.
  unfold erofs_mount, erofs_mount_is_rafs_v6, kmalloc, erofs_parse_options
    in *.
  destruct data as [o |].
  2:{ cbn [fst snd]. rewrite Hb, Hd.
      repeat split; try discriminate; try tauto;
        intros [H | H]; congruence. }
  rewrite Halloc. cbn [negb].
  destruct (mount_is_rafs_v6_loop (strsep_commas o)) eqn:Hscan; cbn [fst].
  - pose proof (parse_options_loop_rafs (strsep_commas o) st1 Hok
                  (or_intror Hscan)) as Hr.
    unfold rafs_mode in Hr.
    repeat split; try discriminate; try tauto;
      intros [H1 H2]; destruct Hr; congruence.
  - destruct (mount_is_rafs_v6_loop_false env _ Hscan st1) as [H1 H2].
    rewrite H1, H2, Hb, Hd.
    repeat split; try discriminate; try tauto;
      intros [H | H]; congruence.
Qed.

End MountHelper.

Lemma mount_helper_matches_options_witness :
  let data := Some "noacl,blob_dir_path=/blobs"%string in
  let r := @erofs_parse_options linux_abi kconfig_all (env_ok no_disk)
             st_zero data in
  fst r = 0 /\
  fst (erofs_mount (env_ok no_disk) st_zero data) = mount_nodev /\
  blob_dir_path (EROFS_SB (snd r)) = Some "/blobs"%string.
Proof.
  intros data r.
  assert (Hok : fst r = 0) by (vm_compute; reflexivity).
  destruct (@mount_helper_matches_options linux_abi kconfig_all
              (env_ok no_disk) st_zero st_zero data eq_refl eq_refl eq_refl
              Hok) as [[_ Hn] _].
  split; [exact Hok |]. split; [| vm_compute; reflexivity].
  apply Hn. right. vm_compute. discriminate.
Defined.
(* ------------------------------------------------------------------ *)
(** ** The stages of [erofs_fill_super] *)

Section FillSuperStages.
Context {A : erofs_abi} {K : kconfig}.
Variable env : environment.
Variable crc32c : Z -> list byte -> Z.

Lemma fill_super_stages (st : state) (data : option string) :
  let r := erofs_fill_super env crc32c st data in
  (fst r < 0 /\
   (fst r = Z.neg EINVAL \/ fst r = Z.neg ENOMEM) /\
   (exists evs, trace (snd r) = trace st ++ evs /\
                Forall (fun ev => is_io ev = false) evs) /\
   ~ fill_super_can_start env st) \/
  (fill_super_can_start env st /\
   exists e1 s1,
     erofs_parse_options env (fill_super_ready st) data = (e1, s1) /\
     ((e1 <> 0 /\ r = (e1, s1)) \/
      (e1 = 0 /\
       exists e2 s2,
         rafs_v6_fill_super env s1 = (e2, s2) /\
         ((e2 <> 0 /\ r = (e2, s2)) \/
          (e2 = 0 /\
           exists e3 s3,
             erofs_read_superblock env crc32c s2 = (e3, s3) /\
             ((e3 <> 0 /\ r = (e3, s3)) \/
              (e3 = 0 /\ fill_super_finished env s3 r))))))).
Proof.
  intros r. subst r.
  unfold erofs_fill_super, fill_super_can_start, fill_super_ready, kmalloc.
  cbv zeta.
  cbn [upd_sb sb trace set_s_magic s_bdev log].
  assert (Htail : forall s : state,
    let P := fun r : Z * state =>
      exists e1 s1,
        erofs_parse_options env
          (erofs_default_options
             (upd_sb (fun s => set_s_flags
                                 (Z.lor (s_flags s) (Z.lor SB_RDONLY SB_NOATIME)) s)
                (log EvAlloc
                   (upd_sb (set_s_fs_info sbi_zero)
                      (log EvAlloc
                         (upd_sb (set_s_blocksize EROFS_BLKSIZ LOG_BLOCK_SIZE)
                            s)))))) data = (e1, s1) /\
        ((e1 <> 0 /\ r = (e1, s1)) \/
         (e1 = 0 /\
          exists e2 s2,
            rafs_v6_fill_super env s1 = (e2, s2) /\
            ((e2 <> 0 /\ r = (e2, s2)) \/
             (e2 = 0 /\
              exists e3 s3,
                erofs_read_superblock env crc32c s2 = (e3, s3) /\
                ((e3 <> 0 /\ r = (e3, s3)) \/
                 (e3 = 0 /\ fill_super_finished env s3 r)))))) in
    P (let st3 :=
         erofs_default_options
           (upd_sb (fun s => set_s_flags
                               (Z.lor (s_flags s) (Z.lor SB_RDONLY SB_NOATIME)) s)
              (log EvAlloc
                 (upd_sb (set_s_fs_info sbi_zero)
                    (log EvAlloc
                       (upd_sb (set_s_blocksize EROFS_BLKSIZ LOG_BLOCK_SIZE)
                          s))))) in
       let '(err, st4) := erofs_parse_options env st3 data in
       if negb (err =? 0) then (err, st4)
       else
         let '(err0, st5) := rafs_v6_fill_super env st4 in
         if negb (err0 =? 0) then (err0, st5)
         else
           let '(err1, st6) := erofs_read_superblock env crc32c st5 in
           if negb (err1 =? 0) then (err1, st6)
           else
             let st7 :=
               if test_opt (EROFS_SB st6) EROFS_MOUNT_POSIX_ACL
               then upd_sb (fun s => set_s_flags
                                       (Z.lor (s_flags s) SB_POSIXACL) s) st6
               else upd_sb (fun s => set_s_flags
                                       (Z.ldiff (s_flags s) SB_POSIXACL) s)
                      st6 in
             let nid := root_nid (EROFS_SB st7) in
             let inode := erofs_iget env (trace st7) nid in
             let st8 := log (EvIget nid) st7 in
             match inode with
             | Ok i_mode =>
                 if negb (S_ISDIR i_mode) then (Z.neg EINVAL, st8)
                 else
                   if negb (alloc_ok env (trace st8))
                   then (Z.neg ENOMEM, log EvAlloc st8)
                   else erofs_init_managed_cache env
                          (upd_sb (set_s_root (Some nid)) (log EvAlloc st8))
             | Err e => (PTR_ERR e, st8)
             end)).
  { intros s P. subst P. cbv zeta.
    destruct (erofs_parse_options env _ data) as [e1 s1].
    exists e1, s1. split; [reflexivity |].
    destruct (Z.eqb_spec e1 0) as [He1 | He1]; cbn [negb];
      [right; split; [exact He1 |] | left; split; [exact He1 | reflexivity]].
    destruct (rafs_v6_fill_super env s1) as [e2 s2].
    exists e2, s2. split; [reflexivity |].
    destruct (Z.eqb_spec e2 0) as [He2 | He2]; cbn [negb];
      [right; split; [exact He2 |] | left; split; [exact He2 | reflexivity]].
    destruct (erofs_read_superblock env crc32c s2) as [e3 s3].
    exists e3, s3. split; [reflexivity |].
    destruct (Z.eqb_spec e3 0) as [He3 | He3]; cbn [negb];
      [right; split; [exact He3 |] | left; split; [exact He3 | reflexivity]].
    unfold fill_super_finished. cbv zeta.
    assert (Hn : forall b : bool,
      root_nid (EROFS_SB
                  (if b
                   then upd_sb (fun s => set_s_flags
                                           (Z.lor (s_flags s) SB_POSIXACL) s) s3
                   else upd_sb (fun s => set_s_flags
                                           (Z.ldiff (s_flags s) SB_POSIXACL) s)
                          s3)) = root_nid (EROFS_SB s3))
      by (intros []; reflexivity).
    rewrite Hn. clear Hn.
    set (nid := root_nid (EROFS_SB s3)).
    assert (Hfin : forall (r : Z * state) (evs : list event),
      trace (snd r) = trace s3 ++ EvIget nid :: evs ->
      Forall (fun ev => ev = EvAlloc) evs ->
      (forall c, set_managed_cache c (EROFS_SB (snd r)) =
                 set_managed_cache c (EROFS_SB s3)) ->
      (s_magic (sb (snd r)), s_bdev (sb (snd r)), s_blocksize (sb (snd r)),
       s_blocksize_bits (sb (snd r)), s_uuid (sb (snd r))) =
      (s_magic (sb s3), s_bdev (sb s3), s_blocksize (sb s3),
       s_blocksize_bits (sb s3), s_uuid (sb s3)) ->
      s_flags (sb (snd r)) =
        (if test_opt (EROFS_SB s3) EROFS_MOUNT_POSIX_ACL
         then Z.lor (s_flags (sb s3)) SB_POSIXACL
         else Z.ldiff (s_flags (sb s3)) SB_POSIXACL) ->
      (fst r = 0 /\
       s_root (sb (snd r)) = Some nid /\
       (exists i_mode, erofs_iget env (trace s3) nid = Ok i_mode /\
                       S_ISDIR i_mode = true) /\
       (CONFIG_EROFS_FS_ZIP = true ->
        managed_cache (EROFS_SB (snd r)) = true)) \/
      (fst r < 0 /\
       (managed_cache (EROFS_SB (snd r)) = managed_cache (EROFS_SB s3) \/
        s_root (sb (snd r)) <> None)) ->
      (exists evs, trace (snd r) = trace s3 ++ EvIget nid :: evs /\
                   Forall (fun ev => ev = EvAlloc) evs) /\
      (forall c, set_managed_cache c (EROFS_SB (snd r)) =
                 set_managed_cache c (EROFS_SB s3)) /\
      s_magic (sb (snd r)) = s_magic (sb s3) /\
      s_bdev (sb (snd r)) = s_bdev (sb s3) /\
      s_blocksize (sb (snd r)) = s_blocksize (sb s3) /\
      s_blocksize_bits (sb (snd r)) = s_blocksize_bits (sb s3) /\
      s_uuid (sb (snd r)) = s_uuid (sb s3) /\
      s_flags (sb (snd r)) =
        (if test_opt (EROFS_SB s3) EROFS_MOUNT_POSIX_ACL
         then Z.lor (s_flags (sb s3)) SB_POSIXACL
         else Z.ldiff (s_flags (sb s3)) SB_POSIXACL) /\
      (fst r = 0 \/ fst r < 0) /\
      (fst r = 0 ->
       s_root (sb (snd r)) = Some nid /\
       (exists i_mode, erofs_iget env (trace s3) nid = Ok i_mode /\
                       S_ISDIR i_mode = true) /\
       (CONFIG_EROFS_FS_ZIP = true ->
        managed_cache (EROFS_SB (snd r)) = true)) /\
      (managed_cache (EROFS_SB s3) = false ->
       managed_cache (EROFS_SB (snd r)) = true ->
       s_root (sb (snd r)) <> None)).
    { intros r evs Htr Hall Hsbi Hsb Hfl Hres.
      injection Hsb as Hs1 Hs2 Hs3 Hs4 Hs5.
      split; [exists evs; split; assumption |].
      repeat (split; [assumption |]).
      destruct Hres as [(H0 & Hroot & Hmode & Hmc) | (Hneg & Hmc)].
      - split; [left; exact H0 |]. split; [intros _; auto |].
        intros _ _. rewrite Hroot. discriminate.
      - split; [right; exact Hneg |]. split; [intros H0; lia |].
        intros Hf Ht'. destruct Hmc as [Hmc | Hmc]; [congruence | exact Hmc]. }
    assert (Hflags : forall s : state,
      sb s = sb s3 ->
      s_flags
        (sb (if test_opt (EROFS_SB s3) EROFS_MOUNT_POSIX_ACL
             then upd_sb (fun s => set_s_flags
                                     (Z.lor (s_flags s) SB_POSIXACL) s) s
             else upd_sb (fun s => set_s_flags
                                     (Z.ldiff (s_flags s) SB_POSIXACL) s) s)) =
      (if test_opt (EROFS_SB s3) EROFS_MOUNT_POSIX_ACL
       then Z.lor (s_flags (sb s3)) SB_POSIXACL
       else Z.ldiff (s_flags (sb s3)) SB_POSIXACL))
      by (intros s0 Hs0; destruct (test_opt _ _); cbn; rewrite Hs0;
          reflexivity).
    specialize (Hflags s3 eq_refl).
    set (s4 := if test_opt (EROFS_SB s3) EROFS_MOUNT_POSIX_ACL
               then upd_sb (fun s => set_s_flags
                                       (Z.lor (s_flags s) SB_POSIXACL) s) s3
               else upd_sb (fun s => set_s_flags
                                       (Z.ldiff (s_flags s) SB_POSIXACL) s) s3)
      in *.
    assert (Hs4 : trace s4 = trace s3 /\ EROFS_SB s4 = EROFS_SB s3 /\
                  (s_magic (sb s4), s_bdev (sb s4), s_blocksize (sb s4),
                   s_blocksize_bits (sb s4), s_uuid (sb s4)) =
                  (s_magic (sb s3), s_bdev (sb s3), s_blocksize (sb s3),
                   s_blocksize_bits (sb s3), s_uuid (sb s3)))
      by (subst s4; destruct (test_opt _ _); repeat split).
    destruct Hs4 as (Htr4 & Hsbi4 & Hsb4).
    clearbody s4.
    destruct s4 as [tr4 [m4 b4 bs4 bb4 fl4 u4 r4 i4]].
    unfold EROFS_SB in Hsbi4. cbn [trace sb s_fs_info s_magic s_bdev
      s_blocksize s_blocksize_bits s_uuid s_flags] in Htr4, Hsbi4, Hsb4, Hflags.
    injection Hsb4 as -> -> -> -> ->. subst tr4 i4 fl4.
    cbn [trace log].
    destruct (erofs_iget env (trace s3) nid) as [i_mode | e] eqn:Hi.
    2:{ apply (Hfin _ []); cbn [fst snd];
          [ reflexivity | constructor | reflexivity | reflexivity
          | reflexivity
          | right; split; [apply Pos2Z.neg_is_neg | left; reflexivity] ]. }
    destruct (S_ISDIR i_mode) eqn:Hdir; cbn [negb].
    2:{ apply (Hfin _ []); cbn [fst snd];
          [ reflexivity | constructor | reflexivity | reflexivity
          | reflexivity
          | right; split; [apply Pos2Z.neg_is_neg | left; reflexivity] ]. }
    destruct (alloc_ok env (trace s3 ++ [EvIget nid])); cbn [negb].
    2:{ apply (Hfin _ [EvAlloc]); cbn [fst snd];
          [ cbn; rewrite <- app_assoc; reflexivity
          | repeat constructor | reflexivity | reflexivity | reflexivity
          | right; split; [apply Pos2Z.neg_is_neg | left; reflexivity] ]. }
    unfold erofs_init_managed_cache, kmalloc.
    destruct CONFIG_EROFS_FS_ZIP.
    2:{ apply (Hfin _ [EvAlloc]); cbn [fst snd];
          [ cbn; rewrite <- app_assoc; reflexivity
          | repeat constructor | reflexivity | reflexivity | reflexivity
          | left; split; [reflexivity |]; split; [reflexivity |];
            split; [exists i_mode; split; [reflexivity | exact Hdir]
                   | discriminate] ]. }
    cbn [trace upd_sb log].
    destruct (alloc_ok env ((trace s3 ++ [EvIget nid]) ++ [EvAlloc]));
      cbn [negb].
    - apply (Hfin _ [EvAlloc; EvAlloc]); cbn [fst snd];
        [ cbn; rewrite <- !app_assoc; reflexivity
        | repeat constructor | reflexivity | reflexivity | reflexivity
        | left; split; [reflexivity |]; split; [reflexivity |];
          split; [exists i_mode; split; [reflexivity | exact Hdir]
                 | reflexivity] ].
    - apply (Hfin _ [EvAlloc; EvAlloc]); cbn [fst snd];
        [ cbn; rewrite <- !app_assoc; reflexivity
        | repeat constructor | reflexivity | reflexivity | reflexivity
        | right; split; [apply Pos2Z.neg_is_neg | right; discriminate] ]. }
  assert (Hb1 : forall ev,
    s_bdev (sb (log ev (upd_sb (set_s_magic EROFS_SUPER_MAGIC_V1) st))) =
    s_bdev (sb st)) by reflexivity.
  assert (Hb2 :
    s_bdev (sb (upd_sb (set_s_magic EROFS_SUPER_MAGIC_V1) st)) =
    s_bdev (sb st)) by reflexivity.
  destruct (s_bdev (sb st)) as [b |] eqn:Hbdev.
  - cbv beta iota zeta. rewrite Hb1.
    destruct (sb_set_blocksize env (trace st) EROFS_BLKSIZ) eqn:Hbs.
    + cbn [upd_sb sb trace log set_s_blocksize].
      destruct (alloc_ok env (trace st ++ [EvSetBlocksize EROFS_BLKSIZ]))
        eqn:Ha1; cbn [negb].
      * cbn [upd_sb sb trace log set_s_fs_info].
        destruct (alloc_ok env ((trace st ++ [EvSetBlocksize EROFS_BLKSIZ])
                                  ++ [EvAlloc])) eqn:Ha2; cbn [negb].
        -- right. split; [repeat split; auto |].
           match goal with |- context [erofs_default_options ?s0] =>
             match s0 with
             | context [upd_sb (set_s_blocksize _ _) ?s] =>
                 exact (Htail s)
             end
           end.
        -- left. cbn [fst snd trace log upd_sb].
           split; [reflexivity |]. split; [right; reflexivity |]. split.
           ++ exists [EvSetBlocksize EROFS_BLKSIZ; EvAlloc; EvAlloc].
              split; [rewrite <- !app_assoc; reflexivity | repeat constructor].
           ++ intros (_ & _ & H). congruence.
      * left. cbn [fst snd trace log upd_sb].
        split; [reflexivity |]. split; [right; reflexivity |]. split.
        -- exists [EvSetBlocksize EROFS_BLKSIZ; EvAlloc].
           split; [rewrite <- !app_assoc; reflexivity | repeat constructor].
        -- intros (_ & H & _). congruence.
    + left. cbn [fst snd trace log upd_sb].
      split; [reflexivity |]. split; [left; reflexivity |]. split.
      * exists [EvSetBlocksize EROFS_BLKSIZ].
        split; [reflexivity | repeat constructor].
      * intros (H & _). specialize (H ltac:(discriminate)). congruence.
  - cbv beta iota zeta. rewrite Hb2.
    cbn [upd_sb sb trace log set_s_blocksize]. rewrite app_nil_r.
    destruct (alloc_ok env (trace st)) eqn:Ha1; cbn [negb].
    + cbn [upd_sb sb trace log set_s_fs_info].
      destruct (alloc_ok env (trace st ++ [EvAlloc])) eqn:Ha2; cbn [negb].
      * right. split; [repeat split; auto; intros H; congruence |].
        match goal with |- context [erofs_default_options ?s0] =>
          match s0 with
          | context [upd_sb (set_s_blocksize _ _) ?s] =>
              exact (Htail s)
          end
        end.
      * left. cbn [fst snd trace log upd_sb].
        split; [reflexivity |]. split; [right; reflexivity |]. split.
        -- exists [EvAlloc; EvAlloc].
           split; [rewrite <- !app_assoc; reflexivity | repeat constructor].
        -- intros (_ & _ & H). congruence.
    + left. cbn [fst snd trace log upd_sb].
      split; [reflexivity |]. split; [right; reflexivity |]. split.
      * exists [EvAlloc]. split; [reflexivity | repeat constructor].
      * intros (_ & H & _). congruence.
Qed.

End FillSuperStages.
(* ------------------------------------------------------------------ *)
(** ** What the stages of a mount change *)

Lemma owed_quiet (env : environment) (evs tr : list event) :
  Forall (fun ev => match ev with
                    | EvAlloc | EvReadMeta _ | EvSetBlocksize _ | EvIget _ =>
                        True
                    | _ => False
                    end) evs ->
  owed env tr evs = [].
Proof.
  revert tr. induction evs as [| ev evs IH]; intros tr H; [reflexivity |].
  inversion H as [| ? ? Hev Hevs]; subst. cbn [owed].
  rewrite (IH _ Hevs). destruct ev; try contradiction; reflexivity.
Qed.

Lemma allocs_quiet (evs : list event) :
  Forall (fun ev => ev = EvAlloc) evs ->
  Forall (fun ev => match ev with
                    | EvAlloc | EvReadMeta _ | EvSetBlocksize _ | EvIget _ =>
                        True
                    | _ => False
                    end) evs.
Proof. intros H. eapply Forall_impl; [| exact H]. intros ev ->. exact I. Qed.

Lemma allocs_no_io (evs : list event) :
  Forall (fun ev => ev = EvAlloc) evs ->
  Forall (fun ev => is_io ev = false) evs.
Proof. intros H. eapply Forall_impl; [| exact H]. intros ev ->. reflexivity. Qed.

Section StageFrames.
Context {A : erofs_abi} {K : kconfig}.
Variable env : environment.
Variable crc32c : Z -> list byte -> Z.

(** One option: only allocations are made; the option fields of the
    mount instance and its device registry apart, nothing changes; the
    errors are [-EINVAL] and [-ENOMEM]. *)
Lemma parse_option_frame (st : state) (p : string) :
  let r := parse_option env st p in
  (exists evs, trace (snd r) = trace st ++ evs /\
               Forall (fun ev => ev = EvAlloc) evs) /\
  sb_vfs (sb (snd r)) = sb_vfs (sb st) /\
  s_uuid (sb (snd r)) = s_uuid (sb st) /\
  bootstrap (EROFS_SB (snd r)) = bootstrap (EROFS_SB st) /\
  blob_dir (EROFS_SB (snd r)) = blob_dir (EROFS_SB st) /\
  managed_cache (EROFS_SB (snd r)) = managed_cache (EROFS_SB st) /\
  match fst r with
  | inl err => err = Z.neg EINVAL \/ err = Z.neg ENOMEM
  | inr _ => True
  end.
Proof.
  unfold parse_option.
  destruct (streq p EmptyString).
  { cbn [fst snd]. split; [exists []; rewrite app_nil_r; split; constructor |].
    repeat split. }
  destruct (match_token p erofs_tokens) as [tok arg].
  destruct tok;
    unfold erofs_build_cache_strategy, idr_alloc, kmalloc;
    cbn [trace log]; cbv beta iota zeta;
    repeat match goal with
           | |- context [Z.of_nat ?x <? 0] =>
               assert ((Z.of_nat x <? 0) = false) as ->
                 by (apply Z.ltb_ge; lia)
           | |- context [if ?b then _ else _] =>
               destruct b; cbn [negb]; cbv beta iota zeta;
               cbn [Z.eqb Z.ltb Z.compare negb]
           end;
    cbn [fst snd];
    (split;
     [ first
         [ exists []; split; [rewrite app_nil_r; reflexivity | constructor]
         | exists [EvAlloc]; split; [reflexivity | repeat constructor]
         | exists [EvAlloc; EvAlloc]; split;
           [cbn; rewrite <- !app_assoc; reflexivity | repeat constructor]
         | exists [EvAlloc; EvAlloc; EvAlloc]; split;
           [cbn; rewrite <- !app_assoc; reflexivity | repeat constructor] ]
     | repeat split; auto ]).
Qed.

Lemma parse_options_frame (st : state) (data : option string) :
  let r := erofs_parse_options env st data in
  (exists evs, trace (snd r) = trace st ++ evs /\
               Forall (fun ev => ev = EvAlloc) evs) /\
  sb_vfs (sb (snd r)) = sb_vfs (sb st) /\
  s_uuid (sb (snd r)) = s_uuid (sb st) /\
  bootstrap (EROFS_SB (snd r)) = bootstrap (EROFS_SB st) /\
  blob_dir (EROFS_SB (snd r)) = blob_dir (EROFS_SB st) /\
  managed_cache (EROFS_SB (snd r)) = managed_cache (EROFS_SB st) /\
  (fst r = 0 \/ fst r = Z.neg EINVAL \/ fst r = Z.neg ENOMEM).
Proof.
  destruct data as [o |]; cbn [erofs_parse_options].
  2:{ cbn [fst snd]. split; [exists []; rewrite app_nil_r; split; constructor |].
      repeat split. left. reflexivity. }
  generalize (strsep_commas o). intros ps. revert st.
  induction ps as [| p ps IH]; intros st; cbn [parse_options_loop].
  - cbn [fst snd]. split; [exists []; rewrite app_nil_r; split; constructor |].
    repeat split. left. reflexivity.
  - pose proof (parse_option_frame st p) as Hp. cbv zeta in Hp.
    destruct (parse_option env st p) as [[err | u] st1]; cbn [fst snd] in *.
    + destruct Hp as (Ht & Hv & Hu & Hb & Hd & Hm & He).
      repeat (split; [assumption |]). right. exact He.
    + destruct Hp as ((evs1 & Ht1 & Ha1) & Hv & Hu & Hb & Hd & Hm & _).
      destruct (IH st1) as ((evs2 & Ht2 & Ha2) & Hv2 & Hu2 & Hb2 & Hd2 & Hm2 & He2).
      split.
      { exists (evs1 ++ evs2). rewrite Ht2, Ht1, app_assoc.
        split; [reflexivity | apply Forall_app; split; assumption]. }
      repeat split; try congruence; exact He2.
Qed.

(** Opening the bootstrap and the blob directory. *)
Lemma rafs_v6_fill_super_frame (st : state) :
  let r := rafs_v6_fill_super env st in
  exists evs,
    trace (snd r) = trace st ++ evs /\
    Forall (fun ev => is_io ev = true) evs /\
    sb_vfs (sb (snd r)) = sb_vfs (sb st) /\
    s_uuid (sb (snd r)) = s_uuid (sb st) /\
    devs (EROFS_SB (snd r)) = devs (EROFS_SB st) /\
    mount_opt (EROFS_SB (snd r)) = mount_opt (EROFS_SB st) /\
    cache_strategy (EROFS_SB (snd r)) = cache_strategy (EROFS_SB st) /\
    managed_cache (EROFS_SB (snd r)) = managed_cache (EROFS_SB st) /\
    (fst r = 0 \/ fst r < 0) /\
    (bootstrap (EROFS_SB st) = None ->
     blob_dir (EROFS_SB st) = None ->
     (match bootstrap (EROFS_SB (snd r)) with
      | Some f => [filp_close f]
      | None => []
      end ++
      match blob_dir_path (EROFS_SB (snd r)) with
      | Some _ =>
          match blob_dir (EROFS_SB (snd r)) with
          | Some d => [path_put d]
          | None => []
          end
      | None => []
      end) = owed env (trace st) evs).
Proof.
  destruct st as [tr0 [m b bs bb fl u r sbi]].
  destruct sbi as [mo cs ms dv bp bdp bo bd tb pb dm fc fi mb xb isl rn
                   ino bt btn vn mc].
  unfold rafs_v6_fill_super, sb_vfs. cbn.
  destruct bp as [p |]; cbn.
  - destruct (filp_open env tr0 (Some p)) as [f | e] eqn:Hf; cbn.
    + destruct bdp as [q |]; cbn.
      * destruct (kern_path env (tr0 ++ [EvFileOpen (Some p)]) (Some q))
          as [d | e] eqn:Hk; cbn;
          exists [EvFileOpen (Some p); EvKernPath (Some q)];
          (split; [rewrite <- app_assoc; reflexivity |]);
          (split; [repeat constructor |]);
          repeat (split; [reflexivity |]);
          (split; [first [left; reflexivity | right; reflexivity] |]);
          intros -> ->; cbn; rewrite Hf, Hk; reflexivity.
      * exists [EvFileOpen (Some p)].
        (split; [reflexivity |]);
          (split; [repeat constructor |]);
          repeat (split; [reflexivity |]);
          (split; [left; reflexivity |]);
          intros -> ->; cbn; rewrite Hf; reflexivity.
    + exists [EvFileOpen (Some p)].
      (split; [reflexivity |]);
        (split; [repeat constructor |]);
        repeat (split; [reflexivity |]);
        (split; [right; reflexivity |]);
        intros -> ->; cbn; rewrite Hf; destruct bdp; reflexivity.
  - destruct bdp as [q |]; cbn.
    + destruct (kern_path env tr0 (Some q)) as [d | e] eqn:Hk; cbn;
        exists [EvKernPath (Some q)];
        (split; [reflexivity |]);
        (split; [repeat constructor |]);
        repeat (split; [reflexivity |]);
        (split; [first [left; reflexivity | right; reflexivity] |]);
        intros -> ->; cbn; rewrite Hk; reflexivity.
    + exists []. rewrite app_nil_r.
      (split; [reflexivity |]);
        (split; [constructor |]);
        repeat (split; [reflexivity |]);
        (split; [left; reflexivity |]);
        intros -> ->; reflexivity.
Qed.

(** Reading the superblock and resolving the device table. *)
Lemma read_superblock_frame (st : state) :
  let r := erofs_read_superblock env crc32c st in
  exists evs,
    trace (snd r) = trace st ++ evs /\
    sb_vfs (sb (snd r)) = sb_vfs (sb st) /\
    mount_opt (EROFS_SB (snd r)) = mount_opt (EROFS_SB st) /\
    cache_strategy (EROFS_SB (snd r)) = cache_strategy (EROFS_SB st) /\
    bootstrap (EROFS_SB (snd r)) = bootstrap (EROFS_SB st) /\
    blob_dir (EROFS_SB (snd r)) = blob_dir (EROFS_SB st) /\
    blob_dir_path (EROFS_SB (snd r)) = blob_dir_path (EROFS_SB st) /\
    managed_cache (EROFS_SB (snd r)) = managed_cache (EROFS_SB st) /\
    (held_devices (tree (devs (EROFS_SB st))) = [] ->
     held_devices (tree (devs (EROFS_SB (snd r)))) =
     owed env (trace st) evs).
Proof.
  intros r. subst r.
  destruct (read_superblock_reaches env crc32c st)
    as [(e & _ & Hr) | (data & Hread & H)].
  { rewrite Hr. exists [EvReadMeta 0]. cbn [snd].
    split; [reflexivity |]. repeat (split; [reflexivity |]).
    intros Hnil. exact Hnil. }
  cbv zeta in H.
  destruct H as [(tr & _ & Htr & Hall & Hd & Hb & Hbd & Hbp & Hmo & Hcs & Hmc
                  & Hvfs)
                | (st1 & tr & Hr & Htr & Hall & Hsb & _)].
  { exists (EvReadMeta 0 :: tr). split; [exact Htr |].
    repeat (split; [assumption |]).
    intros Hnil. rewrite Hd, Hnil. symmetry. apply owed_quiet.
    constructor; [exact I | apply allocs_quiet; exact Hall]. }
  rewrite Hr.
  destruct (init_devices_frame env st1 (dsb_at (skipn EROFS_SUPER_OFFSET data)))
    as (m & evs & t' & e' & tot' & Hst & Hheld & _).
  rewrite Hst.
  exists (EvReadMeta 0 :: tr ++ evs).
  split.
  { cbn [trace with_devices snd]. rewrite Htr, <- app_assoc. reflexivity. }
  pose proof (with_devices_mask_sbi st1 m (trace st1 ++ evs) t' e' tot') as Hi.
  pose proof (with_devices_mask_sb st1 m (trace st1 ++ evs) t' e' tot') as Hs.
  cbv zeta in Hi, Hs.
  destruct Hi as (H1 & H2 & _ & _ & H5 & H6 & H7 & _ & _ & _ & _ & _ & _ & _
                  & _ & _ & _ & _ & H19).
  destruct Hs as (Hs1 & Hs2 & Hs3 & Hs4 & Hs5 & _ & Hs7).
  cbn [snd]. unfold sb_vfs.
  rewrite Hs1, Hs2, Hs3, Hs4, Hs5, Hs7, H1, H2, H5, H6, H7, H19, wd_tree.
  assert (Hdevs : devs (EROFS_SB st1) = devs (EROFS_SB st))
    by (unfold EROFS_SB; rewrite Hsb; reflexivity).
  rewrite Hdevs in Hheld.
  unfold EROFS_SB. rewrite Hsb.
  cbn [s_magic s_bdev s_blocksize s_blocksize_bits s_flags s_root s_fs_info
       set_s_fs_info set_s_uuid mount_opt cache_strategy bootstrap blob_dir
       blob_dir_path managed_cache].
  repeat (split; [reflexivity |]).
  intros Hnil.
  change (EvReadMeta 0 :: tr ++ evs) with ((EvReadMeta 0 :: tr) ++ evs).
  rewrite owed_app, <- Htr, (Hheld Hnil).
  rewrite (owed_quiet env (EvReadMeta 0 :: tr) (trace st)); [reflexivity |].
  constructor; [exact I | apply allocs_quiet; exact Hall].
Qed.

End StageFrames.
(* ------------------------------------------------------------------ *)
(** ** Mounting *)

Lemma get_le64_range buf off : 0 <= get_le64 buf off < 2 ^ 64.
Proof.
  unfold get_le64. apply lor_range; [lia | |].
  - apply pow2_mono_range with 32; [lia | apply get_le32_range].
  - change 64 with (32 + 32). apply shiftl_range; try lia. apply get_le32_range.
Qed.

Lemma accum_blocks_range (l : list erofs_device_info) (total : Z) :
  0 <= total < 2 ^ 64 -> 0 <= accum_blocks total l < 2 ^ 64.
Proof.
  revert total. induction l as [| d l IH]; intros total Ht; [exact Ht |].
  unfold accum_blocks in *. cbn [fold_left]. apply IH.
  unfold wrap64. apply Z.mod_pos_bound. reflexivity.
Qed.

Section Mounting.
Context {A : erofs_abi} {K : kconfig}.
Variable env : environment.
Variable crc32c : Z -> list byte -> Z.

Lemma fill_super_ready_spec (st : state) :
  let s := fill_super_ready st in
  trace s =
    trace st ++
    match s_bdev (sb st) with
    | Some _ => [EvSetBlocksize EROFS_BLKSIZ; EvAlloc; EvAlloc]
    | None => [EvAlloc; EvAlloc]
    end /\
  s_magic (sb s) = EROFS_SUPER_MAGIC_V1 /\
  s_bdev (sb s) = s_bdev (sb st) /\
  s_blocksize (sb s) = EROFS_BLKSIZ /\
  s_blocksize_bits (sb s) = LOG_BLOCK_SIZE /\
  s_flags (sb s) = Z.lor (s_flags (sb st)) (Z.lor SB_RDONLY SB_NOATIME) /\
  s_root (sb s) = s_root (sb st) /\
  devs (EROFS_SB s) = {| tree := []; extra_devices := 0 |} /\
  bootstrap (EROFS_SB s) = None /\
  blob_dir (EROFS_SB s) = None /\
  bootstrap_path (EROFS_SB s) = None /\
  blob_dir_path (EROFS_SB s) = None /\
  managed_cache (EROFS_SB s) = false.
Proof.
  unfold fill_super_ready, erofs_default_options. cbv zeta.
  destruct st as [tr0 [m b bs bb fl u r sbi]].
  destruct b, CONFIG_EROFS_FS_ZIP, CONFIG_EROFS_FS_XATTR,
    CONFIG_EROFS_FS_POSIX_ACL;
    (split; [cbn; rewrite <- ?app_assoc; reflexivity | repeat split; reflexivity]).
Qed.

Lemma parse_options_loop_unknown (ps : list string) (p : string) :
  In p ps ->
  streq p EmptyString = false ->
  fst (match_token p erofs_tokens) = Opt_err ->
  forall st, fst (parse_options_loop env st ps) <> 0.
Proof.
  intros Hin Hp Htok.
  induction ps as [| q ps IH]; intros st; [contradiction |].
  cbn [parse_options_loop].
  destruct (parse_option env st q) as [[err | u] st1] eqn:Hq.
  - apply parse_option_error in Hq. cbn [fst]. lia.
  - destruct Hin as [-> | Hin]; [| apply IH; exact Hin].
    unfold parse_option in Hq. rewrite Hp in Hq.
    destruct (match_token p erofs_tokens) as [tok arg].
    cbn [fst] in Htok. subst tok. discriminate.
Qed.

Lemma fill_super_success_chain (st : state) (data : option string) :
  fst (erofs_fill_super env crc32c st data) = 0 ->
  fill_super_can_start env st /\
  exists s1 s2 s3,
    erofs_parse_options env (fill_super_ready st) data = (0, s1) /\
    rafs_v6_fill_super env s1 = (0, s2) /\
    erofs_read_superblock env crc32c s2 = (0, s3) /\
    fill_super_finished env s3 (erofs_fill_super env crc32c st data).
Proof.
  intros Hok.
  destruct (fill_super_stages env crc32c st data)
    as [(Hneg & _) | (Hstart & e1 & s1 & Hparse & H1)]; [lia |].
  split; [exact Hstart |].
  destruct H1 as [(Hne & Hr) | (-> & e2 & s2 & Hrafs & H2)];
    [rewrite Hr in Hok; contradiction |].
  destruct H2 as [(Hne & Hr) | (-> & e3 & s3 & Hread & H3)];
    [rewrite Hr in Hok; contradiction |].
  destruct H3 as [(Hne & Hr) | (-> & Hfin)];
    [rewrite Hr in Hok; contradiction |].
  exists s1, s2, s3. auto.
Qed.

(** What the stages of a mount leave of the superblock as it was made
    ready: the fields the VFS reads but the ACL flag, and the option
    bits as parsed. *)
Lemma fill_super_success_frame (st : state) (data : option string) :
  let r := erofs_fill_super env crc32c st data in
  fst r = 0 ->
  exists s1 s3,
    erofs_parse_options env (fill_super_ready st) data = (0, s1) /\
    fill_super_finished env s3 r /\
    sb_vfs (sb s3) = sb_vfs (sb (fill_super_ready st)) /\
    mount_opt (EROFS_SB s3) = mount_opt (EROFS_SB s1) /\
    mount_opt (EROFS_SB (snd r)) = mount_opt (EROFS_SB s1).
Proof.
  intros r Hok. subst r.
  destruct (fill_super_success_chain st data Hok)
    as (_ & s1 & s2 & s3 & Hparse & Hrafs & Hread & Hfin).
  exists s1, s3. split; [exact Hparse |]. split; [exact Hfin |].
  pose proof (parse_options_frame env (fill_super_ready st) data) as Hp.
  pose proof (rafs_v6_fill_super_frame env s1) as Hr.
  pose proof (read_superblock_frame env crc32c s2) as Hs.
  cbv zeta in Hp, Hr, Hs. rewrite Hparse in Hp. rewrite Hrafs in Hr.
  rewrite Hread in Hs. cbn [fst snd] in Hp, Hr, Hs.
  destruct Hp as (_ & Hv1 & _).
  destruct Hr as (evs2 & _ & _ & Hv2 & _ & _ & Hm2 & _).
  destruct Hs as (evs3 & _ & Hv3 & Hm3 & _).
  destruct Hfin as (_ & Hsbi & _).
  split; [congruence |]. split; [congruence |].
  specialize (Hsbi false). apply (f_equal mount_opt) in Hsbi.
  cbn [mount_opt set_managed_cache] in Hsbi. congruence.
Qed.

Lemma land_lor_lor_same_r (s r n : Z) : Z.land (Z.lor s (Z.lor r n)) n = n.
Proof.
  apply Z.bits_inj'. intros i Hi.
  rewrite Z.land_spec, !Z.lor_spec.
  destruct (Z.testbit s i), (Z.testbit r i), (Z.testbit n i); reflexivity.
Qed.

Lemma acl_flag_assigned (flags : Z) (b : bool) :
  SB_POSIXACL <> 0 ->
  (Z.land (if b then Z.lor flags SB_POSIXACL else Z.ldiff flags SB_POSIXACL)
     SB_POSIXACL =? 0) = negb b.
Proof.
  intros Hne. destruct b; cbn [negb].
  - rewrite land_lor_same. apply Z.eqb_neq. exact Hne.
  - rewrite Z.land_ldiff. reflexivity.
Qed.

(** X11.  A mount with an option that is not recognised, or that lacks
    its value, fails before the disk is read and before anything is
    opened: [erofs_fill_super] returns [-EINVAL] (or [-ENOMEM], should
    memory run out first), having made no call but allocations and the
    setting of the block size. *)
Theorem fill_super_unknown_option (st : state) (o p : string) :
  In p (strsep_commas o) ->
  streq p EmptyString = false ->
  fst (match_token p erofs_tokens) = Opt_err ->
  let r := erofs_fill_super env crc32c st (Some o) in
  (fst r = Z.neg EINVAL \/ fst r = Z.neg ENOMEM) /\
  exists evs,
    trace (snd r) = trace st ++ evs /\
    Forall (fun ev => is_io ev = false) evs.
Proof.
  intros Hin Hp Htok r. subst r.
  destruct (fill_super_stages env crc32c st (Some o))
    as [(_ & Hcode & Htr & _) | (_ & e1 & s1 & Hparse & H)].
  { split; assumption. }
  pose proof (parse_options_frame env (fill_super_ready st) (Some o)) as Hf.
  cbv zeta in Hf. rewrite Hparse in Hf. cbn [fst snd] in Hf.
  destruct Hf as ((evs & Ht & Hall) & _ & _ & _ & _ & _ & Hcode).
  pose proof (parse_options_loop_unknown _ p Hin Hp Htok (fill_super_ready st))
    as Hne.
  unfold erofs_parse_options in Hparse. rewrite Hparse in Hne. cbn [fst] in Hne.
  destruct H as [(_ & ->) | (He1 & _)]; [| contradiction].
  cbn [fst snd]. split; [destruct Hcode as [H0 | H1]; [contradiction | exact H1] |].
  destruct (fill_super_ready_spec st) as (Hrt & _). cbv zeta in Hrt.
  rewrite Ht, Hrt, <- app_assoc. eexists. split; [reflexivity |].
  apply Forall_app. split; [| apply allocs_no_io; exact Hall].
  destruct (s_bdev (sb st)); repeat constructor.
Qed.

(** X12.  What a mount that succeeds leaves in the superblock: the
    EROFS magic number, the block size and its logarithm, the device it
    was given, the read-only and no-atime flags, the root dentry of the
    inode whose nid the on-disk superblock names, which was read and is
    a directory, and, in a kernel with compression, a managed cache. *)
Theorem fill_super_mounted (st : state) (data : option string) :
  Z.land SB_RDONLY SB_POSIXACL = 0 ->
  Z.land SB_NOATIME SB_POSIXACL = 0 ->
  let r := erofs_fill_super env crc32c st data in
  fst r = 0 ->
  let s := sb (snd r) in
  let nid := root_nid (EROFS_SB (snd r)) in
  s_magic s = EROFS_SUPER_MAGIC_V1 /\
  s_blocksize s = EROFS_BLKSIZ /\
  s_blocksize_bits s = LOG_BLOCK_SIZE /\
  s_bdev s = s_bdev (sb st) /\
  Z.land (s_flags s) SB_RDONLY = SB_RDONLY /\
  Z.land (s_flags s) SB_NOATIME = SB_NOATIME /\
  s_root s = Some nid /\
  (exists tr evs i_mode,
     trace (snd r) = tr ++ EvIget nid :: evs /\
     erofs_iget env tr nid = Ok i_mode /\
     S_ISDIR i_mode = true) /\
  (CONFIG_EROFS_FS_ZIP = true -> managed_cache (EROFS_SB (snd r)) = true).
Proof.
  intros Hd1 Hd2 r Hok s nid. subst s nid.
  destruct (fill_super_success_frame st data Hok)
    as (s1 & s3 & _ & Hfin & Hvfs & _).
  fold r in Hfin.
  destruct Hfin as ((evs & Htr & _) & Hsbi & Hmagic & Hbdev & Hbs & Hbits & _
                    & Hflags & _ & Hroot & _).
  destruct (Hroot Hok) as (Hr & (i_mode & Hig & Hdir) & Hzip).
  destruct (fill_super_ready_spec st)
    as (_ & Rm & Rb & Rbs & Rbits & Rfl & _).
  cbv zeta in Rm, Rb, Rbs, Rbits, Rfl.
  unfold sb_vfs in Hvfs. injection Hvfs as Vm Vb Vbs Vbits Vfl _.
  assert (Hnid : root_nid (EROFS_SB (snd r)) = root_nid (EROFS_SB s3)).
  { specialize (Hsbi false). apply (f_equal root_nid) in Hsbi.
    exact Hsbi. }
  rewrite Hnid.
  repeat (split; [congruence |]).
  assert (Hf : forall bit, Z.land bit SB_POSIXACL = 0 ->
                 Z.land (s_flags (sb (snd r))) bit =
                 Z.land (Z.lor (s_flags (sb st)) (Z.lor SB_RDONLY SB_NOATIME))
                   bit).
  { intros bit Hbit. rewrite Hflags, Vfl, Rfl.
    destruct (test_opt _ _);
      [apply land_lor_disjoint | apply land_ldiff_disjoint]; exact Hbit. }
  split; [rewrite (Hf _ Hd1); apply land_lor_lor_same |].
  split; [rewrite (Hf _ Hd2); apply land_lor_lor_same_r |].
  split; [exact Hr |].
  split; [| exact Hzip].
  exists (trace s3), evs, i_mode. repeat split; assumption.
Qed.

Lemma remount_acl_flag (st : state) (flags : Z) (data : option string) :
  SB_POSIXACL <> 0 ->
  (Z.land (s_flags (sb st)) SB_POSIXACL =? 0) =
    negb (test_opt (EROFS_SB st) EROFS_MOUNT_POSIX_ACL) ->
  let st' := snd (fst (erofs_remount env st flags data)) in
  (Z.land (s_flags (sb st')) SB_POSIXACL =? 0) =
    negb (test_opt (EROFS_SB st') EROFS_MOUNT_POSIX_ACL).
Proof.
  intros Hne Hsync st'. subst st'. unfold erofs_remount. cbv zeta.
  pose proof (parse_options_frame env st data) as Hp. cbv zeta in Hp.
  destruct (erofs_parse_options env st data) as [err st1].
  cbn [fst snd] in Hp. destruct Hp as (_ & Hv & _).
  unfold sb_vfs in Hv. injection Hv as _ _ _ _ Hfl _.
  destruct (err =? 0); cbn [negb fst snd].
  - destruct st1 as [tr1 [m b bs bb fl u r sbi]].
    unfold EROFS_SB, upd_sb in *. cbn [sb s_fs_info s_flags] in *.
    destruct (test_opt sbi EROFS_MOUNT_POSIX_ACL) eqn:Hopt;
      cbn [sb s_fs_info s_flags set_s_flags]; rewrite Hopt; cbn [negb].
    + rewrite land_lor_same. apply Z.eqb_neq. exact Hne.
    + rewrite Z.land_ldiff. reflexivity.
  - destruct st1 as [tr1 [m b bs bb fl u r sbi]].
    unfold test_opt, EROFS_SB, upd_sbi, upd_sb in *.
    cbn [sb s_fs_info s_flags set_s_fs_info mount_opt set_mount_opt] in *.
    rewrite Hfl. exact Hsync.
Qed.

(** X13.  The ACL flag of the superblock follows the [acl] option: after
    a mount that succeeded and any series of remounts, failed ones
    included, [SB_POSIXACL] is set in [s_flags] exactly when the
    [POSIX_ACL] option bit is set in the mount instance. *)
Theorem acl_flag_follows_option (st : state) (data : option string)
    (reqs : list (Z * option string)) :
  SB_POSIXACL <> 0 ->
  fst (erofs_fill_super env crc32c st data) = 0 ->
  let st' :=
    remount_all env (snd (erofs_fill_super env crc32c st data)) reqs in
  (Z.land (s_flags (sb st')) SB_POSIXACL =? 0) =
    negb (test_opt (EROFS_SB st') EROFS_MOUNT_POSIX_ACL).
Proof.
  intros Hne Hok st'. subst st'.
  assert (Hmount :
    (Z.land (s_flags (sb (snd (erofs_fill_super env crc32c st data))))
       SB_POSIXACL =? 0) =
    negb (test_opt (EROFS_SB (snd (erofs_fill_super env crc32c st data)))
            EROFS_MOUNT_POSIX_ACL)).
  { destruct (fill_super_success_frame st data Hok)
      as (s1 & s3 & _ & Hfin & _ & Hm3 & Hmr).
    destruct Hfin as (_ & _ & _ & _ & _ & _ & _ & Hflags & _).
    rewrite Hflags. unfold test_opt at 2. rewrite Hmr, <- Hm3.
    fold (test_opt (EROFS_SB s3) EROFS_MOUNT_POSIX_ACL).
    apply acl_flag_assigned. exact Hne. }
  revert Hmount. generalize (snd (erofs_fill_super env crc32c st data)).
  induction reqs as [| [flags o] reqs IH]; intros s Hs; [exact Hs |].
  cbn [remount_all]. apply IH. apply remount_acl_flag; assumption.
Qed.

End Mounting.

Lemma fill_super_unknown_option_witness :
  let r := @erofs_fill_super linux_abi kconfig_all (env_ok no_disk) crc32c_le
             st_bdev (Some "noacl,cache_strategy,device=/dev/vdb"%string) in
  (fst r = Z.neg EINVAL \/ fst r = Z.neg ENOMEM) /\
  exists evs,
    trace (snd r) = trace st_bdev ++ evs /\
    Forall (fun ev => is_io ev = false) evs.
Proof.
  apply (@fill_super_unknown_option linux_abi kconfig_all (env_ok no_disk)
           crc32c_le st_bdev "noacl,cache_strategy,device=/dev/vdb"
           "cache_strategy").
  - vm_compute. auto.
  - reflexivity.
  - reflexivity.
Defined.

Lemma fill_super_mounted_witness :
  let r := @erofs_fill_super linux_abi kconfig_all
             (serving (whole_disk [img_two])) crc32c_le st_bdev
             (Some "device=/dev/vdb,device=/dev/vdc"%string) in
  fst r = 0 /\
  s_magic (sb (snd r)) = 0xE0F5E1E2 /\
  s_blocksize (sb (snd r)) = 4096 /\
  s_bdev (sb (snd r)) = Some O /\
  s_root (sb (snd r)) = Some (root_nid (EROFS_SB (snd r))) /\
  managed_cache (EROFS_SB (snd r)) = true.
Proof.
  intros r.
  assert (Hok : fst r = 0) by (vm_compute; reflexivity).
  destruct (@fill_super_mounted linux_abi kconfig_all
              (serving (whole_disk [img_two])) crc32c_le st_bdev
              (Some "device=/dev/vdb,device=/dev/vdc"%string)
              eq_refl eq_refl Hok)
    as (Hm & Hbs & _ & Hb & _ & _ & Hr & _ & Hz).
  fold r in Hm, Hbs, Hb, Hr, Hz.
  split; [exact Hok |]. split; [exact Hm |]. split; [exact Hbs |].
  split; [exact Hb |]. split; [exact Hr |]. apply Hz. reflexivity.
Defined.

Lemma acl_flag_follows_option_witness :
  let st' :=
    @remount_all linux_abi kconfig_all (serving (whole_disk [img_two]))
      (snd (@erofs_fill_super linux_abi kconfig_all
              (serving (whole_disk [img_two])) crc32c_le st_bdev
              (Some "noacl,device=/dev/vdb,device=/dev/vdc"%string)))
      [(0, Some "acl"%string); (0, Some "noacl,bogus"%string)] in
  test_opt (EROFS_SB st') (@EROFS_MOUNT_POSIX_ACL linux_abi) = true /\
  Z.land (s_flags (sb st')) (@SB_POSIXACL linux_abi) <> 0.
Proof.
  intros st'.
  pose proof (@acl_flag_follows_option linux_abi kconfig_all
                (serving (whole_disk [img_two])) crc32c_le st_bdev
                (Some "noacl,device=/dev/vdb,device=/dev/vdc"%string)
                [(0, Some "acl"%string); (0, Some "noacl,bogus"%string)]
                ltac:(discriminate) ltac:(vm_compute; reflexivity)) as H.
  cbv zeta in H. fold st' in H.
  assert (Ht : test_opt (EROFS_SB st') (@EROFS_MOUNT_POSIX_ACL linux_abi) = true)
    by (vm_compute; reflexivity).
  split; [exact Ht |]. rewrite Ht in H. apply Z.eqb_neq. exact H.
Defined.

Section Defaults.
Context {A : erofs_abi} {K : kconfig}.
Variable env : environment.
Variable crc32c : Z -> list byte -> Z.

(** What a mount leaves of the options as parsed. *)
Lemma fill_super_success_options (st : state) (data : option string) :
  let r := erofs_fill_super env crc32c st data in
  fst r = 0 ->
  exists s1,
    erofs_parse_options env (fill_super_ready st) data = (0, s1) /\
    mount_opt (EROFS_SB (snd r)) = mount_opt (EROFS_SB s1) /\
    cache_strategy (EROFS_SB (snd r)) = cache_strategy (EROFS_SB s1).
Proof.
  intros r Hok. subst r.
  destruct (fill_super_success_chain env crc32c st data Hok)
    as (_ & s1 & s2 & s3 & Hparse & Hrafs & Hread & Hfin).
  exists s1. split; [exact Hparse |].
  pose proof (rafs_v6_fill_super_frame env s1) as Hr.
  pose proof (read_superblock_frame env crc32c s2) as Hs.
  cbv zeta in Hr, Hs. rewrite Hrafs in Hr. rewrite Hread in Hs.
  cbn [fst snd] in Hr, Hs.
  destruct Hr as (evs2 & _ & _ & _ & _ & _ & Hm2 & Hc2 & _).
  destruct Hs as (evs3 & _ & _ & Hm3 & Hc3 & _).
  destruct Hfin as (_ & Hsbi & _).
  specialize (Hsbi false).
  pose proof (f_equal mount_opt Hsbi) as E1.
  pose proof (f_equal cache_strategy Hsbi) as E2.
  cbn [mount_opt cache_strategy set_managed_cache] in E1, E2.
  split; congruence.
Qed.

(** X19.  A volume mounted without options shows the defaults: after
    [erofs_fill_super] succeeded with no option string,
    [erofs_show_options] prints [user_xattr], [acl] and
    [cache_strategy=readaround], each if the kernel is configured with
    the feature (the two toggle bits being different and not zero). *)
Theorem default_options_shown (st : state) :
  Z.land EROFS_MOUNT_XATTR_USER EROFS_MOUNT_POSIX_ACL = 0 ->
  EROFS_MOUNT_XATTR_USER <> 0 ->
  EROFS_MOUNT_POSIX_ACL <> 0 ->
  let r := erofs_fill_super env crc32c st None in
  fst r = 0 ->
  snd (erofs_show_options EmptyString (snd r)) =
  ((if CONFIG_EROFS_FS_XATTR then ",user_xattr" else EmptyString) ++
   (if CONFIG_EROFS_FS_POSIX_ACL then ",acl" else EmptyString) ++
   (if CONFIG_EROFS_FS_ZIP then ",cache_strategy=readaround"
    else EmptyString))%string.
Proof.
  intros Hd Hx Ha r Hok.
  destruct (fill_super_success_options st None Hok) as (s1 & Hparse & Hm & Hc).
  fold r in Hm, Hc. cbn [erofs_parse_options] in Hparse.
  injection Hparse as <-.
  unfold erofs_show_options, test_opt. cbv zeta. rewrite Hm, Hc.
  assert (Hxb : forall s, (Z.land (Z.lor s EROFS_MOUNT_XATTR_USER)
                             EROFS_MOUNT_XATTR_USER =? 0) = false)
    by (intros s; rewrite land_lor_same; apply Z.eqb_neq; exact Hx).
  assert (Hab : forall s, (Z.land (Z.lor s EROFS_MOUNT_POSIX_ACL)
                             EROFS_MOUNT_POSIX_ACL =? 0) = false)
    by (intros s; rewrite land_lor_same; apply Z.eqb_neq; exact Ha).
  destruct st as [tr0 [m b bs bb fl u rt sbi]].
  unfold fill_super_ready, erofs_default_options, set_opt, seq_puts.
  destruct b, CONFIG_EROFS_FS_XATTR, CONFIG_EROFS_FS_POSIX_ACL,
    CONFIG_EROFS_FS_ZIP;
    cbn [EROFS_SB sb s_fs_info upd_sb upd_sbi log set_s_fs_info set_s_flags
         set_s_magic set_s_blocksize s_bdev mount_opt cache_strategy
         set_mount_opt set_cache_strategy set_max_sync_decompress_pages
         sbi_zero];
    rewrite ?(land_lor_disjoint _ EROFS_MOUNT_POSIX_ACL
                EROFS_MOUNT_XATTR_USER Hd);
    rewrite ?Hxb, ?Hab; reflexivity.
Qed.

End Defaults.

Lemma default_options_shown_witness :
  let r := @erofs_fill_super linux_abi kconfig_all
             (env_ok (one_block_disk (sb_image 0 0 100 0 0 0))) crc32c_le
             st_bdev None in
  fst r = 0 /\
  snd (@erofs_show_options linux_abi kconfig_all EmptyString (snd r)) =
  ",user_xattr,acl,cache_strategy=readaround"%string.
Proof.
  intros r.
  assert (Hok : fst r = 0) by (vm_compute; reflexivity).
  split; [exact Hok |].
  apply (@default_options_shown linux_abi kconfig_all
           (env_ok (one_block_disk (sb_image 0 0 100 0 0 0))) crc32c_le
           st_bdev eq_refl ltac:(discriminate) ltac:(discriminate) Hok).
Defined.
(* ------------------------------------------------------------------ *)
(** ** The block total and the statistics of a mounted volume *)

Lemma to_int_mod (w : Z) : 0 <= w < 2 ^ 32 -> to_int w mod 2 ^ 32 = w.
Proof.
  intros Hw. unfold to_int.
  rewrite Zminus_mod, Z.mod_mod by lia.
  rewrite <- Zminus_mod.
  replace (w + 2 ^ 31 - 2 ^ 31) with w by lia.
  apply Z.mod_small. exact Hw.
Qed.

Lemma fsid_recomposes (id : Z) :
  0 <= id < 2 ^ 64 ->
  to_int (wrap32 id) mod 2 ^ 32 +
  2 ^ 32 * (to_int (wrap32 (Z.shiftr id 32)) mod 2 ^ 32) = id.
Proof.
  intros Hid. unfold wrap32.
  rewrite !to_int_mod by (apply Z.mod_pos_bound; lia).
  rewrite Z.shiftr_div_pow2 by lia.
  rewrite (Z.mod_small (id / 2 ^ 32)).
  - pose proof (Z.div_mod id (2 ^ 32)). lia.
  - split; [apply Z.div_pos; lia |].
    apply Z.div_lt_upper_bound; lia.
Qed.

Section BlockTotal.
Context {A : erofs_abi} {K : kconfig}.
Variable env : environment.

Lemma init_devices_total_range (st : state) (dsb : erofs_super_block) :
  0 <= primarydevice_blocks (EROFS_SB st) < 2 ^ 64 ->
  0 <= total_blocks (EROFS_SB (snd (erofs_init_devices env st dsb))) < 2 ^ 64.
Proof.
  intros Hp.
  unfold erofs_init_devices. cbv zeta.
  rewrite with_devices_total.
  match goal with |- context [if ?c then (Z.neg EINVAL, _) else _] =>
    destruct c; [cbn [snd]; wd; exact Hp |]
  end.
  match goal with |- context [if ?c then (0, _) else _] =>
    destruct c; [cbn [snd]; wd; exact Hp |]
  end.
  rewrite wd_set_device_id_mask. wd.
  match goal with
  | |- context [init_devices_each env ?t 0 (with_devices ?s0 ?tr ?t ?e ?tot) ?p] =>
      destruct (init_devices_each_shape env s0 t [] tr e tot p)
        as (ex & evs1 & new1 & rest1 & pos1 & Hrun1 & _)
  end.
  cbn [app List.length] in Hrun1. rewrite Hrun1.
  assert (Hfirst :
    0 <= accum_blocks (primarydevice_blocks (EROFS_SB st)) new1 < 2 ^ 64)
    by (apply accum_blocks_range; exact Hp).
  assert (Hblobs : forall n ondisk s0 tr e,
    let r := init_devices_blobs env n ondisk
               (with_devices s0 tr (new1 ++ rest1) e
                  (accum_blocks (primarydevice_blocks (EROFS_SB st)) new1))
               pos1 in
    0 <= total_blocks (EROFS_SB (snd r)) < 2 ^ 64).
  { intros n ondisk s0 tr e r. subst r.
    destruct (init_devices_blobs_total env s0 n ondisk (new1 ++ rest1) tr e
                (accum_blocks (primarydevice_blocks (EROFS_SB st)) new1) pos1)
      as (err & tr2 & new2 & rest2 & e2 & Hrun2 & _).
    rewrite Hrun2. cbn [snd]. wd.
    apply accum_blocks_range. exact Hfirst. }
  destruct ex; cbn [snd]; wd; first [apply Hblobs | exact Hfirst].
Qed.

Lemma init_devices_primary (st : state) (dsb : erofs_super_block) :
  let i' := EROFS_SB (snd (erofs_init_devices env st dsb)) in
  primarydevice_blocks i' = primarydevice_blocks (EROFS_SB st) /\
  inos i' = inos (EROFS_SB st).
Proof.
  cbv zeta.
  destruct (init_devices_frame env st dsb)
    as (m & evs & t' & e' & tot' & -> & _).
  pose proof (with_devices_mask_sbi st m (trace st ++ evs) t' e' tot') as Hi.
  cbv zeta in Hi. tauto.
Qed.

(** X5.  The block total of the mount instance, whatever
    [erofs_init_devices] returns and however the kernel behaves: with
    descriptors that carry no block count yet, as the option parser
    makes them, and a primary block count that is a [u64],
    [total_blocks] is the primary block count plus the block counts of
    the descriptors, in 64-bit arithmetic. *)
Theorem init_devices_block_total (st : state) (dsb : erofs_super_block) :
  0 <= primarydevice_blocks (EROFS_SB st) < 2 ^ 64 ->
  Forall (fun d => dif_blocks d = 0) (tree (devs (EROFS_SB st))) ->
  let sbi' := EROFS_SB (snd (erofs_init_devices env st dsb)) in
  total_blocks sbi' =
  wrap64 (primarydevice_blocks sbi' + sum_blocks (tree (devs sbi'))).
Proof.
  intros Hp Hz sbi'. subst sbi'.
  destruct (init_devices_primary st dsb) as (-> & _).
  rewrite <- (init_devices_total_blocks env st dsb Hz).
  unfold wrap64. symmetry. apply Z.mod_small.
  apply init_devices_total_range. exact Hp.
Qed.

End BlockTotal.

Section Statistics.
Context {A : erofs_abi} {K : kconfig}.
Variable env : environment.
Variable crc32c : Z -> list byte -> Z.
Variable EROFS_NAME_LEN : Z.
Variable bd_dev : handle -> Z.
Variable huge_encode_dev : Z -> Z.

Lemma fill_super_counts (st : state) (data : option string) :
  let r := erofs_fill_super env crc32c st data in
  fst r = 0 ->
  let sbi := EROFS_SB (snd r) in
  total_blocks sbi =
    wrap64 (primarydevice_blocks sbi + sum_blocks (tree (devs sbi))) /\
  0 <= primarydevice_blocks sbi < 2 ^ 32 /\
  0 <= inos sbi < 2 ^ 64.
Proof.
  intros r Hok sbi. subst sbi r.
  destruct (fill_super_success_chain env crc32c st data Hok)
    as (_ & s1 & s2 & s3 & Hparse & Hrafs & Hread & Hfin).
  (* the registry after parsing holds descriptors without block counts *)
  assert (Hz1 : Forall (fun d => dif_blocks d = 0) (tree (devs (EROFS_SB s1)))).
  { destruct (fill_super_ready_spec st) as (_ & _ & _ & _ & _ & _ & _ & Hd & _).
    cbv zeta in Hd.
    destruct data as [o |]; cbn [erofs_parse_options] in Hparse.
    - destruct (parse_options_loop_devices env (strsep_commas o)
                  (fill_super_ready st)) as (new & Ht & Hf & _).
      rewrite Hparse in Ht. cbn [snd] in Ht. rewrite Ht, Hd. cbn [tree app].
      eapply Forall_impl; [| exact Hf]. intros d Hfresh. apply Hfresh.
    - injection Hparse as <-. rewrite Hd. constructor. }
  pose proof (rafs_v6_fill_super_frame env s1) as Hr. cbv zeta in Hr.
  rewrite Hrafs in Hr. cbn [fst snd] in Hr.
  destruct Hr as (evs2 & _ & _ & _ & _ & Hd2 & _).
  destruct (read_superblock_reaches env crc32c s2)
    as [(e & _ & Hr) | (blk & _ & H)].
  { rewrite Hread in Hr. discriminate. }
  cbv zeta in H. rewrite Hread in H. cbn [fst snd] in H.
  destruct H as [(tr & Hne & _) | (st1 & tr & Hinit & _ & _ & Hsb & _)];
    [contradiction |].
  set (dsb := dsb_at (skipn EROFS_SUPER_OFFSET blk)) in *.
  assert (Hd1 : devs (EROFS_SB st1) = devs (EROFS_SB s2))
    by (unfold EROFS_SB at 1; rewrite Hsb; reflexivity).
  assert (Hp1 : primarydevice_blocks (EROFS_SB st1) = dsb_blocks dsb)
    by (unfold EROFS_SB; rewrite Hsb; reflexivity).
  assert (Hi1 : inos (EROFS_SB st1) = dsb_inos dsb)
    by (unfold EROFS_SB; rewrite Hsb; reflexivity).
  assert (Hrange : 0 <= dsb_blocks dsb < 2 ^ 32) by apply get_le32_range.
  assert (Hirange : 0 <= dsb_inos dsb < 2 ^ 64) by apply get_le64_range.
  assert (Hz : Forall (fun d => dif_blocks d = 0)
                 (tree (devs (EROFS_SB st1))))
    by (rewrite Hd1, Hd2; exact Hz1).
  pose proof (init_devices_total_blocks env st1 dsb Hz) as Htot.
  pose proof (init_devices_total_range env st1 dsb) as Htr.
  destruct (init_devices_primary env st1 dsb) as (Hp3 & Hi3).
  cbv zeta in Htot. rewrite <- Hinit in Htot, Htr, Hp3, Hi3.
  cbn [snd] in Htot, Htr, Hp3, Hi3.
  destruct Hfin as (_ & Hsbi & _).
  specialize (Hsbi false).
  pose proof (f_equal total_blocks Hsbi) as E1.
  pose proof (f_equal primarydevice_blocks Hsbi) as E2.
  pose proof (f_equal inos Hsbi) as E3.
  pose proof (f_equal devs Hsbi) as E4.
  cbn [total_blocks primarydevice_blocks inos devs set_managed_cache]
    in E1, E2, E3, E4.
  rewrite E1, E2, E3, E4, Hp3, Hi3, Hp1, Hi1.
  split; [| split; [exact Hrange | exact Hirange]].
  rewrite <- Hp1, <- Htot. unfold wrap64. symmetry. apply Z.mod_small.
  apply Htr. rewrite Hp1. lia.
Qed.

(** X14.  What [erofs_statfs] reports of a volume that was mounted: the
    EROFS magic number; as block count the primary device's blocks plus
    those of the extra devices, in 64-bit arithmetic; no free block; a
    number of free inodes that falls short of [f_files] by exactly the
    inode count of the superblock; and a file-system id whose two words
    are the halves of the encoded device number, 0 for a mount without
    block device. *)
Theorem statfs_after_mount (st : state) (data : option string) :
  (forall bdev, s_bdev (sb st) = Some bdev ->
                0 <= huge_encode_dev (bd_dev bdev) < 2 ^ 64) ->
  let r := erofs_fill_super env crc32c st data in
  fst r = 0 ->
  let sbi := EROFS_SB (snd r) in
  let out := erofs_statfs EROFS_NAME_LEN bd_dev huge_encode_dev
               (sb (snd r)) in
  let buf := snd out in
  fst out = 0 /\
  f_type buf = EROFS_SUPER_MAGIC_V1 /\
  f_blocks buf =
    wrap64 (primarydevice_blocks sbi + sum_blocks (tree (devs sbi))) /\
  f_bfree buf = 0 /\ f_bavail buf = 0 /\
  f_files buf - f_ffree buf = inos sbi /\
  fst (f_fsid buf) mod 2 ^ 32 + 2 ^ 32 * (snd (f_fsid buf) mod 2 ^ 32) =
    match s_bdev (sb st) with
    | Some bdev => huge_encode_dev (bd_dev bdev)
    | None => 0
    end.
Proof.
  intros Hid r Hok sbi out buf. subst buf out sbi.
  destruct (fill_super_counts st data Hok) as (Htot & _ & Hinos).
  destruct (fill_super_success_frame env crc32c st data Hok)
    as (s1 & s3 & _ & Hfin & Hvfs & _).
  fold r in Htot, Hinos, Hfin.
  destruct Hfin as (_ & _ & Hmagic & Hbdev & _).
  destruct (fill_super_ready_spec st) as (_ & Rm & Rb & _).
  cbv zeta in Rm, Rb.
  unfold sb_vfs in Hvfs. injection Hvfs as Vm Vb _ _ _ _.
  unfold erofs_statfs. cbn [fst snd f_type f_blocks f_bfree f_bavail f_files
                            f_ffree f_fsid].
  fold (EROFS_SB (snd r)).
  split; [reflexivity |]. split; [congruence |]. split; [exact Htot |].
  split; [reflexivity |]. split; [reflexivity |].
  split.
  - unfold wrap64, ULLONG_MAX in *. rewrite Z.mod_small; lia.
  - rewrite Hbdev, Vb, Rb. apply fsid_recomposes.
    destruct (s_bdev (sb st)); [apply Hid; reflexivity | lia].
Qed.

End Statistics.

Lemma init_devices_block_total_witness :
  let disk := whole_disk [img_two] in
  let st := resolving (serving disk) "device=/dev/vdb,device=/dev/vdc"
              (dsb_of img_two) in
  let sbi' := EROFS_SB (snd (@erofs_init_devices linux_abi (serving disk) st
                               (dsb_of img_two))) in
  map dif_blocks (tree (devs sbi')) = [50; 70] /\
  total_blocks sbi' = primarydevice_blocks sbi' + 120.
Proof.
  intros disk st sbi'.
  pose proof (@init_devices_block_total linux_abi (serving disk) st
                (dsb_of img_two) ltac:(vm_compute; split; congruence)
                ltac:(repeat constructor)) as H.
  cbv zeta in H. fold sbi' in H.
  split; [vm_compute; reflexivity |].
  rewrite H. vm_compute. reflexivity.
Defined.

Lemma statfs_after_mount_witness :
  let r := @erofs_fill_super linux_abi kconfig_all
             (serving (whole_disk [img_two])) crc32c_le st_bdev
             (Some "device=/dev/vdb,device=/dev/vdc"%string) in
  let buf := snd (@erofs_statfs linux_abi 255
                    (fun bdev => 0x800010 + Z.of_nat bdev) (fun dev => dev)
                    (sb (snd r))) in
  f_blocks buf = 220 /\
  f_files buf - f_ffree buf = inos (EROFS_SB (snd r)) /\
  f_fsid buf = (0x800010, 0).
Proof.
  intros r buf.
  destruct (@statfs_after_mount linux_abi kconfig_all
              (serving (whole_disk [img_two])) crc32c_le 255
              (fun bdev => 0x800010 + Z.of_nat bdev) (fun dev => dev) st_bdev
              (Some "device=/dev/vdb,device=/dev/vdc"%string)
              ltac:(intros bdev [= <-]; vm_compute; split; congruence)
              ltac:(vm_compute; reflexivity))
    as (_ & _ & Hb & _ & _ & Hi & _).
  fold r in Hb, Hi. fold buf in Hb, Hi.
  split; [rewrite Hb; vm_compute; reflexivity |].
  split; [exact Hi | vm_compute; reflexivity].
Defined.
(* ------------------------------------------------------------------ *)
(** ** Teardown *)

Lemma idr_for_each_release (t : list erofs_device_info) (id : nat) :
  idr_for_each erofs_release_device_info id t = (0, held_devices t).
Proof.
  revert id. induction t as [| d t IH]; intros id; [reflexivity |].
  cbn [idr_for_each]. unfold erofs_release_device_info at 1.
  cbn [Z.eqb negb]. rewrite IH. reflexivity.
Qed.

Lemma kill_sb_releases (st : state) :
  snd (erofs_kill_sb (sb st) (fs_info_of st)) =
  held_devices (tree (devs (EROFS_SB st))) ++
  match bootstrap (EROFS_SB st) with
  | Some f => [filp_close f]
  | None => []
  end ++
  match blob_dir_path (EROFS_SB st) with
  | Some _ =>
      match blob_dir (EROFS_SB st) with
      | Some d => [path_put d]
      | None => []
      end
  | None => []
  end.
Proof.
  unfold erofs_kill_sb, fs_info_of, erofs_free_dev_context.
  rewrite idr_for_each_release. cbn [snd].
  destruct (bootstrap (EROFS_SB st)), (blob_dir_path (EROFS_SB st)),
    (blob_dir (EROFS_SB st)); cbn [snd app];
    rewrite <- ?app_assoc, ?app_nil_r; reflexivity.
Qed.

Lemma held_devices_fresh (l : list erofs_device_info) :
  Forall dif_fresh l -> held_devices l = [].
Proof.
  induction 1 as [| d l (Hb & Hf & _) _ IH]; [reflexivity |].
  unfold held_devices in *. cbn [flat_map]. rewrite IH.
  unfold erofs_release_device_info. rewrite Hb, Hf. reflexivity.
Qed.

Section Teardown.
Context {A : erofs_abi} {K : kconfig}.
Variable env : environment.
Variable crc32c : Z -> list byte -> Z.

(** The mount instance after the options are parsed, as far as
    references go: none is held. *)
Lemma parse_options_holds_nothing (st : state) (data : option string) :
  let s0 := fill_super_ready st in
  let s1 := snd (erofs_parse_options env s0 data) in
  (exists evs, trace s1 = trace st ++ evs /\ owed env (trace st) evs = []) /\
  held_devices (tree (devs (EROFS_SB s1))) = [] /\
  bootstrap (EROFS_SB s1) = None /\
  blob_dir (EROFS_SB s1) = None /\
  s_bdev (sb s1) = s_bdev (sb st).
Proof.
  cbv zeta.
  destruct (fill_super_ready_spec st)
    as (Rt & _ & Rb & _ & _ & _ & _ & Rd & Rbo & Rbd & _).
  cbv zeta in Rt, Rb, Rd, Rbo, Rbd.
  pose proof (parse_options_frame env (fill_super_ready st) data) as Hp.
  cbv zeta in Hp.
  destruct Hp as ((evs & Ht & Hall) & Hv & _ & Hbo & Hbd & _).
  unfold sb_vfs in Hv. injection Hv as _ Vb _ _ _ _.
  split.
  { eexists. split; [rewrite Ht, Rt, <- app_assoc; reflexivity |].
    apply owed_quiet. apply Forall_app. split; [| apply allocs_quiet, Hall].
    destruct (s_bdev (sb st)); repeat constructor. }
  split; [| split; [congruence | split; congruence]].
  apply held_devices_fresh.
  destruct data as [o |]; cbn [erofs_parse_options snd].
  - destruct (parse_options_loop_devices env (strsep_commas o)
                (fill_super_ready st)) as (new & Hnew & Hf & _).
    rewrite Hnew, Rd. exact Hf.
  - rewrite Rd. constructor.
Qed.

(** X15.  Nothing a mount attempt opens is lost.  Once the mount
    instance and its device context are allocated, then however
    [erofs_fill_super] ends, with success or with an error at any point,
    [erofs_kill_sb] closes each file, block device and directory that
    was opened on the way, once, and nothing else; and it shuts the
    superblock down the way it was mounted. *)
Theorem kill_sb_releases_all (st : state) (data : option string) :
  fill_super_can_start env st ->
  let r := erofs_fill_super env crc32c st data in
  let k := erofs_kill_sb (sb (snd r)) (fs_info_of (snd r)) in
  (exists evs,
     trace (snd r) = trace st ++ evs /\
     Permutation (snd k) (owed env (trace st) evs)) /\
  fst k = match s_bdev (sb st) with
          | Some _ => kill_block_super
          | None => generic_shutdown_super
          end.
Proof.
  intros Hstart r k. subst k r.
  destruct (fill_super_stages env crc32c st data)
    as [(_ & _ & _ & Hno) | (_ & e1 & s1 & Hparse & H1)]; [contradiction |].
  destruct (parse_options_holds_nothing st data)
    as ((evs1 & Ht1 & Ho1) & Hh1 & Hbo1 & Hbd1 & Hb1).
  cbv zeta in Ht1, Hh1, Hbo1, Hbd1, Hb1.
  rewrite Hparse in Ht1, Hh1, Hbo1, Hbd1, Hb1.
  cbn [snd] in Ht1, Hh1, Hbo1, Hbd1, Hb1.
  assert (Hhow : forall s : state,
            s_bdev (sb s) = s_bdev (sb st) ->
            fst (erofs_kill_sb (sb s) (fs_info_of s)) =
            match s_bdev (sb st) with
            | Some _ => kill_block_super
            | None => generic_shutdown_super
            end).
  { intros s <-. unfold erofs_kill_sb, fs_info_of.
    destruct (s_bdev (sb s)); reflexivity. }
  destruct H1 as [(_ & ->) | (_ & e2 & s2 & Hrafs & H2)].
  { cbn [snd]. split; [| apply Hhow; exact Hb1].
    exists evs1. split; [exact Ht1 |].
    rewrite kill_sb_releases, Hh1, Hbo1, Hbd1, Ho1.
    destruct (blob_dir_path (EROFS_SB s1)); constructor. }
  pose proof (rafs_v6_fill_super_frame env s1) as Hr. cbv zeta in Hr.
  rewrite Hrafs in Hr. cbn [fst snd] in Hr.
  destruct Hr as (evs2 & Ht2 & _ & Hv2 & _ & Hd2 & _ & _ & _ & _ & Ho2).
  specialize (Ho2 Hbo1 Hbd1).
  unfold sb_vfs in Hv2. injection Hv2 as _ Vb2 _ _ _ _.
  assert (Hown2 : owed env (trace st) (evs1 ++ evs2) =
                  owed env (trace s1) evs2)
    by (rewrite owed_app, Ho1, <- Ht1; reflexivity).
  destruct H2 as [(_ & ->) | (_ & e3 & s3 & Hread & H3)].
  { cbn [snd]. split; [| apply Hhow; congruence].
    exists (evs1 ++ evs2).
    split; [rewrite Ht2, Ht1, <- app_assoc; reflexivity |].
    rewrite kill_sb_releases, Hd2, Hh1, Hown2, <- Ho2. cbn [app].
    apply Permutation_refl. }
  pose proof (read_superblock_frame env crc32c s2) as Hs. cbv zeta in Hs.
  rewrite Hread in Hs. cbn [fst snd] in Hs.
  destruct Hs as (evs3 & Ht3 & Hv3 & _ & _ & Hbo3 & Hbd3 & Hbp3 & _ & Ho3).
  rewrite Hd2 in Ho3. specialize (Ho3 Hh1).
  unfold sb_vfs in Hv3. injection Hv3 as _ Vb3 _ _ _ _.
  assert (Hkill3 :
    Permutation (snd (erofs_kill_sb (sb s3) (fs_info_of s3)))
      (owed env (trace st) (evs1 ++ evs2 ++ evs3))).
  { assert (Htr2 : trace st ++ evs1 ++ evs2 = trace s2)
      by (rewrite Ht2, Ht1, app_assoc; reflexivity).
    rewrite kill_sb_releases, Hbo3, Hbd3, Hbp3, Ho3.
    rewrite (app_assoc evs1 evs2 evs3), owed_app, Hown2, <- Ho2, Htr2.
    apply Permutation_app_comm. }
  destruct H3 as [(_ & ->) | (_ & Hfin)].
  { cbn [snd]. split; [| apply Hhow; congruence].
    exists (evs1 ++ evs2 ++ evs3).
    split; [rewrite Ht3, Ht2, Ht1, <- !app_assoc; reflexivity |].
    exact Hkill3. }
  destruct Hfin as ((evs4 & Ht4 & Hall4) & Hsbi & _ & Hb4 & _).
  split; [| apply Hhow; congruence].
  exists ((evs1 ++ evs2 ++ evs3) ++ EvIget (root_nid (EROFS_SB s3)) :: evs4).
  split; [rewrite Ht4, Ht3, Ht2, Ht1, <- !app_assoc; reflexivity |].
  rewrite owed_app.
  rewrite (owed_quiet env (EvIget _ :: evs4)), app_nil_r
    by (constructor; [exact I | apply allocs_quiet, Hall4]).
  rewrite kill_sb_releases.
  specialize (Hsbi false).
  pose proof (f_equal devs Hsbi) as E1.
  pose proof (f_equal bootstrap Hsbi) as E2.
  pose proof (f_equal blob_dir Hsbi) as E3.
  pose proof (f_equal blob_dir_path Hsbi) as E4.
  cbn [devs bootstrap blob_dir blob_dir_path set_managed_cache]
    in E1, E2, E3, E4.
  rewrite E1, E2, E3, E4, <- kill_sb_releases. exact Hkill3.
Qed.

End Teardown.

Lemma kill_sb_releases_all_witness :
  let env := env_opens 3 (fun b => Ok (whole_disk [img_two] b)) in
  let r := @erofs_fill_super linux_abi kconfig_all env crc32c_le st_bdev
             (Some "bootstrap_path=/b,blob_dir_path=/d"%string) in
  fst r <> 0 /\
  exists evs,
    trace (snd r) = evs /\
    Permutation (snd (erofs_kill_sb (sb (snd r)) (fs_info_of (snd r))))
      (owed env [] evs) /\
    owed env [] evs <> [].
Proof.
  intros env r.
  destruct (@kill_sb_releases_all linux_abi kconfig_all env crc32c_le st_bdev
              (Some "bootstrap_path=/b,blob_dir_path=/d"%string)
              ltac:(vm_compute; repeat split; reflexivity))
    as ((evs & Ht & Hp) & _).
  fold r in Ht, Hp. cbn [trace st_bdev app] in Ht, Hp.
  split; [vm_compute; discriminate |].
  exists evs. split; [exact Ht |]. split; [exact Hp |].
  rewrite <- Ht. vm_compute. discriminate.
Defined.
(* ------------------------------------------------------------------ *)
(** ** Module set-up *)

(** X16.  [erofs_module_init] sets up all or nothing.  However the four
    set-up calls answer, it either returns 0 with the inode cache, the
    shrinker, the compression subsystem and the file system set up, in
    this order, or it returns an error after tearing down, last first,
    what it had set up; and [erofs_module_exit] after a successful
    set-up tears everything down, last first. *)
Theorem module_init_all_or_nothing (menv : module_environment) :
  let r := erofs_module_init menv [] in
  (fst r = 0 /\
   set_up_after (snd r) [] =
     Some [Filesystem; ZipSubsystem; Shrinker; InodeCache] /\
   set_up_after (erofs_module_exit (snd r)) [] = Some []) \/
  (fst r <> 0 /\ set_up_after (snd r) [] = Some []).
Proof.
  unfold erofs_module_init, erofs_module_exit. cbv zeta. cbn [app].
  destruct (kmem_cache_create menv []); cbn [negb];
    [| right; split; [discriminate | reflexivity]].
  destruct (Z.eqb_spec (erofs_init_shrinker menv [EvSetUp InodeCache true]) 0)
    as [_ | E1]; cbn [negb]; [| right; split; [exact E1 | reflexivity]].
  destruct (Z.eqb_spec
              (z_erofs_init_zip_subsystem menv
                 [EvSetUp InodeCache true; EvSetUp Shrinker true]) 0)
    as [_ | E2]; cbn [negb]; [| right; split; [exact E2 | reflexivity]].
  destruct (Z.eqb_spec
              (register_filesystem menv
                 [EvSetUp InodeCache true; EvSetUp Shrinker true;
                  EvSetUp ZipSubsystem true]) 0)
    as [_ | E3]; cbn [negb]; [| right; split; [exact E3 | reflexivity]].
  left. repeat split.
Qed.

(* ------------------------------------------------------------------ *)
(** ** Runs of the managed cache *)

Lemma invalidatepage_partial_witness :
  @erofs_managed_cache_invalidatepage linux_abi busy_twice 0 page_cached
    0 512 = Some page_cached /\
  @erofs_managed_cache_invalidatepage linux_abi busy_twice 0 page_cached
    512 3584 = Some page_cached.
Proof.
  split.
  - apply (@invalidatepage_partial linux_abi busy_twice page_cached 0 512 0);
      [lia | lia | right; discriminate].
  - apply (@invalidatepage_partial linux_abi busy_twice page_cached 512 3584 0);
      [lia | lia | left; discriminate].
Defined.

(* ------------------------------------------------------------------ *)
(** ** Remounts through the VFS *)

Lemma write_back_keeps (s s1 f m r : Z) :
  Z.land s1 r = Z.land s r ->
  Z.land f r = r ->
  Z.land (Z.land (Z.lor (Z.ldiff s1 m) (Z.land f m)) r) (Z.land s r) =
  Z.land s r.
Proof.
  intros H1 H2. apply Z.bits_inj'. intros i Hi.
  apply (f_equal (fun z => Z.testbit z i)) in H1.
  apply (f_equal (fun z => Z.testbit z i)) in H2.
  cbv beta in H1, H2.
  rewrite (Z.land_spec s1 r), (Z.land_spec s r) in H1.
  rewrite Z.land_spec in H2.
  rewrite !Z.land_spec, Z.lor_spec, Z.ldiff_spec, Z.land_spec.
  destruct (Z.testbit s i), (Z.testbit s1 i), (Z.testbit f i),
    (Z.testbit m i), (Z.testbit r i); cbn in *; congruence.
Qed.

Lemma land_superset_nonzero (a b : Z) :
  Z.land a b = b -> (b =? 0) = false -> (a =? 0) = false.
Proof.
  intros H Hb. apply Z.eqb_neq. intros ->. rewrite Z.land_0_l in H.
  subst b. discriminate.
Qed.

Section ReconfigureRdonly.
Context {A : erofs_abi} {K : kconfig}.
Variable env : environment.
Variable crc32c : Z -> list byte -> Z.
Variable MS_RMT_MASK : Z.

(** The two ways [erofs_remount] ends. *)
Lemma remount_outcome (st : state) (flags : Z) (data : option string) :
  let r := erofs_remount env st flags data in
  (fst (fst r) = 0 /\ snd r = Z.lor flags SB_RDONLY) \/
  (fst (fst r) < 0 /\ snd r = flags /\
   s_flags (sb (snd (fst r))) = s_flags (sb st)).
Proof.
  unfold erofs_remount. cbv zeta.
  pose proof (parse_options_frame env st data) as Hp. cbv zeta in Hp.
  destruct (erofs_parse_options env st data) as [err st1].
  cbn [fst snd] in Hp. destruct Hp as (_ & Hv & _ & _ & _ & _ & Hcode).
  unfold sb_vfs in Hv. injection Hv as _ _ _ _ Hfl _.
  destruct (Z.eqb_spec err 0) as [He | He]; cbn [negb fst snd].
  - left. split; reflexivity.
  - right. split; [| split; [reflexivity | exact Hfl]].
    destruct Hcode as [H0 | [-> | ->]];
      [contradiction | apply Pos2Z.neg_is_neg | apply Pos2Z.neg_is_neg].
Qed.

(** A request that the VFS hands to [erofs_remount] leaves a read-only
    volume read-only: the bits of [SB_RDONLY] that the write-back takes
    from the flags handed back are the ones [erofs_remount] has put
    there. *)
Lemma do_remount_sb_rdonly (st : state) (sb_flags : Z)
    (data : option string) (force : bool) :
  Z.land SB_RDONLY SB_POSIXACL = 0 ->
  (force = true -> Z.land sb_flags SB_RDONLY = SB_RDONLY) ->
  sb_rdonly (sb st) = true ->
  sb_rdonly (sb (snd (do_remount_sb env MS_RMT_MASK st sb_flags data force))) =
  true.
Proof.
  intros Hd Hforce Hro. unfold do_remount_sb.
  pose proof (remount_outcome st sb_flags data) as Hout.
  pose proof (remount_keeps_rdonly_bit env st sb_flags data Hd) as Hbit.
  cbv zeta in Hout.
  destruct (erofs_remount env st sb_flags data) as [[retval st1] flags1].
  cbn [fst snd] in Hout, Hbit.
  assert (Hwrite : forall f,
    Z.land f SB_RDONLY = SB_RDONLY ->
    sb_rdonly
      (sb (upd_sb (fun s =>
                     set_s_flags
                       (Z.lor (Z.ldiff (s_flags s) MS_RMT_MASK)
                          (Z.land f MS_RMT_MASK)) s) st1)) = true).
  { intros f Hf. unfold sb_rdonly in *.
    cbn [upd_sb sb set_s_flags s_flags].
    apply negb_true_iff. apply negb_true_iff in Hro.
    eapply land_superset_nonzero; [| exact Hro].
    apply write_back_keeps; assumption. }
  destruct Hout as [(-> & ->) | (Hneg & -> & Hfl)].
  - cbn [Z.eqb negb andb snd]. apply Hwrite. apply land_lor_same.
  - assert (Hne : (retval =? 0) = false) by (apply Z.eqb_neq; lia).
    rewrite Hne. cbn [negb andb]. destruct force; cbn [negb snd].
    + apply Hwrite. apply Hforce. reflexivity.
    + unfold sb_rdonly in *. rewrite Hfl. exact Hro.
Qed.

Lemma do_remounts_keep_rdonly (reqs : list (Z * option string * bool)) :
  Z.land SB_RDONLY SB_POSIXACL = 0 ->
  Forall (fun q => snd q = true ->
                   Z.land (fst (fst q)) SB_RDONLY = SB_RDONLY) reqs ->
  forall st,
    sb_rdonly (sb st) = true ->
    sb_rdonly (sb (do_remounts env MS_RMT_MASK st reqs)) = true.
Proof.
  intros Hd Hall. induction Hall as [| [[flags data] force] reqs Hq _ IH];
    intros st Hro; [exact Hro |].
  cbn [do_remounts]. apply IH.
  apply do_remount_sb_rdonly; assumption.
Qed.

(** C9.  Remounts leave the volume read-only.  Whatever flags and
    option string [erofs_remount] is given on a read-only volume, it
    either succeeds, and then the flags it hands back carry
    [SB_RDONLY], or it fails with a negative error, handing back the
    flags as they were and leaving [s_flags] untouched.  So the
    volume stays read-only through every series of remount requests,
    the VFS taking the bits of [MS_RMT_MASK], whichever they are, from
    the flags handed back by a remount that succeeded (a forced
    request, whose error is ignored, being one that asks for a
    read-only volume). *)
Theorem remount_rdonly (st : state) :
  Z.land SB_RDONLY SB_POSIXACL = 0 ->
  sb_rdonly (sb st) = true ->
  (forall (flags : Z) (data : option string),
     let r := erofs_remount env st flags data in
     (fst (fst r) = 0 /\
      Z.land (snd r) SB_RDONLY = SB_RDONLY /\
      sb_rdonly (sb (snd (fst r))) = true) \/
     (fst (fst r) < 0 /\
      snd r = flags /\
      s_flags (sb (snd (fst r))) = s_flags (sb st))) /\
  (forall reqs : list (Z * option string * bool),
     Forall (fun q => snd q = true ->
                      Z.land (fst (fst q)) SB_RDONLY = SB_RDONLY) reqs ->
     sb_rdonly (sb (do_remounts env MS_RMT_MASK st reqs)) = true).
Proof.
  intros Hd Hro. split.
  - intros flags data r. subst r.
    pose proof (remount_keeps_rdonly_bit env st flags data Hd) as Hbit.
    destruct (remount_outcome st flags data) as [(H0 & Hf) | Hfail];
      [left | right; exact Hfail].
    split; [exact H0 |]. split; [rewrite Hf; apply land_lor_same |].
    unfold sb_rdonly in *. rewrite Hbit. exact Hro.
  - intros reqs Hall. apply do_remounts_keep_rdonly; assumption.
Qed.

(** X18.  A volume that was mounted stays read-only through every
    series of remount requests, whatever flags and options they carry
    and whether they succeed or fail: [erofs_fill_super] sets
    [SB_RDONLY], and each remount that succeeds hands it back to the
    VFS among the flags that are written to [s_flags]. *)
Theorem mounted_stays_rdonly (st : state) (data : option string)
    (reqs : list (Z * option string * bool)) :
  SB_RDONLY <> 0 ->
  Z.land SB_RDONLY SB_POSIXACL = 0 ->
  Forall (fun q => snd q = true ->
                   Z.land (fst (fst q)) SB_RDONLY = SB_RDONLY) reqs ->
  fst (erofs_fill_super env crc32c st data) = 0 ->
  sb_rdonly
    (sb (do_remounts env MS_RMT_MASK
           (snd (erofs_fill_super env crc32c st data)) reqs)) = true.
Proof.
  intros Hne Hd Hall Hok. apply do_remounts_keep_rdonly; [exact Hd | exact Hall |].
  unfold sb_rdonly. rewrite (fill_super_rdonly env crc32c st data Hd Hok).
  apply negb_true_iff, Z.eqb_neq. exact Hne.
Qed.

End ReconfigureRdonly.

Lemma remount_rdonly_witness :
  let env := env_ok no_disk in
  (let r := @erofs_remount linux_abi kconfig_all env mounted 0
              (Some "noacl"%string) in
   fst (fst r) = 0 /\ Z.land (snd r) 1 = 1) /\
  (let r := @erofs_remount linux_abi kconfig_all env mounted 0
              (Some "bogus"%string) in
   fst (fst r) < 0 /\ s_flags (sb (snd (fst r))) = s_flags (sb mounted)) /\
  @sb_rdonly linux_abi
    (sb (@do_remounts linux_abi kconfig_all env 1 mounted
           [(0, Some "noacl"%string, false); (0, Some "bogus"%string, false);
            (1, None, true)])) = true.
Proof.
  intros env.
  destruct (@remount_rdonly linux_abi kconfig_all env 1 mounted
              eq_refl eq_refl) as [Hone Hall].
  split; [| split].
  - destruct (Hone 0 (Some "noacl"%string)) as [(H0 & Hf & _) | (Hneg & _)].
    + split; assumption.
    + exfalso. vm_compute in Hneg. discriminate.
  - destruct (Hone 0 (Some "bogus"%string)) as [(H0 & _) | (Hneg & _ & Hfl)].
    + exfalso. vm_compute in H0. discriminate.
    + split; assumption.
  - apply Hall. repeat constructor; cbn [fst snd]; try discriminate.
Defined.

Lemma mounted_stays_rdonly_witness :
  let env := serving (whole_disk [img_two]) in
  @sb_rdonly linux_abi
    (sb (@do_remounts linux_abi kconfig_all env 1
           (snd (@erofs_fill_super linux_abi kconfig_all env crc32c_le st_bdev
                   (Some "device=/dev/vdb,device=/dev/vdc"%string)))
           [(0, Some "noacl"%string, false); (0, Some "bogus"%string, false);
            (0, None, false)])) =
  true.
Proof.
  intros env.
  apply (@mounted_stays_rdonly linux_abi kconfig_all env crc32c_le 1 st_bdev
           (Some "device=/dev/vdb,device=/dev/vdc"%string)
           [(0, Some "noacl"%string, false); (0, Some "bogus"%string, false);
            (0, None, false)]).
  - discriminate.
  - reflexivity.
  - repeat constructor; cbn [snd]; discriminate.
  - vm_compute. reflexivity.
Defined.
